(** * My-Study-Schedule: a shallow embedding of [app.js]

    The planner keeps one record per calendar day (tasks, study topics,
    practice activities) in [localStorage] and one in-memory record for
    the day on screen.  This file embeds the storage manager, the date
    utilities, the application state and the three managers of [app.js]
    as functions over an explicit world, and proves properties of them.

    Conventions of the embedding.
    - A JavaScript string is a [string] read as its sequence of code
      units, each below 256.
    - A [Date] is the number of the local calendar day (days since
      1970-01-01); the time of day, which no function of the program
      reads, is left out.
    - A stored record is kept as a value: [JSON.parse] after
      [JSON.stringify] gives back the same fields for every record the
      managers build.
    - The two host facilities whose result is not a function of the
      program state, [Date.now()] and [Math.random()], are read from an
      oracle carried by the world; [String.prototype.localeCompare] is a
      parameter of the development. *)

From Stdlib Require Import ZArith Lia String Ascii List Sorting.Sorted.
From Stdlib Require Import Sorting.Permutation.
From Stdlib Require Import Floats.SpecFloat.
From stdpp Require Import base gmap strings list pretty.

Open Scope string_scope.
Open Scope list_scope.
Open Scope Z_scope.

(** ** JavaScript values *)

(** Numbers that the managers handle outside [getStats]: integers and
    [NaN] (the result of a failed [parseInt]). *)
Inductive Number : Type :=
  | NaN
  | Int (z : Z).

Inductive JsVal : Type :=
  | JUndefined
  | JNull
  | JBool (b : bool)
  | JNum (n : Number)
  | JStr (s : string).

Inductive JsError : Type :=
  | TypeError.

Module Js.

Definition isEmpty (s : string) : bool :=
  match s with EmptyString => true | String _ _ => false end.

(** ToBoolean. *)
Definition truthy (v : JsVal) : bool :=
  match v with
  | JUndefined | JNull => false
  | JBool b => b
  | JNum NaN => false
  | JNum (Int z) => negb (z =? 0)
  | JStr s => negb (isEmpty s)
  end.

(** [a || b]. *)
Definition or (a b : JsVal) : JsVal := if truthy a then a else b.

(** [a === b]. *)
Definition strictEq (a b : JsVal) : bool :=
  match a, b with
  | JUndefined, JUndefined => true
  | JNull, JNull => true
  | JBool x, JBool y => Bool.eqb x y
  | JNum (Int x), JNum (Int y) => x =? y
  | JStr x, JStr y => String.eqb x y
  | _, _ => false
  end.

(** ToString, on the values above. *)
Definition toString (v : JsVal) : string :=
  match v with
  | JUndefined => "undefined"
  | JNull => "null"
  | JBool true => "true"
  | JBool false => "false"
  | JNum NaN => "NaN"
  | JNum (Int z) => pretty z
  | JStr s => s
  end.

(** White space and line terminators among the code units below 256:
    TAB, LF, VT, FF, CR, SP and NBSP. *)
Definition isWhite (c : ascii) : bool :=
  let n := N_of_ascii c in
  (((9 <=? n) && (n <=? 13)) || (n =? 32) || (n =? 160))%N.

Fixpoint trimStart (s : string) : string :=
  match s with
  | EmptyString => EmptyString
  | String c s' => if isWhite c then trimStart s' else s
  end.

Fixpoint trimEnd (s : string) : string :=
  match s with
  | EmptyString => EmptyString
  | String c s' =>
      let t := trimEnd s' in
      if isWhite c && isEmpty t then EmptyString else String c t
  end.

(** [String.prototype.trim]. *)
Definition trim (s : string) : string := trimEnd (trimStart s).

(** [s.substr(k)] for [0 <= k]. *)
Fixpoint substr (k : nat) (s : string) : string :=
  match k, s with
  | O, _ => s
  | S k', String _ s' => substr k' s'
  | S _, EmptyString => EmptyString
  end.

(** [s.padStart(n, pad)] for a one-character [pad]. *)
Definition padStart (n : nat) (pad : ascii) (s : string) : string :=
  Nat.iter (n - String.length s)%nat (String pad) s.

(** The value of a character as a digit of some radix up to 36. *)
Definition digitValue (c : ascii) : option N :=
  let n := N_of_ascii c in
  if ((48 <=? n) && (n <=? 57))%N then Some (n - 48)%N
  else if ((97 <=? n) && (n <=? 122))%N then Some (n - 87)%N
  else if ((65 <=? n) && (n <=? 90))%N then Some (n - 55)%N
  else None.

(** The longest prefix of radix-[R] digits, as a number; [None] when
    that prefix is empty. *)
Fixpoint parseDigits (R : N) (acc : option N) (s : string) : option N :=
  match s with
  | EmptyString => acc
  | String c s' =>
      match digitValue c with
      | Some d =>
          if (d <? R)%N
          then parseDigits R (Some (default 0%N acc * R + d)%N) s'
          else acc
      | None => acc
      end
  end.

Definition stripSign (s : string) : bool * string :=
  match s with
  | String "-" s' => (true, s')
  | String "+" s' => (false, s')
  | _ => (false, s)
  end.

Definition stripHexPrefix (s : string) : N * string :=
  match s with
  | String "0" (String "x" s') => (16%N, s')
  | String "0" (String "X" s') => (16%N, s')
  | _ => (10%N, s)
  end.

(** [parseInt(v)] with no radix argument. *)
Definition parseInt (v : JsVal) : Number :=
  let '(neg, s1) := stripSign (trimStart (toString v)) in
  let '(R, s2) := stripHexPrefix s1 in
  match parseDigits R None s2 with
  | None => NaN
  | Some n => Int (if neg then - Z.of_N n else Z.of_N n)
  end.

(** [a + b] on numbers. *)
Definition add (a b : Number) : Number :=
  match a, b with
  | Int x, Int y => Int (x + y)
  | _, _ => NaN
  end.

(** [n || 0] on a number. *)
Definition orZero (n : Number) : Number :=
  match or (JNum n) (JNum (Int 0)) with
  | JNum m => m
  | _ => Int 0
  end.

Definition digit36 (d : N) : ascii :=
  if (d <? 10)%N then ascii_of_N (48 + d) else ascii_of_N (87 + d).

Fixpoint toRadix36 (fuel : nat) (n : N) (acc : string) : string :=
  match fuel with
  | O => acc
  | S f =>
      let acc' := String (digit36 (n mod 36)%N) acc in
      if (n / 36 =? 0)%N then acc' else toRadix36 f (n / 36)%N acc'
  end.

(** [n.toString(36)] for a non-negative integer. *)
Definition toString36 (n : N) : string :=
  toRadix36 (S (N.to_nat (N.size n))) n "".

(** [Array.prototype.sort(cmp)]: the sort is stable, so for a
    consistent comparator its result is the one that inserting each
    element before the first later-or-equal one produces. *)
Fixpoint insertSorted {A : Type} (cmp : A -> A -> comparison)
    (x : A) (l : list A) : list A :=
  match l with
  | [] => [x]
  | y :: l' =>
      match cmp x y with
      | Gt => y :: insertSorted cmp x l'
      | _ => x :: l
      end
  end.

Definition sort {A : Type} (cmp : A -> A -> comparison)
    (l : list A) : list A :=
  foldr (insertSorted cmp) [] l.

End Js.

(** ** Double-precision arithmetic, for the completion rate

    [getStats] divides two array lengths and multiplies by 100 in
    binary64; [Math.round] then takes the nearest integer, a half going
    up. *)
Module Float.

Definition prec : Z := 53.
Definition emax : Z := 1024.

(** The double nearest to an integer. *)
Definition ofZ (z : Z) : spec_float :=
  match z with
  | Z0 => S754_zero false
  | Zpos p => binary_normalize prec emax (Zpos p) 0 false
  | Zneg p => SFopp (binary_normalize prec emax (Zpos p) 0 false)
  end.

Definition div (x y : spec_float) : spec_float := SFdiv prec emax x y.
Definition mul (x y : spec_float) : spec_float := SFmul prec emax x y.

(** [Math.round]: the integer [floor (x + 1/2)], computed exactly. *)
Definition round (x : spec_float) : Number :=
  match x with
  | S754_zero _ => Int 0
  | S754_finite s m e =>
      let v := if s then Zneg m else Zpos m in
      if 0 <=? e then Int (v * 2 ^ e)
      else Int ((2 * v + 2 ^ (- e)) / (2 * 2 ^ (- e)))
  | S754_infinity _ | S754_nan => NaN
  end.

End Float.

(** ** The host's [Date], as a local day number *)
Module JsDate.

(** Year, month (1 to 12) and day of month of a day number, in the
    proleptic Gregorian calendar. *)
Definition civil (d : Z) : Z * Z * Z :=
  let z := d + 719468 in
  let era := z / 146097 in
  let doe := z - era * 146097 in
  let yoe := (doe - doe / 1460 + doe / 36524 - doe / 146096) / 365 in
  let doy := doe - (365 * yoe + yoe / 4 - yoe / 100) in
  let mp := (5 * doy + 2) / 153 in
  let dom := doy - (153 * mp + 2) / 5 + 1 in
  let m := if mp <? 10 then mp + 3 else mp - 9 in
  let y := yoe + era * 400 in
  (if m <=? 2 then y + 1 else y, m, dom).

Definition getFullYear (d : Z) : Z := (civil d).1.1.
Definition getMonth (d : Z) : Z := (civil d).1.2 - 1.
Definition getDate (d : Z) : Z := (civil d).2.
(** 0 is Sunday; day 0 (1970-01-01) was a Thursday. *)
Definition getDay (d : Z) : Z := (d + 4) mod 7.

(** [d.setDate(v)]: the day [v] of the month of [d], days outside the
    month counting on into the neighbouring months. *)
Definition setDate (d v : Z) : Z := d - getDate d + v.

(** [toLocaleDateString('en-US', { weekday: 'short' })]. *)
Definition weekdayShort (d : Z) : string :=
  match getDay d with
  | 0 => "Sun" | 1 => "Mon" | 2 => "Tue" | 3 => "Wed"
  | 4 => "Thu" | 5 => "Fri" | _ => "Sat"
  end.

End JsDate.

(** ** Date utilities *)
Module DateUtil.

Definition formatDate (date : Z) : string :=
  let year := JsDate.getFullYear date in
  let month :=
    Js.padStart 2 "0" (Js.toString (JNum (Int (JsDate.getMonth date + 1)))) in
  let day :=
    Js.padStart 2 "0" (Js.toString (JNum (Int (JsDate.getDate date)))) in
  Js.toString (JNum (Int year)) +:+ "-" +:+ month +:+ "-" +:+ day.

Definition getDayName (date : Z) : string := JsDate.weekdayShort date.

Definition getDateString (date : Z) : string :=
  Js.toString (JNum (Int (JsDate.getMonth date + 1))) +:+ "/" +:+
  Js.toString (JNum (Int (JsDate.getDate date))).

Definition addDays (date days : Z) : Z :=
  let result := date in
  JsDate.setDate result (JsDate.getDate result + days).

Definition getStartOfWeek (date : Z) : Z :=
  let result := date in
  let day := JsDate.getDay result in
  let diff := if day =? 0 then -6 else 1 - day in
  JsDate.setDate result (JsDate.getDate result + diff).

End DateUtil.

(** ** The data model *)

Module Task.
Record t : Type := mk {
  id : string;
  startTime : string;
  endTime : string;
  name : string;
  category : string;
  completed : bool
}.
End Task.

(** The [taskData] argument of the task operations. *)
Module TaskData.
Record t : Type := mk {
  startTime : string;
  endTime : string;
  name : string;
  category : string
}.
End TaskData.

Module Topic.
Record t : Type := mk {
  id : string;
  topic : string;
  duration : JsVal;
  difficulty : JsVal;
  resource : JsVal;
  notes : JsVal;
  date : string
}.
End Topic.

(** The [topicData] argument of [addTopic]; a field that is absent
    reads as [JUndefined]. *)
Module TopicData.
Record t : Type := mk {
  topic : JsVal;
  duration : JsVal;
  difficulty : JsVal;
  resource : JsVal;
  notes : JsVal
}.
End TopicData.

Module Activity.
Record t : Type := mk {
  id : string;
  type : JsVal;
  duration : JsVal;
  completed : bool;
  content : JsVal;
  notes : JsVal;
  date : string
}.
End Activity.

(** The [activityData] argument of [addActivity]. *)
Module ActivityData.
Record t : Type := mk {
  type : JsVal;
  duration : JsVal;
  completed : JsVal;
  content : JsVal;
  notes : JsVal
}.
End ActivityData.

(** One day's record.  [tasks] and [dsTopics] are arrays in every record
    the program writes; [englishActivities] may be missing, which the
    activity manager tests for. *)
Module DayRecord.
Record t : Type := mk {
  tasks : list Task.t;
  dsTopics : list Topic.t;
  englishActivities : option (list Activity.t)
}.

Definition setTasks (l : list Task.t) (r : t) : t :=
  mk l (dsTopics r) (englishActivities r).
Definition setDsTopics (l : list Topic.t) (r : t) : t :=
  mk (tasks r) l (englishActivities r).
Definition setEnglishActivities (l : list Activity.t) (r : t) : t :=
  mk (tasks r) (dsTopics r) (Some l).
End DayRecord.

(** ** The world: application state, storage and the host's oracle *)

(** One reading of the clock and of the random source: [Date.now()] and
    the text of [Math.random().toString(36)]. *)
Record Draw : Type := mkDraw {
  now : N;
  random36 : string
}.

Record World : Type := mkWorld {
  currentDate : Z;
  currentData : DayRecord.t;
  editingTaskId : option string;
  localStorage : gmap string DayRecord.t;
  oracle : nat -> Draw;
  drawn : nat
}.

Definition withData (d : DayRecord.t) (w : World) : World :=
  mkWorld (currentDate w) d (editingTaskId w) (localStorage w)
    (oracle w) (drawn w).

Definition withDate (date : Z) (w : World) : World :=
  mkWorld date (currentData w) (editingTaskId w) (localStorage w)
    (oracle w) (drawn w).

Definition withStorage (s : gmap string DayRecord.t) (w : World) : World :=
  mkWorld (currentDate w) (currentData w) (editingTaskId w) s
    (oracle w) (drawn w).

Definition withDrawn (n : nat) (w : World) : World :=
  mkWorld (currentDate w) (currentData w) (editingTaskId w) (localStorage w)
    (oracle w) n.

Definition withEditing (e : option string) (w : World) : World :=
  mkWorld (currentDate w) (currentData w) e (localStorage w)
    (oracle w) (drawn w).

(** How a call ends: normally with a value, or by a thrown error; either
    way the world is the one reached at that point. *)
Inductive Completion (A : Type) : Type :=
  | Normal (a : A) (w : World)
  | Throw (e : JsError) (w : World).
Arguments Normal {A} a w.
Arguments Throw {A} e w.

Definition Script (A : Type) : Type := World -> Completion A.

#[global] Instance Script_ret : MRet Script :=
  fun A a w => Normal a w.

#[global] Instance Script_bind : MBind Script :=
  fun A B f m w =>
    match m w with
    | Normal a w' => f a w'
    | Throw e w' => Throw e w'
    end.

Definition throw {A : Type} (e : JsError) : Script A := fun w => Throw e w.
Definition get : Script World := fun w => Normal w w.
Definition modify (f : World -> World) : Script unit :=
  fun w => Normal tt (f w).

(** The world a call leaves behind, however it ends. *)
Definition worldOf {A : Type} (c : Completion A) : World :=
  match c with Normal _ w => w | Throw _ w => w end.

(** [for (let i = i0; ...; i++)] running [k] times, threading an
    accumulator. *)
Fixpoint forAcc {A : Type} (k : nat) (i : Z) (body : Z -> A -> Script A)
    (acc : A) : Script A :=
  match k with
  | O => mret acc
  | S k' => acc' ← body i acc; forAcc k' (i + 1) body acc'
  end.

(** [v.trim()]: defined on strings only. *)
Definition callTrim (v : JsVal) : Script string :=
  match v with
  | JStr s => mret (Js.trim s)
  | _ => throw TypeError
  end.

(** [Date.now().toString(36) + Math.random().toString(36).substr(2)]:
    the body of [generateId], which the three managers each repeat. *)
Definition clockRandomToken : Script string :=
  w ← get;
  let d := oracle w (drawn w) in
  modify (withDrawn (S (drawn w)));;
  mret (Js.toString36 (now d) +:+ Js.substr 2 (random36 d)).

(** [String.prototype.localeCompare], by the sign of its result.  The
    host's collation is not fixed by the program; what the development
    uses of it is stated in [CollatorLaws]. *)
Class Collator : Type :=
  localeCompare : string -> string -> comparison.

Definition isDigit (c : ascii) : bool :=
  let n := N_of_ascii c in ((48 <=? n) && (n <=? 57))%N.

(** A zero-padded 24h time, as a time input yields it: two digits, a
    colon, two digits. *)
Definition isHHMM (s : string) : bool :=
  match s with
  | String a (String b (String c (String d (String e EmptyString)))) =>
      isDigit a && isDigit b && Ascii.eqb c ":" && isDigit d && isDigit e
  | _ => false
  end.

(** On zero-padded times the collation compares code unit by code unit. *)
Class CollatorLaws (C : Collator) : Prop :=
  localeCompare_HHMM :
    forall a b : string,
      isHHMM a = true -> isHHMM b = true ->
      localeCompare a b = String.compare a b.

(** The collation that compares code units, for running the model. *)
Definition codeUnitCollator : Collator := String.compare.

(** ** Storage manager *)
Module StorageManager.

Definition getDefaultDateData : DayRecord.t :=
  DayRecord.mk [] [] (Some []).

Definition key (date : string) : string := "schedule_" +:+ date.

Definition getDateData (date : string) : Script DayRecord.t :=
  w ← get;
  mret (default getDefaultDateData (localStorage w !! key date)).

Definition saveDateData (date : string) (data : DayRecord.t)
    : Script unit :=
  modify (fun w => withStorage (<[key date := data]> (localStorage w)) w).

Definition clearAll : Script unit := modify (withStorage ∅).

End StorageManager.

(** ** Application state *)
Module AppState.

Definition getCurrentDateString : Script string :=
  w ← get; mret (DateUtil.formatDate (currentDate w)).

Definition setDate (date : Z) : Script unit :=
  modify (withDate date);;
  s ← getCurrentDateString;
  d ← StorageManager.getDateData s;
  modify (withData d).

Definition save : Script unit :=
  s ← getCurrentDateString;
  w ← get;
  StorageManager.saveDateData s (currentData w).

Definition prevDay : Script unit :=
  w ← get; setDate (DateUtil.addDays (currentDate w) (-1)).

Definition nextDay : Script unit :=
  w ← get; setDate (DateUtil.addDays (currentDate w) 1).

(** Assignment to a collection of [AppState.currentData]. *)
Definition setTasks (l : list Task.t) : Script unit :=
  modify (fun w => withData (DayRecord.setTasks l (currentData w)) w).
Definition setDsTopics (l : list Topic.t) : Script unit :=
  modify (fun w => withData (DayRecord.setDsTopics l (currentData w)) w).
Definition setEnglishActivities (l : list Activity.t) : Script unit :=
  modify (fun w =>
    withData (DayRecord.setEnglishActivities l (currentData w)) w).

(** [init], with the current date already in the state. *)
Definition init : Script unit :=
  s ← getCurrentDateString;
  d ← StorageManager.getDateData s;
  modify (withData d).

End AppState.

(** ** Task manager *)

Record Stats : Type := mkStats {
  total : nat;
  completed : nat;
  rate : Number
}.

(** [total > 0 ? Math.round((completed / total) * 100) : 0], which
    [getStats] and [renderWeeklyOverview] each write out. *)
Definition completionRate (total completed : nat) : Number :=
  if (0 <? total)%nat
  then Float.round
         (Float.mul
            (Float.div (Float.ofZ (Z.of_nat completed))
                       (Float.ofZ (Z.of_nat total)))
            (Float.ofZ 100))
  else Int 0.

Module TaskManager.

Definition generateId : Script string := clockRandomToken.

(** [(a, b) => a.startTime.localeCompare(b.startTime)]. *)
Definition byStartTime `{Collator} (a b : Task.t) : comparison :=
  localeCompare (Task.startTime a) (Task.startTime b).

Definition sortTasks `{Collator} : Script unit :=
  w ← get;
  AppState.setTasks (Js.sort byStartTime (DayRecord.tasks (currentData w))).

Definition addTask `{Collator} (taskData : TaskData.t) : Script Task.t :=
  id ← generateId;
  let task :=
    Task.mk id (TaskData.startTime taskData) (TaskData.endTime taskData)
      (TaskData.name taskData) (TaskData.category taskData) false in
  w ← get;
  AppState.setTasks (DayRecord.tasks (currentData w) ++ [task]);;
  sortTasks;;
  AppState.save;;
  mret task.

Definition addRecurringTask `{Collator} (taskData : TaskData.t)
    (numDays : Z) : Script unit :=
  w ← get;
  let currentDate := currentDate w in
  forAcc (Z.to_nat numDays) 0
    (fun i _ =>
       let targetDate := DateUtil.addDays currentDate i in
       let dateString := DateUtil.formatDate targetDate in
       dateData ← StorageManager.getDateData dateString;
       id ← generateId;
       let task :=
         Task.mk id (TaskData.startTime taskData)
           (TaskData.endTime taskData) (TaskData.name taskData)
           (TaskData.category taskData) false in
       let pushed := DayRecord.tasks dateData ++ [task] in
       StorageManager.saveDateData dateString
         (DayRecord.setTasks (Js.sort byStartTime pushed) dateData))
    tt;;
  s ← AppState.getCurrentDateString;
  d ← StorageManager.getDateData s;
  modify (withData d).

Definition updateTask `{Collator} (id : string) (taskData : TaskData.t)
    : Script unit :=
  w ← get;
  let tasks := DayRecord.tasks (currentData w) in
  match list_find (fun t => Task.id t = id) tasks with
  | Some (k, task) =>
      let task' :=
        Task.mk (Task.id task) (TaskData.startTime taskData)
          (TaskData.endTime taskData) (TaskData.name taskData)
          (TaskData.category taskData) (Task.completed task) in
      AppState.setTasks (<[k := task']> tasks);;
      sortTasks;;
      AppState.save
  | None => mret tt
  end.

Definition deleteTask (id : string) : Script unit :=
  w ← get;
  AppState.setTasks
    (List.filter (fun t => negb (String.eqb (Task.id t) id))
       (DayRecord.tasks (currentData w)));;
  AppState.save.

Definition toggleTask (id : string) : Script unit :=
  w ← get;
  let tasks := DayRecord.tasks (currentData w) in
  match list_find (fun t => Task.id t = id) tasks with
  | Some (k, task) =>
      let task' :=
        Task.mk (Task.id task) (Task.startTime task) (Task.endTime task)
          (Task.name task) (Task.category task)
          (negb (Task.completed task)) in
      AppState.setTasks (<[k := task']> tasks);;
      AppState.save
  | None => mret tt
  end.

Definition getTask (id : string) : Script (option Task.t) :=
  w ← get;
  mret (snd <$> list_find (fun t => Task.id t = id)
                  (DayRecord.tasks (currentData w))).

Definition getStats : Script Stats :=
  w ← get;
  let tasks := DayRecord.tasks (currentData w) in
  let total := length tasks in
  let completed := length (List.filter Task.completed tasks) in
  let rate := completionRate total completed in
  mret (mkStats total completed rate).

End TaskManager.

(** ** Data Science topic manager *)

Record TopicSummary : Type := mkTopicSummary {
  totalSessions : nat;
  topicMinutes : Number
}.

(** [(sum, t) => sum + (parseInt(t.duration) || 0)], on the duration. *)
Definition addMinutes (sum : Number) (duration : JsVal) : Number :=
  Js.add sum (Js.orZero (Js.parseInt duration)).

Module DSTopicManager.

Definition generateId : Script string := clockRandomToken.

Definition addTopic (topicData : TopicData.t) : Script unit :=
  guard ← callTrim (TopicData.topic topicData);
  if Js.truthy (JStr guard) then
    id ← generateId;
    topic ← callTrim (TopicData.topic topicData);
    let duration := Js.or (TopicData.duration topicData) JNull in
    let difficulty :=
      Js.or (TopicData.difficulty topicData) (JStr "Intermediate") in
    let resource := Js.or (TopicData.resource topicData) (JStr "Other") in
    notes ← callTrim (TopicData.notes topicData);
    date ← AppState.getCurrentDateString;
    let entry :=
      Topic.mk id topic duration difficulty resource
        (Js.or (JStr notes) JNull) date in
    w ← get;
    AppState.setDsTopics (DayRecord.dsTopics (currentData w) ++ [entry]);;
    AppState.save
  else mret tt.

Definition deleteTopic (id : string) : Script unit :=
  w ← get;
  AppState.setDsTopics
    (List.filter (fun t => negb (String.eqb (Topic.id t) id))
       (DayRecord.dsTopics (currentData w)));;
  AppState.save.

(** [AppState.currentData.dsTopics || []]; an array is truthy. *)
Definition getTopics : Script (list Topic.t) :=
  w ← get; mret (DayRecord.dsTopics (currentData w)).

Definition getSummary : Script TopicSummary :=
  topics ← getTopics;
  let totalSessions := length topics in
  let totalMinutes :=
    foldl (fun sum t => addMinutes sum (Topic.duration t)) (Int 0) topics in
  mret (mkTopicSummary totalSessions totalMinutes).

End DSTopicManager.

(** ** English activity manager *)

Record ActivitySummary : Type := mkActivitySummary {
  totalActivities : nat;
  completedActivities : nat;
  activityMinutes : Number
}.

Module EnglishManager.

Definition generateId : Script string := clockRandomToken.

Definition addActivity (activityData : ActivityData.t) : Script unit :=
  id ← generateId;
  let type := ActivityData.type activityData in
  let duration := Js.or (ActivityData.duration activityData) JNull in
  let completed :=
    Js.strictEq (ActivityData.completed activityData) (JStr "true") in
  content ← callTrim (ActivityData.content activityData);
  notes ← callTrim (ActivityData.notes activityData);
  date ← AppState.getCurrentDateString;
  let activity :=
    Activity.mk id type duration completed (Js.or (JStr content) JNull)
      (Js.or (JStr notes) JNull) date in
  w ← get;
  match DayRecord.englishActivities (currentData w) with
  | None => AppState.setEnglishActivities []
  | Some _ => mret tt
  end;;
  w ← get;
  AppState.setEnglishActivities
    (default [] (DayRecord.englishActivities (currentData w))
     ++ [activity]);;
  AppState.save.

Definition deleteActivity (id : string) : Script unit :=
  w ← get;
  match DayRecord.englishActivities (currentData w) with
  | None => mret tt
  | Some activities =>
      AppState.setEnglishActivities
        (List.filter (fun a => negb (String.eqb (Activity.id a) id))
           activities);;
      AppState.save
  end.

(** [AppState.currentData.englishActivities || []]. *)
Definition getActivities : Script (list Activity.t) :=
  w ← get;
  mret (default [] (DayRecord.englishActivities (currentData w))).

Definition getSummary : Script ActivitySummary :=
  activities ← getActivities;
  let totalActivities := length activities in
  let completedActivities :=
    length (List.filter Activity.completed activities) in
  let totalMinutes :=
    foldl (fun sum a => addMinutes sum (Activity.duration a)) (Int 0)
      activities in
  mret (mkActivitySummary totalActivities completedActivities totalMinutes).

End EnglishManager.

(** ** Weekly overview *)

(** What one day card of the weekly overview shows; the markup around
    the three values is left out. *)
Record DayCard : Type := mkDayCard {
  dayName : string;
  dayDate : string;
  dayCompletion : Number
}.

Module UI.

Definition renderWeeklyOverview : Script (list DayCard) :=
  w ← get;
  let startOfWeek := DateUtil.getStartOfWeek (currentDate w) in
  forAcc 7 0
    (fun i html =>
       let date := DateUtil.addDays startOfWeek i in
       let dateString := DateUtil.formatDate date in
       data ← StorageManager.getDateData dateString;
       let total := length (DayRecord.tasks data) in
       let completed :=
         length (List.filter Task.completed (DayRecord.tasks data)) in
       let rate := completionRate total completed in
       mret (html ++ [mkDayCard (DateUtil.getDayName date)
                        (DateUtil.getDateString date) rate]))
    [].

(** The modal dialogs: what they do to the application state.  The
    form fields they fill are returned, not kept in the world. *)
Definition openAddTaskModal : Script unit := modify (withEditing None).

Definition openEditTaskModal (taskId : string)
    : Script (option TaskData.t) :=
  modify (withEditing (Some taskId));;
  task ← TaskManager.getTask taskId;
  mret (match task with
        | Some t =>
            Some (TaskData.mk (Task.startTime t) (Task.endTime t)
                    (Task.name t) (Task.category t))
        | None => None
        end).

Definition closeTaskModal : Script unit := modify (withEditing None).

(** [Math.floor(totalMinutes / 60)] and [totalMinutes % 60]. *)
Definition floorDiv60 (n : Number) : Number :=
  match n with Int z => Int (z / 60) | NaN => NaN end.
Definition rem60 (n : Number) : Number :=
  match n with Int z => Int (Z.rem z 60) | NaN => NaN end.

(** [hours > 0 ? `${hours}h ${minutes}m` : `${minutes}m`], the time
    text of the two summary panels. *)
Definition timeText (totalMinutes : Number) : string :=
  let hours := floorDiv60 totalMinutes in
  let minutes := rem60 totalMinutes in
  if match hours with Int h => 0 <? h | NaN => false end
  then Js.toString (JNum hours) +:+ "h " +:+ Js.toString (JNum minutes)
       +:+ "m"
  else Js.toString (JNum minutes) +:+ "m".


(** What the practice summary panel shows: nothing without activities,
    otherwise completed, total and the time text. *)
Definition renderEnglishSummary : Script (option (nat * nat * string)) :=
  summary ← EnglishManager.getSummary;
  if (totalActivities summary =? 0)%nat then mret None
  else mret (Some (completedActivities summary, totalActivities summary,
                   timeText (activityMinutes summary))).

End UI.

(** ** Event handlers

    One definition per listener that [EventHandlers.init] and the render
    functions register; what a listener reads from the page (field
    values, a checkbox, the answer to a confirm dialog) is its
    argument.  Redrawing the page is left out. *)
Module EventHandlers.

Definition onPrevDay : Script unit := AppState.prevDay.
Definition onNextDay : Script unit := AppState.nextDay.
Definition onAddTaskClick : Script unit := UI.openAddTaskModal.
Definition onEditClick (taskId : string) : Script unit :=
  UI.openEditTaskModal taskId;; mret tt.
Definition onCloseModal : Script unit := UI.closeTaskModal.

(** [parseInt(value) || 30]. *)
Definition recurringDays (value : string) : Z :=
  match Js.or (JNum (Js.parseInt (JStr value))) (JNum (Int 30)) with
  | JNum (Int z) => z
  | _ => 30
  end.

(** [if (AppState.editingTaskId)]. *)
Definition editing (w : World) : option string :=
  match editingTaskId w with
  | Some id => if Js.truthy (JStr id) then Some id else None
  | None => None
  end.

(** The submit listener of the task form. *)
Definition onTaskFormSubmit `{Collator} (taskData : TaskData.t)
    (isRecurring : bool) (recurringDaysValue : string) : Script unit :=
  (if isRecurring then
     let numDays := recurringDays recurringDaysValue in
     TaskManager.addRecurringTask taskData numDays
   else
     TaskManager.addTask taskData;; mret tt);;
  w ← get;
  match editing w with
  | Some id => TaskManager.updateTask id taskData
  | None => TaskManager.addTask taskData;; mret tt
  end;;
  UI.closeTaskModal.

Definition onTaskCheckbox (taskId : string) : Script unit :=
  TaskManager.toggleTask taskId.

Definition onTaskDelete (taskId : string) (confirmed : bool) : Script unit :=
  if confirmed then TaskManager.deleteTask taskId else mret tt.

(** The save listener of the study form. *)
Definition onSaveDSTopic (topic duration difficulty resource notes : string)
    : Script unit :=
  if Js.truthy (JStr (Js.trim topic)) then
    DSTopicManager.addTopic
      (TopicData.mk (JStr topic) (JStr duration) (JStr difficulty)
         (JStr resource) (JStr notes))
  else mret tt.

Definition onTopicDelete (topicId : string) (confirmed : bool)
    : Script unit :=
  if confirmed then DSTopicManager.deleteTopic topicId else mret tt.

(** The save listener of the practice form. *)
Definition onSaveEnglish (type duration completed content notes : string)
    : Script unit :=
  EnglishManager.addActivity
    (ActivityData.mk (JStr type) (JStr duration) (JStr completed)
       (JStr content) (JStr notes)).

Definition onActivityDelete (activityId : string) (confirmed : bool)
    : Script unit :=
  if confirmed then EnglishManager.deleteActivity activityId else mret tt.

End EventHandlers.

(** What the user can do on the page, one constructor per listener. *)
Inductive Event : Type :=
  | EvPrevDay
  | EvNextDay
  | EvAddTaskClick
  | EvEditClick (taskId : string)
  | EvCloseModal
  | EvSubmitTask (taskData : TaskData.t) (isRecurring : bool)
      (recurringDaysValue : string)
  | EvTaskCheckbox (taskId : string)
  | EvTaskDelete (taskId : string) (confirmed : bool)
  | EvSaveDSTopic (topic duration difficulty resource notes : string)
  | EvTopicDelete (topicId : string) (confirmed : bool)
  | EvSaveEnglish (type duration completed content notes : string)
  | EvActivityDelete (activityId : string) (confirmed : bool).

Definition dispatch `{Collator} (e : Event) : Script unit :=
  match e with
  | EvPrevDay => EventHandlers.onPrevDay
  | EvNextDay => EventHandlers.onNextDay
  | EvAddTaskClick => EventHandlers.onAddTaskClick
  | EvEditClick id => EventHandlers.onEditClick id
  | EvCloseModal => EventHandlers.onCloseModal
  | EvSubmitTask td r v => EventHandlers.onTaskFormSubmit td r v
  | EvTaskCheckbox id => EventHandlers.onTaskCheckbox id
  | EvTaskDelete id c => EventHandlers.onTaskDelete id c
  | EvSaveDSTopic t d f r n => EventHandlers.onSaveDSTopic t d f r n
  | EvTopicDelete id c => EventHandlers.onTopicDelete id c
  | EvSaveEnglish t d c x n => EventHandlers.onSaveEnglish t d c x n
  | EvActivityDelete id c => EventHandlers.onActivityDelete id c
  end.

(** The world after a sequence of events, each run to its end. *)
Definition runEvents `{Collator} (es : list Event) (w : World) : World :=
  foldl (fun w e => worldOf (dispatch e w)) w es.

(** * Vocabulary of the statements *)

(** The inverse of [JsDate.civil], used to show that different days have
    different keys. *)
Definition daysFromCivil (c : Z * Z * Z) : Z :=
  let '(y0, m, d) := c in
  let y := if m <=? 2 then y0 - 1 else y0 in
  let era := y / 400 in
  let yoe := y - era * 400 in
  let mp := if 2 <? m then m - 3 else m + 9 in
  let doy := (153 * mp + 2) / 5 + d - 1 in
  let doe := yoe * 365 + yoe / 4 - yoe / 100 + doy in
  era * 146097 + doe - 719468.

(** The two-character fields of a key, for the months and the days of a
    month. *)
Definition twoDigits (n : Z) : string :=
  Js.padStart 2 "0" (Js.toString (JNum (Int n))).

(** Reading a two-character field back. *)
Definition readTwoDigits (s : string) : Z :=
  Z.of_N (default 0%N (Js.parseDigits 10 None s)).

(** The record that [getDateData] returns for a day. *)
Definition storedRecord (w : World) (date : Z) : DayRecord.t :=
  default StorageManager.getDefaultDateData
    (localStorage w !! StorageManager.key (DateUtil.formatDate date)).

(** [a] starts no later than [b], code unit by code unit. *)
Definition startsNoLater (a b : Task.t) : Prop :=
  String.leb (Task.startTime a) (Task.startTime b) = true.

(** Ascending by [startTime] under lexicographic comparison. *)
Definition tasksSorted (l : list Task.t) : Prop :=
  StronglySorted startsNoLater l.

(** Every start time is a zero-padded "HH:MM". *)
Definition timesOK (l : list Task.t) : Prop :=
  Forall (fun t => isHHMM (Task.startTime t) = true) l.

(** The tasks of [l] that start at [s], in the order of [l]. *)
Definition startingAt (s : string) (l : list Task.t) : list Task.t :=
  List.filter (fun t => String.eqb (Task.startTime t) s) l.

(** [after] is [before] sorted by start time, tasks of equal start time
    keeping the order they had in [before]. *)
Definition StableSortOf (before after : list Task.t) : Prop :=
  tasksSorted after /\
  forall s : string, startingAt s after = startingAt s before.

(** The task that an add builds from [taskData] and an id. *)
Definition newTask (id : string) (taskData : TaskData.t) : Task.t :=
  Task.mk id (TaskData.startTime taskData) (TaskData.endTime taskData)
    (TaskData.name taskData) (TaskData.category taskData) false.

(** The task that an update leaves in place of [task]. *)
Definition updatedTask (task : Task.t) (taskData : TaskData.t) : Task.t :=
  Task.mk (Task.id task) (TaskData.startTime taskData)
    (TaskData.endTime taskData) (TaskData.name taskData)
    (TaskData.category taskData) (Task.completed task).

(** The id that the [k]-th call of [generateId] from [w] on returns. *)
Definition tokenAt (w : World) (k : nat) : string :=
  let d := oracle w (k + drawn w)%nat in
  Js.toString36 (now d) +:+ Js.substr 2 (random36 d).

(** The world after [AppState.save]: the record on screen is written
    under the key of the current date. *)
Definition persisted (w : World) : World :=
  withStorage
    (<[StorageManager.key (DateUtil.formatDate (currentDate w))
       := currentData w]> (localStorage w)) w.

(** The comparator of [sortTasks] under the code-unit collation. *)
Definition byCodeUnits (a b : Task.t) : comparison :=
  String.compare (Task.startTime a) (Task.startTime b).

(** The world after one turn of the loop of [addRecurringTask], [i]
    days from [start]. *)
Definition recurringTurn `{Collator} (td : TaskData.t) (start i : Z)
    (w : World) : World :=
  let dateString := DateUtil.formatDate (DateUtil.addDays start i) in
  let dateData :=
    default StorageManager.getDefaultDateData
      (localStorage w !! StorageManager.key dateString) in
  let pushed := DayRecord.tasks dateData ++ [newTask (tokenAt w 0) td] in
  withStorage
    (<[StorageManager.key dateString :=
         DayRecord.setTasks (Js.sort TaskManager.byStartTime pushed) dateData]>
       (localStorage w))
    (withDrawn (S (drawn w)) w).

(** The world after [k] turns, the first of them [i] days from [start]. *)
Fixpoint recurringTurns `{Collator} (td : TaskData.t) (start : Z) (k : nat)
    (i : Z) (w : World) : World :=
  match k with
  | O => w
  | S k' => recurringTurns td start k' (i + 1) (recurringTurn td start i w)
  end.

(** The task mutations. *)
Inductive TaskOp : Type :=
  | OpAdd (taskData : TaskData.t)
  | OpAddRecurring (taskData : TaskData.t) (numDays : Z)
  | OpUpdate (id : string) (taskData : TaskData.t).

Definition opData (op : TaskOp) : TaskData.t :=
  match op with
  | OpAdd td | OpAddRecurring td _ | OpUpdate _ td => td
  end.

Definition runOp `{Collator} (op : TaskOp) : Script unit :=
  match op with
  | OpAdd td => TaskManager.addTask td;; mret tt
  | OpAddRecurring td n => TaskManager.addRecurringTask td n
  | OpUpdate id td => TaskManager.updateTask id td
  end.

(** The worlds reached after each operation of a sequence. *)
Fixpoint worldsAfter `{Collator} (ops : list TaskOp) (w : World)
    : list World :=
  match ops with
  | [] => []
  | op :: ops' =>
      let w' := worldOf (runOp op w) in w' :: worldsAfter ops' w'
  end.

(** All start times in memory and in storage are zero-padded times. *)
Definition worldTimesOK (w : World) : Prop :=
  timesOK (DayRecord.tasks (currentData w)) /\
  forall (k : string) (r : DayRecord.t),
    localStorage w !! k = Some r -> timesOK (DayRecord.tasks r).

(** The ordering invariant: the record on screen and every stored record
    have their tasks sorted. *)
Definition worldSorted (w : World) : Prop :=
  tasksSorted (DayRecord.tasks (currentData w)) /\
  forall (k : string) (r : DayRecord.t),
    localStorage w !! k = Some r -> tasksSorted (DayRecord.tasks r).

(** What one task mutation does to the task list it touches: the list
    (with the new or rewritten task in it) is stably sorted. *)
Definition opSortsStably (op : TaskOp) (w w' : World) : Prop :=
  match op with
  | OpAdd td =>
      StableSortOf
        (DayRecord.tasks (currentData w) ++ [newTask (tokenAt w 0) td])
        (DayRecord.tasks (currentData w'))
  | OpAddRecurring td n =>
      (forall i : nat, (i < Z.to_nat n)%nat ->
         StableSortOf
           (DayRecord.tasks (storedRecord w (currentDate w + Z.of_nat i))
            ++ [newTask (tokenAt w i) td])
           (DayRecord.tasks (storedRecord w' (currentDate w + Z.of_nat i))))
      /\ currentData w' = storedRecord w' (currentDate w)
  | OpUpdate id td =>
      match list_find (fun t => Task.id t = id)
              (DayRecord.tasks (currentData w)) with
      | Some (k, task) =>
          StableSortOf
            (<[k := updatedTask task td]> (DayRecord.tasks (currentData w)))
            (DayRecord.tasks (currentData w'))
      | None => w' = w
      end
  end.

(** [P] holds of every operation of a sequence, between the world it
    starts from and the world it leaves. *)
Fixpoint eachStep `{Collator} (P : TaskOp -> World -> World -> Prop)
    (ops : list TaskOp) (w : World) : Prop :=
  match ops with
  | [] => True
  | op :: ops' =>
      let w' := worldOf (runOp op w) in P op w w' /\ eachStep P ops' w'
  end.

(** The start time an operation brings is a zero-padded time. *)
Definition opTimeOK (op : TaskOp) : Prop :=
  isHHMM (TaskData.startTime (opData op)) = true.

(** [num / den] rounded to the nearest integer, a half going up. *)
Definition roundHalfUp (num den : Z) : Z := (2 * num + den) / (2 * den).

(** What a duration counts for in a summary: the integer [parseInt]
    reads from it, 0 when it reads none. *)
Definition minutes (duration : JsVal) : Z :=
  match Js.parseInt duration with
  | Int z => z
  | NaN => 0
  end.



(** Every character is a decimal digit. *)
Fixpoint allDigits (s : string) : bool :=
  match s with
  | EmptyString => true
  | String c s' => isDigit c && allDigits s'
  end.

(** The card of the weekly overview for one day, from what is stored
    for that day. *)
Definition dayCardOf (w : World) (date : Z) : DayCard :=
  let tasks := DayRecord.tasks (storedRecord w date) in
  mkDayCard (DateUtil.getDayName date) (DateUtil.getDateString date)
    (completionRate (length tasks)
       (length (List.filter Task.completed tasks))).

(** The first day of the week that the overview shows. *)
Definition weekStart (w : World) : Z :=
  DateUtil.getStartOfWeek (currentDate w).

(** ISO weekday: Monday is 1, Sunday is 7. *)
Definition isoWeekday (d : Z) : Z :=
  if JsDate.getDay d =? 0 then 7 else JsDate.getDay d.

Definition isStr (v : JsVal) : bool :=
  match v with JStr _ => true | _ => false end.

(** ** Vocabulary of the further properties *)

(** The record on screen is the one that storage holds for the current
    date (the empty record when it holds none). *)
Definition inSync (w : World) : Prop :=
  storedRecord w (currentDate w) = currentData w.

(** A property of records that holds of the record on screen and of
    every stored record. *)
Definition WorldInv (P : DayRecord.t -> Prop) (w : World) : Prop :=
  P (currentData w) /\
  forall (k : string) (r : DayRecord.t), localStorage w !! k = Some r -> P r.

(** The task that a toggle leaves in place of [task]. *)
Definition toggledTask (task : Task.t) : Task.t :=
  Task.mk (Task.id task) (Task.startTime task) (Task.endTime task)
    (Task.name task) (Task.category task) (negb (Task.completed task)).

(** [id] is not the id of any task of [l]. *)
Definition idAbsent (id : string) (l : list Task.t) : Prop :=
  forall t, In t l -> Task.id t <> id.

(** The topic text is not empty and has no blanks around it. *)
Definition cleanTopic (t : Topic.t) : Prop :=
  Topic.topic t <> "" /\ Js.trim (Topic.topic t) = Topic.topic t.

(** The number of completed tasks. *)
Definition completedCount (l : list Task.t) : nat :=
  length (List.filter Task.completed l).

(** The ways in which the managers change one record.  [okTd] says
    which task inputs are let in. *)
Inductive Changed `{Collator} (okTd : TaskData.t -> Prop)
    : DayRecord.t -> DayRecord.t -> Prop :=
  | ch_add (r : DayRecord.t) (id : string) (td : TaskData.t) :
      okTd td -> id <> "" ->
      Changed okTd r
        (DayRecord.setTasks
           (Js.sort TaskManager.byStartTime
              (DayRecord.tasks r ++ [newTask id td])) r)
  | ch_update (r : DayRecord.t) (k : nat) (t : Task.t) (td : TaskData.t) :
      okTd td -> DayRecord.tasks r !! k = Some t ->
      Changed okTd r
        (DayRecord.setTasks
           (Js.sort TaskManager.byStartTime
              (<[k := updatedTask t td]> (DayRecord.tasks r))) r)
  | ch_delete (r : DayRecord.t) (id : string) :
      Changed okTd r
        (DayRecord.setTasks
           (List.filter (fun t => negb (String.eqb (Task.id t) id))
              (DayRecord.tasks r)) r)
  | ch_toggle (r : DayRecord.t) (k : nat) (t : Task.t) :
      DayRecord.tasks r !! k = Some t ->
      Changed okTd r
        (DayRecord.setTasks (<[k := toggledTask t]> (DayRecord.tasks r)) r)
  | ch_topic (r : DayRecord.t) (entry : Topic.t) :
      cleanTopic entry ->
      Changed okTd r
        (DayRecord.setDsTopics (DayRecord.dsTopics r ++ [entry]) r)
  | ch_deleteTopic (r : DayRecord.t) (id : string) :
      Changed okTd r
        (DayRecord.setDsTopics
           (List.filter (fun t => negb (String.eqb (Topic.id t) id))
              (DayRecord.dsTopics r)) r)
  | ch_activity (r : DayRecord.t) (a : Activity.t) :
      Changed okTd r
        (DayRecord.setEnglishActivities
           (default [] (DayRecord.englishActivities r) ++ [a]) r)
  | ch_deleteActivity (r : DayRecord.t) (id : string)
      (l : list Activity.t) :
      DayRecord.englishActivities r = Some l ->
      Changed okTd r
        (DayRecord.setEnglishActivities
           (List.filter (fun a => negb (String.eqb (Activity.id a) id)) l) r).

(** The ways in which the listeners change the world. *)
Inductive Steps `{Collator} (okTd : TaskData.t -> Prop)
    : World -> World -> Prop :=
  | st_refl (w : World) : Steps okTd w w
  | st_drawn (n : nat) (w : World) : Steps okTd w (withDrawn n w)
  | st_editing (e : option string) (w : World) :
      Steps okTd w (withEditing e w)
  | st_mutate (r' : DayRecord.t) (w : World) :
      Changed okTd (currentData w) r' ->
      Steps okTd w (persisted (withData r' w))
  | st_load (d : Z) (w : World) :
      Steps okTd w (withData (storedRecord w d) (withDate d w))
  | st_recurring (td : TaskData.t) (k : nat) (w : World) :
      okTd td ->
      Steps okTd w
        (withData
           (storedRecord (recurringTurns td (currentDate w) k 0 w)
              (currentDate w))
           (recurringTurns td (currentDate w) k 0 w))
  | st_trans (w1 w2 w3 : World) :
      Steps okTd w1 w2 -> Steps okTd w2 w3 -> Steps okTd w1 w3.

(** [m] run from [w] returns normally, having changed the world by
    such steps only. *)
Definition Completes `{Collator} (okTd : TaskData.t -> Prop) {A : Type}
    (m : Script A) (w : World) : Prop :=
  exists (a : A) (w' : World), m w = Normal a w' /\ Steps okTd w w'.

(** The start time of a task input is a zero-padded time. *)
Definition timeOK (td : TaskData.t) : Prop :=
  isHHMM (TaskData.startTime td) = true.

(** Any task input. *)
Definition anyTd (td : TaskData.t) : Prop := True.

(** Start times well formed and tasks sorted, in one record. *)
Definition recordSorted (r : DayRecord.t) : Prop :=
  timesOK (DayRecord.tasks r) /\ tasksSorted (DayRecord.tasks r).

(** Every topic of the record is clean. *)
Definition recordTopicsClean (r : DayRecord.t) : Prop :=
  Forall cleanTopic (DayRecord.dsTopics r).

(** No task of the record has the empty id. *)
Definition recordIdsNonEmpty (r : DayRecord.t) : Prop :=
  Forall (fun t => Task.id t <> "") (DayRecord.tasks r).

(** The task input that an event brings is let in by [okTd]. *)
Definition eventOK (okTd : TaskData.t -> Prop) (e : Event) : Prop :=
  match e with
  | EvSubmitTask td _ _ => okTd td
  | _ => True
  end.

(** ** Sample data *)

(** A clock that advances by one millisecond per reading, with one fixed
    random text. *)
Definition sampleOracle (k : nat) : Draw :=
  mkDraw (N.of_nat k + 1700000000000) "0.4fzyo82mvyr".

(** Monday 2024-01-01, nothing stored, nothing on screen. *)
Definition emptyWorld : World :=
  mkWorld 19723 StorageManager.getDefaultDateData None ∅ sampleOracle 0.

Definition sampleTasks : list Task.t :=
  [ Task.mk "a1" "08:00" "09:00" "Statistics" "Study" false;
    Task.mk "b2" "10:30" "11:15" "Bus" "Travel" true;
    Task.mk "c3" "14:00" "15:00" "Podcast" "English" false ].

(** The same day with three tasks on screen and in storage. *)
Definition busyWorld : World :=
  persisted
    (withData (DayRecord.setTasks sampleTasks (currentData emptyWorld))
       emptyWorld).

Definition sampleData : TaskData.t :=
  TaskData.mk "09:15" "09:45" "Revision" "Study".

(** A study session as the form submits it: every field is the text of
    an input. *)
Definition sampleTopic : TopicData.t :=
  TopicData.mk (JStr "  Linear Algebra ") (JStr "45") (JStr "")
    (JStr "Video") (JStr " eigenvalues ").

(** A topic of blanks, and no notes at all. *)
Definition blankTopic : TopicData.t :=
  TopicData.mk (JStr "   ") (JStr "45") (JStr "Beginner") (JStr "Video")
    JNull.

Definition sampleActivity : ActivityData.t :=
  ActivityData.mk (JStr "Podcast") (JStr "20") (JStr "true")
    (JStr "BBC 6 Minute English") (JStr "").

(** Three study sessions whose durations are a number, null and a text
    with no number in it. *)
Definition mixedTopics : list Topic.t :=
  [ Topic.mk "t1" "Regression" (JNum (Int 30)) (JStr "Beginner")
      (JStr "Video") JNull "2024-01-01";
    Topic.mk "t2" "Clustering" JNull (JStr "Intermediate")
      (JStr "Book") JNull "2024-01-01";
    Topic.mk "t3" "Trees" (JStr "abc") (JStr "Advanced")
      (JStr "Other") JNull "2024-01-01" ].

Definition mixedWorld : World :=
  withData (DayRecord.setDsTopics mixedTopics (currentData emptyWorld))
    emptyWorld.

(** Forty tasks, the first twenty-three of them completed. *)
Definition fortyTasks : list Task.t :=
  map (fun k : nat =>
         Task.mk ("t" +:+ pretty k) "08:00" "09:00" "Exercise" "Study"
           (k <? 23)%nat)
      (seq 0 40).

Definition fortyWorld : World :=
  persisted
    (withData (DayRecord.setTasks fortyTasks (currentData emptyWorld))
       emptyWorld).


(** A clock and a random source that give the same reading twice: two
    calls within one millisecond that draw the same number. *)
Definition stuckOracle (k : nat) : Draw :=
  mkDraw 1700000000000 "0.4fzyo82mvyr".

Definition stuckWorld : World :=
  mkWorld 19723 StorageManager.getDefaultDateData None ∅ stuckOracle 0.

(** The stuck world after one add. *)
Definition stuckWorldAfterAdd : World :=
  worldOf (@TaskManager.addTask codeUnitCollator sampleData stuckWorld).

Definition sampleOps : list TaskOp :=
  [ OpAdd sampleData;
    OpAddRecurring (TaskData.mk "07:30" "08:00" "Run" "Health") 3;
    OpUpdate "b2" (TaskData.mk "07:30" "07:45" "Bus" "Travel");
    OpUpdate "zz" sampleData ].

(** A session at the page: add a task, tick it, move a day on and back,
    save a study session with blanks around its topic, try a blank one,
    log an activity, and delete what is not there. *)
Definition sampleEvents : list Event :=
  [ EvAddTaskClick;
    EvSubmitTask sampleData false "";
    EvTaskCheckbox "loyw3v284fzyo82mvyr";
    EvNextDay;
    EvSubmitTask (TaskData.mk "07:30" "08:00" "Run" "Health") true "2";
    EvPrevDay;
    EvSaveDSTopic "  Linear Algebra " "45" "" "Video" "";
    EvSaveDSTopic "   " "10" "" "" "";
    EvSaveEnglish "Podcast" "20" "true" "" "";
    EvTaskDelete "zz" true;
    EvEditClick "loyw3v284fzyo82mvyr";
    EvSubmitTask (TaskData.mk "06:00" "06:30" "Stretch" "Health") false "" ].

(** * Properties *)

(** Unfolds the sequencing of a script down to the worlds it passes. *)
Ltac run_script := cbv [mbind Script_bind get modify mret Script_ret].

(** ** The sort *)

Section Sorting.

Context {A : Type}.
Implicit Types (cmp : A -> A -> comparison) (l : list A).

Lemma insertSorted_perm cmp x l :
  Permutation (Js.insertSorted cmp x l) (x :: l).
Proof.
  induction l as [|y l IH]; simpl; [reflexivity|].
  destruct (cmp x y); try reflexivity.
  rewrite IH. apply perm_swap.
Qed.

Lemma sort_perm cmp l : Permutation (Js.sort cmp l) l.
Proof.
  induction l as [|x l IH]; simpl; [reflexivity|].
  rewrite insertSorted_perm. now constructor.
Qed.

(** The result depends on the comparator only through the pairs of
    elements of the list. *)
Lemma insertSorted_ext cmp cmp' x l :
  (forall y, In y l -> cmp x y = cmp' x y) ->
  Js.insertSorted cmp x l = Js.insertSorted cmp' x l.
Proof.
  induction l as [|y l IH]; simpl; intros Hag; [reflexivity|].
  rewrite <- (Hag y) by now left.
  destruct (cmp x y); try reflexivity.
  f_equal. apply IH. intros z Hz. apply Hag. now right.
Qed.

Lemma sort_ext cmp cmp' l :
  (forall x y, In x l -> In y l -> cmp x y = cmp' x y) ->
  Js.sort cmp l = Js.sort cmp' l.
Proof.
  induction l as [|x l IH]; simpl; intros Hag; [reflexivity|].
  rewrite IH by (intros; apply Hag; now right).
  apply insertSorted_ext. intros y Hy. apply Hag; [now left|].
  right. eapply Permutation_in; [apply sort_perm|exact Hy].
Qed.

(** Elements that a predicate selects keep their order, when the
    comparator never puts a selected element after an unselected one
    that it compares equal or smaller to. *)
Lemma insertSorted_filter cmp (p : A -> bool) x l :
  (forall y, p x = true -> cmp x y = Gt -> p y = false) ->
  List.filter p (Js.insertSorted cmp x l) = List.filter p (x :: l).
Proof.
  intros Hp. induction l as [|y l IH]; [reflexivity|].
  simpl. destruct (cmp x y) eqn:E; try reflexivity.
  simpl. simpl in IH. rewrite IH.
  destruct (p x) eqn:Ex; [|reflexivity].
  now rewrite (Hp y eq_refl E).
Qed.

Lemma sort_filter cmp (p : A -> bool) l :
  (forall x y, p x = true -> cmp x y = Gt -> p y = false) ->
  List.filter p (Js.sort cmp l) = List.filter p l.
Proof.
  intros Hp. induction l as [|x l IH]; [reflexivity|].
  simpl Js.sort. rewrite insertSorted_filter by (intros; eauto).
  simpl. now rewrite IH.
Qed.

End Sorting.

Section TaskSorting.

Lemma startsNoLater_trans (a b c : Task.t) :
  startsNoLater a b -> startsNoLater b c -> startsNoLater a c.
Proof.
  unfold startsNoLater. intros Hab Hbc.
  apply Is_true_true. apply Is_true_true in Hab, Hbc.
  exact (@transitivity _ String.le _ _ _ _ Hab Hbc).
Qed.

Lemma byCodeUnits_Gt (a b : Task.t) :
  byCodeUnits a b = Gt -> startsNoLater b a.
Proof.
  unfold byCodeUnits, startsNoLater, String.leb. intros E.
  rewrite String.compare_antisym, E. reflexivity.
Qed.

Lemma byCodeUnits_not_Gt (a b : Task.t) :
  byCodeUnits a b <> Gt -> startsNoLater a b.
Proof.
  unfold byCodeUnits, startsNoLater, String.leb.
  destruct (String.compare _ _); congruence.
Qed.

Lemma compare_refl (s : string) : String.compare s s = Eq.
Proof.
  destruct (String.compare s s) eqn:E; [reflexivity| |];
    pose proof (String.compare_antisym s s) as Ha;
    rewrite E in Ha; discriminate.
Qed.

Lemma insert_HdRel (x y : Task.t) (l : list Task.t) :
  HdRel startsNoLater y l -> startsNoLater y x ->
  HdRel startsNoLater y (Js.insertSorted byCodeUnits x l).
Proof.
  intros Hl Hyx. destruct l as [|z l]; simpl; [now constructor|].
  inversion Hl; subst.
  destruct (byCodeUnits x z); now constructor.
Qed.

Lemma insert_Sorted (x : Task.t) (l : list Task.t) :
  Sorted startsNoLater l ->
  Sorted startsNoLater (Js.insertSorted byCodeUnits x l).
Proof.
  induction 1 as [|y l Hs IH Hd]; simpl.
  - repeat constructor.
  - destruct (byCodeUnits x y) eqn:E.
    + constructor; [now constructor|].
      constructor. apply byCodeUnits_not_Gt. congruence.
    + constructor; [now constructor|].
      constructor. apply byCodeUnits_not_Gt. congruence.
    + constructor; [exact IH|].
      apply insert_HdRel; [exact Hd|]. now apply byCodeUnits_Gt.
Qed.

Lemma sort_byCodeUnits_sorted (l : list Task.t) :
  tasksSorted (Js.sort byCodeUnits l).
Proof.
  apply Sorted_StronglySorted.
  - intros a b c. apply startsNoLater_trans.
  - induction l as [|x l IH]; simpl; [constructor|].
    now apply insert_Sorted.
Qed.

Lemma sort_byCodeUnits_stable (s : string) (l : list Task.t) :
  startingAt s (Js.sort byCodeUnits l) = startingAt s l.
Proof.
  apply sort_filter. intros x y Hx Hgt.
  apply String.eqb_eq in Hx. apply String.eqb_neq. intros Hy.
  unfold byCodeUnits in Hgt. rewrite Hx, Hy, compare_refl in Hgt.
  discriminate.
Qed.

Context `{Laws : CollatorLaws}.

Lemma sort_byStartTime_codeUnits (l : list Task.t) :
  timesOK l ->
  Js.sort TaskManager.byStartTime l = Js.sort byCodeUnits l.
Proof.
  intros Hok. apply sort_ext. intros x y Hx Hy.
  unfold timesOK in Hok. rewrite List.Forall_forall in Hok.
  apply localeCompare_HHMM; now apply Hok.
Qed.

Lemma sort_byStartTime_stable (l : list Task.t) :
  timesOK l -> StableSortOf l (Js.sort TaskManager.byStartTime l).
Proof.
  intros Hok. rewrite sort_byStartTime_codeUnits by exact Hok. split.
  - apply sort_byCodeUnits_sorted.
  - intros s. apply sort_byCodeUnits_stable.
Qed.

End TaskSorting.

Lemma sort_timesOK `{Collator} (l : list Task.t) :
  timesOK l -> timesOK (Js.sort TaskManager.byStartTime l).
Proof.
  unfold timesOK. intros Hok.
  eapply Permutation_Forall; [|exact Hok].
  symmetry. apply sort_perm.
Qed.

(** ** Dates and keys *)

Lemma civil_inverse (z : Z) :
  daysFromCivil (JsDate.civil z) = z /\
  1 <= (JsDate.civil z).1.2 <= 12 /\ 1 <= (JsDate.civil z).2 <= 31.
Proof.
  unfold daysFromCivil, JsDate.civil.
  set (zz := z + 719468).
  set (era := zz / 146097).
  set (doe := zz - era * 146097).
  assert (Hz : z = era * 146097 + doe - 719468) by (subst doe zz; lia).
  assert (Hdoe : 0 <= doe < 146097).
  { subst doe era. pose proof (Z.div_mod zz 146097 ltac:(lia)).
    pose proof (Z.mod_pos_bound zz 146097 ltac:(lia)). lia. }
  clearbody doe. clearbody era. clear zz.
  set (yoe := (doe - doe / 1460 + doe / 36524 - doe / 146096) / 365).
  assert (Hyoe : 0 <= yoe < 400)
    by (subst yoe; Z.div_mod_to_equations; lia).
  set (doy := doe - (365 * yoe + yoe / 4 - yoe / 100)).
  assert (Hdoy : 0 <= doy < 366)
    by (subst doy yoe; Z.div_mod_to_equations; lia).
  assert (Hdoe' : doe = yoe * 365 + yoe / 4 - yoe / 100 + doy)
    by (subst doy; lia).
  clearbody doy. clearbody yoe.
  set (mp := (5 * doy + 2) / 153).
  assert (Hmp : 0 <= mp < 12) by (subst mp; Z.div_mod_to_equations; lia).
  set (dom := doy - (153 * mp + 2) / 5 + 1).
  assert (Hdom : 1 <= dom <= 31)
    by (subst dom mp; Z.div_mod_to_equations; lia).
  assert (Hdoy' : doy = (153 * mp + 2) / 5 + dom - 1) by (subst dom; lia).
  clearbody dom. clearbody mp.
  cbn [fst snd].
  assert (He : (yoe + era * 400) / 400 = era /\
               yoe + era * 400 - (yoe + era * 400) / 400 * 400 = yoe)
    by (Z.div_mod_to_equations; lia).
  destruct He as [He1 He2].
  destruct (Z.ltb_spec mp 10).
  - assert (Hm : (mp + 3 <=? 2) = false) by lia. rewrite Hm.
    assert (Hm2 : (2 <? mp + 3) = true) by lia. rewrite Hm2.
    rewrite !He2, !He1. replace (mp + 3 - 3) with mp by lia. lia.
  - assert (Hm : (mp - 9 <=? 2) = true) by lia. rewrite Hm.
    assert (Hm2 : (2 <? mp - 9) = false) by lia. rewrite Hm2.
    replace (yoe + era * 400 + 1 - 1) with (yoe + era * 400) by lia.
    rewrite !He2, !He1. replace (mp - 9 + 9) with mp by lia. lia.
Qed.

Lemma civil_inj (d d' : Z) : JsDate.civil d = JsDate.civil d' -> d = d'.
Proof.
  intros E.
  rewrite <- (proj1 (civil_inverse d)), <- (proj1 (civil_inverse d')).
  now rewrite E.
Qed.

Lemma setDate_getDate_plus (d n : Z) :
  JsDate.setDate d (JsDate.getDate d + n) = d + n.
Proof. unfold JsDate.setDate. lia. Qed.

Lemma addDays_plus (d n : Z) : DateUtil.addDays d n = d + n.
Proof. apply setDate_getDate_plus. Qed.

Lemma string_length_app (s t : string) :
  String.length (s +:+ t) = (String.length s + String.length t)%nat.
Proof. induction s as [|c s IH]; simpl; [reflexivity|]. now rewrite IH. Qed.

(** Two texts with equal-length tails agree part by part. *)
Lemma app_inj_tail (s s' t t' : string) :
  s +:+ t = s' +:+ t' -> String.length t = String.length t' ->
  s = s' /\ t = t'.
Proof.
  revert s'. induction s as [|c s IH]; intros [|c' s'] E Hlen.
  - now split.
  - exfalso. change (t = String c' (s' +:+ t')) in E.
    rewrite E in Hlen. change (String.length (String c' (s' +:+ t')))
      with (S (String.length (s' +:+ t'))) in Hlen.
    rewrite string_length_app in Hlen. lia.
  - exfalso. change (String c (s +:+ t) = t') in E.
    rewrite <- E in Hlen. change (String.length (String c (s +:+ t)))
      with (S (String.length (s +:+ t))) in Hlen.
    rewrite string_length_app in Hlen. lia.
  - change (String c (s +:+ t) = String c' (s' +:+ t')) in E.
    injection E as -> E. destruct (IH _ E Hlen) as [-> ->]. now split.
Qed.

Lemma twoDigits_spec (n : Z) :
  1 <= n <= 31 ->
  String.length (twoDigits n) = 2%nat /\ readTwoDigits (twoDigits n) = n.
Proof.
  intros Hn.
  assert (Hall : forallb (fun k =>
            Nat.eqb (String.length (twoDigits k)) 2 &&
            (readTwoDigits (twoDigits k) =? k)) (seqZ 1 31) = true)
    by (vm_compute; reflexivity).
  rewrite forallb_forall in Hall.
  specialize (Hall n (proj1 (list_elem_of_In _ _) (proj2 (elem_of_seqZ 1 31 n) ltac:(lia)))).
  apply andb_prop in Hall as [Hlen Hread].
  split; [now apply Nat.eqb_eq|now apply Z.eqb_eq].
Qed.

Lemma formatDate_inj (d d' : Z) :
  DateUtil.formatDate d = DateUtil.formatDate d' -> d = d'.
Proof.
  unfold DateUtil.formatDate, JsDate.getFullYear, JsDate.getMonth,
    JsDate.getDate.
  destruct (civil_inverse d) as (_ & Hm & Hd).
  destruct (civil_inverse d') as (_ & Hm' & Hd').
  intros E. apply civil_inj.
  destruct (JsDate.civil d) as [[y m] dom].
  destruct (JsDate.civil d') as [[y' m'] dom'].
  cbn [fst snd] in *.
  fold (twoDigits (m - 1 + 1)) (twoDigits dom) (twoDigits (m' - 1 + 1))
    (twoDigits dom') in E.
  replace (m - 1 + 1) with m in E by lia.
  replace (m' - 1 + 1) with m' in E by lia.
  destruct (twoDigits_spec m ltac:(lia)) as [Lm Rm].
  destruct (twoDigits_spec m' ltac:(lia)) as [Lm' Rm'].
  destruct (twoDigits_spec dom ltac:(lia)) as [Ld Rd].
  destruct (twoDigits_spec dom' ltac:(lia)) as [Ld' Rd'].
  apply app_inj_tail in E as [Ey E];
    [|rewrite !string_length_app, Lm, Lm', Ld, Ld'; reflexivity].
  apply (app_inj_tail "-" "-") in E as [_ E];
    [|rewrite !string_length_app, Lm, Lm', Ld, Ld'; reflexivity].
  apply app_inj_tail in E as [Em E];
    [|rewrite !string_length_app, Ld, Ld'; reflexivity].
  apply (app_inj_tail "-" "-") in E as [_ E]; [|now rewrite Ld, Ld'].
  apply pretty_Z_inj in Ey.
  congruence.
Qed.

Lemma key_inj (d d' : Z) :
  StorageManager.key (DateUtil.formatDate d)
  = StorageManager.key (DateUtil.formatDate d') -> d = d'.
Proof.
  unfold StorageManager.key. intros E.
  apply (inj (String.app _)) in E. now apply formatDate_inj.
Qed.

(** ** What each operation computes *)

Lemma addTask_run `{Collator} (td : TaskData.t) (w : World) :
  TaskManager.addTask td w =
  Normal (newTask (tokenAt w 0) td)
    (persisted
       (withData
          (DayRecord.setTasks
             (Js.sort TaskManager.byStartTime
                (DayRecord.tasks (currentData w)
                 ++ [newTask (tokenAt w 0) td]))
             (currentData w))
          (withDrawn (S (drawn w)) w))).
Proof. reflexivity. Qed.

Lemma updateTask_found `{Collator} (id : string) (td : TaskData.t)
    (w : World) (k : nat) (task : Task.t) :
  list_find (fun t => Task.id t = id) (DayRecord.tasks (currentData w))
    = Some (k, task) ->
  TaskManager.updateTask id td w =
  Normal tt
    (persisted
       (withData
          (DayRecord.setTasks
             (Js.sort TaskManager.byStartTime
                (<[k := updatedTask task td]>
                   (DayRecord.tasks (currentData w))))
             (currentData w))
          w)).
Proof.
  intros Hfind. unfold TaskManager.updateTask.
  cbv [mbind Script_bind get]. rewrite Hfind. reflexivity.
Qed.

Lemma updateTask_missing `{Collator} (id : string) (td : TaskData.t)
    (w : World) :
  list_find (fun t => Task.id t = id) (DayRecord.tasks (currentData w))
    = None ->
  TaskManager.updateTask id td w = Normal tt w.
Proof.
  intros Hfind. unfold TaskManager.updateTask.
  cbv [mbind Script_bind get]. rewrite Hfind. reflexivity.
Qed.

Lemma toggleTask_missing (id : string) (w : World) :
  list_find (fun t => Task.id t = id) (DayRecord.tasks (currentData w))
    = None ->
  TaskManager.toggleTask id w = Normal tt w.
Proof.
  intros Hfind. unfold TaskManager.toggleTask.
  cbv [mbind Script_bind get]. rewrite Hfind. reflexivity.
Qed.

Lemma deleteTask_run (id : string) (w : World) :
  TaskManager.deleteTask id w =
  Normal tt
    (persisted
       (withData
          (DayRecord.setTasks
             (List.filter (fun t => negb (String.eqb (Task.id t) id))
                (DayRecord.tasks (currentData w)))
             (currentData w))
          w)).
Proof. reflexivity. Qed.

Lemma filter_all {A : Type} (p : A -> bool) (l : list A) :
  (forall x, In x l -> p x = true) -> List.filter p l = l.
Proof.
  induction l as [|x l IH]; simpl; intros Hp; [reflexivity|].
  rewrite (Hp x) by now left. f_equal. apply IH. intros; apply Hp; now right.
Qed.

Lemma setTasks_same (r : DayRecord.t) :
  DayRecord.setTasks (DayRecord.tasks r) r = r.
Proof. now destruct r. Qed.

Lemma withData_same (w : World) : withData (currentData w) w = w.
Proof. now destruct w. Qed.

Lemma list_find_split {A : Type} (P : A -> Prop) `{!forall x, Decision (P x)}
    (l : list A) (k : nat) (x : A) :
  list_find P l = Some (k, x) ->
  exists l1 l2 : list A,
    l = l1 ++ x :: l2 /\ length l1 = k /\ P x /\
    (forall y, In y l1 -> ~ P y) /\
    forall x' : A, <[k := x']> l = l1 ++ x' :: l2.
Proof.
  intros Hfind. apply list_find_Some in Hfind as (Hk & HP & Hbefore).
  exists (take k l), (drop (S k) l).
  assert (Hlen : length (take k l) = k).
  { rewrite length_take. apply lookup_lt_Some in Hk. lia. }
  assert (Hl : l = take k l ++ x :: drop (S k) l).
  { rewrite <- (take_drop_middle l k x Hk) at 1. reflexivity. }
  repeat split; try assumption.
  - intros y Hy. apply list_elem_of_In in Hy.
    apply list_elem_of_lookup in Hy as [j Hj].
    pose proof (lookup_lt_Some _ _ _ Hj) as Hjk. rewrite Hlen in Hjk.
    rewrite lookup_take_lt in Hj by exact Hjk.
    exact (Hbefore j y Hj Hjk).
  - intros x'. rewrite Hl at 1.
    replace k with (length (take k l) + 0)%nat at 1 by lia.
    now rewrite insert_app_r.
Qed.

(** ** Update: what changes and what does not *)



(** ** Operations on an id that is not there *)

Lemma list_find_absent (id : string) (l : list Task.t) :
  (forall t, In t l -> Task.id t <> id) ->
  list_find (fun t => Task.id t = id) l = None.
Proof.
  intros Habs. apply list_find_None. apply Forall_forall.
  intros t Ht. apply Habs. now apply list_elem_of_In.
Qed.

(** C5. For an id that no task of the record on screen carries, update
    and toggle return normally and leave the whole world as it was;
    delete returns normally, leaves the record as it was and still
    writes it to storage under the current date. *)
Theorem missing_id_is_silent_noop `{Collator} (w : World) (id : string)
    (td : TaskData.t) :
  (forall t, In t (DayRecord.tasks (currentData w)) -> Task.id t <> id) ->
  TaskManager.updateTask id td w = Normal tt w /\
  TaskManager.toggleTask id w = Normal tt w /\
  TaskManager.deleteTask id w = Normal tt (persisted w) /\
  currentData (persisted w) = currentData w /\
  localStorage (persisted w)
    !! StorageManager.key (DateUtil.formatDate (currentDate w))
    = Some (currentData w) /\
  forall k : string,
    k <> StorageManager.key (DateUtil.formatDate (currentDate w)) ->
    localStorage (persisted w) !! k = localStorage w !! k.
Proof.
  intros Habs. pose proof (list_find_absent id _ Habs) as Hfind.
  split; [now apply updateTask_missing|].
  split; [now apply toggleTask_missing|].
  split.
  { rewrite deleteTask_run, filter_all, setTasks_same, withData_same;
      [reflexivity|].
    intros t Ht. apply Bool.negb_true_iff, String.eqb_neq. now apply Habs. }
  split; [reflexivity|].
  unfold persisted. cbn [localStorage withStorage].
  split; [apply lookup_insert_eq|].
  intros k Hk. now apply lookup_insert_ne.
Qed.

Lemma missing_id_is_silent_noop_witness :
  (forall t, In t (DayRecord.tasks (currentData busyWorld)) ->
     Task.id t <> "zz") /\
  @TaskManager.updateTask codeUnitCollator "zz" sampleData busyWorld
    = Normal tt busyWorld /\
  TaskManager.toggleTask "zz" busyWorld = Normal tt busyWorld /\
  TaskManager.deleteTask "zz" busyWorld = Normal tt (persisted busyWorld).
Proof.
  assert (Habs : forall t, In t (DayRecord.tasks (currentData busyWorld)) ->
                   Task.id t <> "zz").
  { intros t Ht. change (In t sampleTasks) in Ht. unfold sampleTasks in Ht.
    simpl in Ht. destruct Ht as [<-|[<-|[<-|[]]]]; discriminate. }
  split; [exact Habs|].
  destruct (@missing_id_is_silent_noop codeUnitCollator busyWorld "zz"
              sampleData Habs) as (Hu & Ht & Hd & _).
  repeat split; assumption.
Defined.

(** Deleting a topic or an activity under an id that is not there
    changes no collection either; the activity manager does not save
    when the record has no activity list at all. *)
Lemma deleteTopic_missing (w : World) (id : string) :
  (forall t, In t (DayRecord.dsTopics (currentData w)) -> Topic.id t <> id) ->
  DSTopicManager.deleteTopic id w = Normal tt (persisted w).
Proof.
  intros Habs. unfold DSTopicManager.deleteTopic.
  cbv [mbind Script_bind get AppState.setDsTopics modify].
  rewrite filter_all.
  - destruct w as [cd [ts ds ea] e s o n]. reflexivity.
  - intros t Ht. apply Bool.negb_true_iff, String.eqb_neq. now apply Habs.
Qed.

Lemma deleteActivity_missing (w : World) (id : string) :
  (forall a, In a (default [] (DayRecord.englishActivities (currentData w))) ->
     Activity.id a <> id) ->
  EnglishManager.deleteActivity id w =
  Normal tt
    (match DayRecord.englishActivities (currentData w) with
     | Some _ => persisted w
     | None => w
     end).
Proof.
  intros Habs. unfold EnglishManager.deleteActivity.
  cbv [mbind Script_bind get AppState.setEnglishActivities modify].
  destruct w as [cd [ts ds [ea|]] e s o n]; cbn in *; [|reflexivity].
  rewrite filter_all; [reflexivity|].
  intros t Ht. apply Bool.negb_true_iff, String.eqb_neq. now apply Habs.
Qed.

(** ** Adding a study topic *)

Lemma callTrim_str (s : string) (w : World) :
  callTrim (JStr s) w = Normal (Js.trim s) w.
Proof. reflexivity. Qed.

Lemma callTrim_not_str (v : JsVal) (w : World) :
  isStr v = false -> callTrim v w = Throw TypeError w.
Proof. destruct v; intros E; try reflexivity; discriminate. Qed.

Lemma addTopic_blank (td : TopicData.t) (s : string) (w : World) :
  TopicData.topic td = JStr s -> Js.trim s = "" ->
  DSTopicManager.addTopic td w = Normal tt w.
Proof.
  intros Ht Hblank. unfold DSTopicManager.addTopic.
  cbv [mbind Script_bind]. rewrite Ht, callTrim_str, Hblank. reflexivity.
Qed.

(** The entry that [addTopic] builds. *)
Lemma addTopic_run (td : TopicData.t) (s n : string) (w : World) :
  TopicData.topic td = JStr s -> Js.trim s <> "" ->
  TopicData.notes td = JStr n ->
  DSTopicManager.addTopic td w =
  Normal tt
    (persisted
       (withData
          (DayRecord.setDsTopics
             (DayRecord.dsTopics (currentData w) ++
              [Topic.mk (tokenAt w 0) (Js.trim s)
                 (Js.or (TopicData.duration td) JNull)
                 (Js.or (TopicData.difficulty td) (JStr "Intermediate"))
                 (Js.or (TopicData.resource td) (JStr "Other"))
                 (Js.or (JStr (Js.trim n)) JNull)
                 (DateUtil.formatDate (currentDate w))])
             (currentData w))
          (withDrawn (S (drawn w)) w))).
Proof.
  intros Ht Hs Hn. unfold DSTopicManager.addTopic.
  cbv [mbind Script_bind]. rewrite Ht, callTrim_str.
  destruct (Js.trim s) eqn:E; [congruence|].
  cbn [Js.truthy Js.isEmpty negb].
  unfold DSTopicManager.generateId, clockRandomToken.
  run_script.
  rewrite callTrim_str, Hn, callTrim_str, E. reflexivity.
Qed.

Lemma addTopic_throws (td : TopicData.t) (s : string) (w : World) :
  TopicData.topic td = JStr s -> Js.trim s <> "" ->
  isStr (TopicData.notes td) = false ->
  DSTopicManager.addTopic td w = Throw TypeError (withDrawn (S (drawn w)) w).
Proof.
  intros Ht Hs Hn. unfold DSTopicManager.addTopic.
  cbv [mbind Script_bind]. rewrite Ht, callTrim_str.
  destruct (Js.trim s) eqn:E; [congruence|].
  cbn [Js.truthy Js.isEmpty negb].
  unfold DSTopicManager.generateId, clockRandomToken.
  run_script.
  rewrite callTrim_str, callTrim_not_str by exact Hn. reflexivity.
Qed.

(** C6, as amended. When the topic trims to empty, add changes nothing
    (no entry, nothing saved).  Otherwise it appends exactly one entry
    at the end of the topics, without sorting: the topic is the trimmed
    input, the duration is the input's duration as given when that is
    truthy and null otherwise (it is not parsed), the difficulty and the
    resource are the input's when truthy and "Intermediate" and "Other"
    otherwise, the notes are the trimmed notes or null when they trim
    to empty, and the date is the key of the current date; tasks and
    activities are untouched and the record is saved. *)
Theorem addTopic_appends_entry (td : TopicData.t) (s : string) (w : World) :
  TopicData.topic td = JStr s ->
  (Js.trim s = "" -> DSTopicManager.addTopic td w = Normal tt w) /\
  (Js.trim s <> "" -> forall n : string, TopicData.notes td = JStr n ->
   exists (w' : World) (entry : Topic.t),
     DSTopicManager.addTopic td w = Normal tt w' /\
     DayRecord.dsTopics (currentData w')
       = DayRecord.dsTopics (currentData w) ++ [entry] /\
     Topic.topic entry = Js.trim s /\
     Topic.duration entry =
       (if Js.truthy (TopicData.duration td)
        then TopicData.duration td else JNull) /\
     Topic.difficulty entry =
       (if Js.truthy (TopicData.difficulty td)
        then TopicData.difficulty td else JStr "Intermediate") /\
     Topic.resource entry =
       (if Js.truthy (TopicData.resource td)
        then TopicData.resource td else JStr "Other") /\
     Topic.notes entry =
       (if Js.isEmpty (Js.trim n) then JNull else JStr (Js.trim n)) /\
     Topic.date entry = DateUtil.formatDate (currentDate w) /\
     DayRecord.tasks (currentData w') = DayRecord.tasks (currentData w) /\
     DayRecord.englishActivities (currentData w')
       = DayRecord.englishActivities (currentData w) /\
     storedRecord w' (currentDate w) = currentData w').
Proof.
  intros Ht. split.
  - intros Hblank. now apply (addTopic_blank td s).
  - intros Hs n Hn. eexists _, _.
    split; [apply (addTopic_run td s n); assumption|].
    cbn [persisted withData withStorage withDrawn currentData currentDate
           DayRecord.setDsTopics DayRecord.tasks DayRecord.dsTopics
           DayRecord.englishActivities].
    split; [reflexivity|].
    cbn [Topic.topic Topic.duration Topic.difficulty Topic.resource
           Topic.notes Topic.date].
    repeat (split; [reflexivity|]).
    split.
    { unfold Js.or. cbn [Js.truthy]. now destruct (Js.isEmpty (Js.trim n)). }
    repeat (split; [reflexivity|]).
    unfold storedRecord, persisted.
    cbn [localStorage withStorage withData withDrawn currentDate currentData].
    now rewrite lookup_insert_eq.
Qed.

Lemma addTopic_appends_entry_witness :
  TopicData.topic sampleTopic = JStr "  Linear Algebra " /\
  Js.trim "  Linear Algebra " <> "" /\
  TopicData.notes sampleTopic = JStr " eigenvalues " /\
  exists w' : World,
    DSTopicManager.addTopic sampleTopic emptyWorld = Normal tt w' /\
    DayRecord.dsTopics (currentData w') =
      [Topic.mk "loyw3v284fzyo82mvyr" "Linear Algebra" (JStr "45")
         (JStr "Intermediate") (JStr "Video") (JStr "eigenvalues")
         "2024-01-01"].
Proof.
  assert (Hs : Js.trim "  Linear Algebra " <> "") by (vm_compute; discriminate).
  split; [reflexivity|]. split; [exact Hs|]. split; [reflexivity|].
  destruct (addTopic_appends_entry sampleTopic "  Linear Algebra " emptyWorld
              eq_refl) as [_ Hadd].
  destruct (Hadd Hs " eigenvalues " eq_refl) as (w' & entry & Hrun & _).
  exists w'. split; [exact Hrun|].
  replace w' with (worldOf (DSTopicManager.addTopic sampleTopic emptyWorld))
    by now rewrite Hrun.
  vm_compute. reflexivity.
Defined.

(** The cases that the description of add names: an empty topic and a
    topic of blanks change nothing; a topic with no duration and no
    difficulty gets a null duration and "Intermediate". *)
Lemma addTopic_examples :
  DSTopicManager.addTopic
    (TopicData.mk (JStr "") (JStr "") (JStr "") (JStr "") (JStr ""))
    emptyWorld = Normal tt emptyWorld /\
  DSTopicManager.addTopic
    (TopicData.mk (JStr "   ") (JStr "") (JStr "") (JStr "") (JStr ""))
    emptyWorld = Normal tt emptyWorld /\
  DayRecord.dsTopics
    (currentData
       (worldOf
          (DSTopicManager.addTopic
             (TopicData.mk (JStr "Linear Algebra") (JStr "") JUndefined
                JUndefined (JStr ""))
             emptyWorld)))
  = [Topic.mk "loyw3v284fzyo82mvyr" "Linear Algebra" JNull
       (JStr "Intermediate") (JStr "Other") JNull "2024-01-01"].
Proof.
  split; [reflexivity|]. split; [reflexivity|]. vm_compute. reflexivity.
Qed.

(** C6, as first stated, has the duration parsed as an integer.  The
    form submits the text "45"; the entry keeps the text, which is not
    the number 45. *)
Lemma addTopic_duration_not_parsed :
  exists entry : Topic.t,
    DayRecord.dsTopics
      (currentData (worldOf (DSTopicManager.addTopic sampleTopic emptyWorld)))
      = [entry] /\
    Js.parseInt (TopicData.duration sampleTopic) = Int 45 /\
    Topic.duration entry = JStr "45" /\
    Topic.duration entry <> JNum (Int 45).
Proof.
  eexists. split; [vm_compute; reflexivity|].
  split; [vm_compute; reflexivity|].
  split; [reflexivity|]. discriminate.
Qed.

(** ** Adding a practice activity *)

Lemma strictEq_true_literal (v : JsVal) :
  Js.strictEq v (JStr "true") = true <-> v = JStr "true".
Proof.
  split.
  - destruct v as [| |b|[|z]|s]; simpl; try discriminate.
    intros E. apply String.eqb_eq in E. now subst.
  - intros ->. reflexivity.
Qed.

Lemma addActivity_run (ad : ActivityData.t) (c n : string) (w : World) :
  ActivityData.content ad = JStr c -> ActivityData.notes ad = JStr n ->
  EnglishManager.addActivity ad w =
  Normal tt
    (persisted
       (withData
          (DayRecord.setEnglishActivities
             (default [] (DayRecord.englishActivities (currentData w)) ++
              [Activity.mk (tokenAt w 0) (ActivityData.type ad)
                 (Js.or (ActivityData.duration ad) JNull)
                 (Js.strictEq (ActivityData.completed ad) (JStr "true"))
                 (Js.or (JStr (Js.trim c)) JNull)
                 (Js.or (JStr (Js.trim n)) JNull)
                 (DateUtil.formatDate (currentDate w))])
             (currentData w))
          (withDrawn (S (drawn w)) w))).
Proof.
  intros Hc Hn. unfold EnglishManager.addActivity.
  unfold EnglishManager.generateId, clockRandomToken.
  run_script.
  rewrite Hc, Hn, !callTrim_str.
  destruct w as [cd [ts ds [ea|]] e s o k]; reflexivity.
Qed.

Lemma addActivity_throws (ad : ActivityData.t) (w : World) :
  isStr (ActivityData.content ad) = false \/
  isStr (ActivityData.notes ad) = false ->
  EnglishManager.addActivity ad w
  = Throw TypeError (withDrawn (S (drawn w)) w).
Proof.
  intros Hbad. unfold EnglishManager.addActivity.
  unfold EnglishManager.generateId, clockRandomToken.
  run_script.
  destruct (isStr (ActivityData.content ad)) eqn:Ec.
  - destruct Hbad as [Hbad|Hbad]; [discriminate|].
    destruct (ActivityData.content ad); try discriminate.
    rewrite callTrim_str, callTrim_not_str by exact Hbad. reflexivity.
  - rewrite callTrim_not_str by exact Ec. reflexivity.
Qed.

(** C7. With text in the content and notes fields, add appends one
    activity with no guard on empty input, and the stored completed
    flag is true exactly when the input's completed field is the string
    "true"; the boolean true, for one, gives false. *)
Theorem addActivity_completed_literal (ad : ActivityData.t) (c n : string)
    (w : World) :
  ActivityData.content ad = JStr c -> ActivityData.notes ad = JStr n ->
  exists (w' : World) (activity : Activity.t),
    EnglishManager.addActivity ad w = Normal tt w' /\
    DayRecord.englishActivities (currentData w') =
      Some (default [] (DayRecord.englishActivities (currentData w))
            ++ [activity]) /\
    (Activity.completed activity = true
     <-> ActivityData.completed ad = JStr "true") /\
    (ActivityData.completed ad = JBool true
     -> Activity.completed activity = false) /\
    Activity.type activity = ActivityData.type ad /\
    DayRecord.tasks (currentData w') = DayRecord.tasks (currentData w) /\
    DayRecord.dsTopics (currentData w') = DayRecord.dsTopics (currentData w) /\
    storedRecord w' (currentDate w) = currentData w'.
Proof.
  intros Hc Hn. eexists _, _.
  split; [apply (addActivity_run ad c n); assumption|].
  cbn [persisted withData withStorage withDrawn currentData currentDate
         DayRecord.setEnglishActivities DayRecord.tasks DayRecord.dsTopics
         DayRecord.englishActivities].
  split; [reflexivity|].
  cbn [Activity.completed Activity.type].
  split; [apply strictEq_true_literal|].
  split; [now intros ->|].
  repeat (split; [reflexivity|]).
  unfold storedRecord, persisted.
  cbn [localStorage withStorage withData withDrawn currentDate currentData].
  now rewrite lookup_insert_eq.
Qed.

Lemma addActivity_completed_literal_witness :
  ActivityData.content sampleActivity = JStr "BBC 6 Minute English" /\
  ActivityData.notes sampleActivity = JStr "" /\
  exists w' : World,
    EnglishManager.addActivity sampleActivity emptyWorld = Normal tt w' /\
    DayRecord.englishActivities (currentData w') =
      Some [Activity.mk "loyw3v284fzyo82mvyr" (JStr "Podcast") (JStr "20")
              true (JStr "BBC 6 Minute English") JNull "2024-01-01"].
Proof.
  split; [reflexivity|]. split; [reflexivity|].
  destruct (addActivity_completed_literal sampleActivity
              "BBC 6 Minute English" "" emptyWorld eq_refl eq_refl)
    as (w' & activity & Hrun & _).
  exists w'. split; [exact Hrun|].
  replace w' with
    (worldOf (EnglishManager.addActivity sampleActivity emptyWorld))
    by now rewrite Hrun.
  vm_compute. reflexivity.
Defined.

(** ** Fields that must be text *)

(** C10, as amended. When the topic does not trim to empty, adding a
    topic whose notes are not text (absent or null, for instance) ends
    in a type error with the record on screen, the current date and the
    storage as they were; adding an activity whose content or notes are
    not text ends the same way.  When the topic trims to empty, add
    returns normally whatever the notes are.  With text in the topic
    and notes fields, and in the content and notes fields, both
    operations return normally. *)
Theorem add_requires_text_fields (w : World) :
  (forall (td : TopicData.t) (s : string),
     TopicData.topic td = JStr s -> Js.trim s <> "" ->
     isStr (TopicData.notes td) = false ->
     exists w' : World,
       DSTopicManager.addTopic td w = Throw TypeError w' /\
       currentData w' = currentData w /\
       localStorage w' = localStorage w /\
       currentDate w' = currentDate w) /\
  (forall ad : ActivityData.t,
     isStr (ActivityData.content ad) = false \/
     isStr (ActivityData.notes ad) = false ->
     exists w' : World,
       EnglishManager.addActivity ad w = Throw TypeError w' /\
       currentData w' = currentData w /\
       localStorage w' = localStorage w /\
       currentDate w' = currentDate w) /\
  (forall (td : TopicData.t) (s : string),
     TopicData.topic td = JStr s -> Js.trim s = "" ->
     DSTopicManager.addTopic td w = Normal tt w) /\
  (forall (td : TopicData.t) (s n : string),
     TopicData.topic td = JStr s -> TopicData.notes td = JStr n ->
     exists w' : World, DSTopicManager.addTopic td w = Normal tt w') /\
  (forall (ad : ActivityData.t) (c n : string),
     ActivityData.content ad = JStr c -> ActivityData.notes ad = JStr n ->
     exists w' : World, EnglishManager.addActivity ad w = Normal tt w').
Proof.
  split; [|split; [|split; [|split]]].
  - intros td s Ht Hs Hn. eexists.
    split; [now apply (addTopic_throws td s)|]. now split.
  - intros ad Hbad. eexists.
    split; [now apply addActivity_throws|]. now split.
  - intros td s Ht Hs. now apply (addTopic_blank td s).
  - intros td s n Ht Hn.
    destruct (decide (Js.trim s = "")) as [Hs|Hs].
    + exists w. now apply (addTopic_blank td s).
    + eexists. now apply (addTopic_run td s n).
  - intros ad c n Hc Hn. eexists. now apply (addActivity_run ad c n).
Qed.

Lemma add_requires_text_fields_witness :
  exists w' : World,
    DSTopicManager.addTopic
      (TopicData.mk (JStr "Graphs") (JStr "30") (JStr "") (JStr "") JUndefined)
      emptyWorld = Throw TypeError w' /\
    currentData w' = currentData emptyWorld /\
    localStorage w' = localStorage emptyWorld /\
    currentDate w' = currentDate emptyWorld.
Proof.
  apply (proj1 (add_requires_text_fields emptyWorld)
           (TopicData.mk (JStr "Graphs") (JStr "30") (JStr "") (JStr "")
              JUndefined) "Graphs" eq_refl).
  - vm_compute. discriminate.
  - reflexivity.
Defined.

(** C10, as first stated, has add fail for every input whose notes are
    absent or null.  With a topic of blanks the guard returns first: no
    error is raised and the world is as it was. *)
Lemma addTopic_blank_topic_null_notes_no_error :
  TopicData.notes blankTopic = JNull /\
  DSTopicManager.addTopic blankTopic emptyWorld = Normal tt emptyWorld.
Proof. split; reflexivity. Qed.

(** ** Reading a duration *)













(** ** Summaries *)



(** ** The weekly overview *)

Lemma getStartOfWeek_spec (d : Z) :
  DateUtil.getStartOfWeek d = d - (isoWeekday d - 1) /\
  (JsDate.getDay d = 0 -> DateUtil.getStartOfWeek d = d - 6) /\
  JsDate.getDay (DateUtil.getStartOfWeek d) = 1 /\
  d - 6 <= DateUtil.getStartOfWeek d <= d.
Proof.
  unfold DateUtil.getStartOfWeek, isoWeekday.
  rewrite setDate_getDate_plus.
  pose proof (Z.mod_pos_bound (d + 4) 7 ltac:(lia)) as Hb.
  unfold JsDate.getDay in *.
  destruct (Z.eqb_spec ((d + 4) mod 7) 0) as [E|E].
  - repeat split; try lia. Z.div_mod_to_equations; lia.
  - repeat split; try lia. Z.div_mod_to_equations; lia.
Qed.

(** A loop whose body only reads the world appends one item per turn. *)
Lemma forAcc_reading {B : Type} (item : Z -> World -> B)
    (body : Z -> list B -> Script (list B)) (w : World) :
  (forall i acc, body i acc w = Normal (acc ++ [item i w]) w) ->
  forall (k : nat) (i : Z) (acc : list B),
    forAcc k i body acc w =
    Normal (acc ++ map (fun j => item j w) (seqZ i (Z.of_nat k))) w.
Proof.
  intros Hbody. induction k as [|k IH]; intros i acc.
  - cbn. now rewrite app_nil_r.
  - cbn [forAcc]. cbv [mbind Script_bind]. rewrite Hbody, IH.
    rewrite Nat2Z.inj_succ.
    rewrite (seqZ_cons i) by lia.
    cbn [map]. rewrite <- app_assoc. cbn [app].
    replace (Z.pred (Z.succ (Z.of_nat k))) with (Z.of_nat k) by lia.
    now replace (Z.succ i) with (i + 1) by lia.
Qed.

Lemma renderWeeklyOverview_run (w : World) :
  UI.renderWeeklyOverview w =
  Normal
    (map (fun i => dayCardOf w (DateUtil.getStartOfWeek (currentDate w) + i))
       (seqZ 0 7))
    w.
Proof.
  unfold UI.renderWeeklyOverview. cbv [mbind Script_bind get].
  rewrite (forAcc_reading
    (fun i w => dayCardOf w (DateUtil.getStartOfWeek (currentDate w) + i))).
  - reflexivity.
  - intros i acc. unfold dayCardOf, storedRecord.
    rewrite addDays_plus. reflexivity.
Qed.

Lemma getStats_run (w : World) :
  TaskManager.getStats w =
  Normal
    (mkStats (length (DayRecord.tasks (currentData w)))
       (length (List.filter Task.completed (DayRecord.tasks (currentData w))))
       (completionRate (length (DayRecord.tasks (currentData w)))
          (length (List.filter Task.completed
                     (DayRecord.tasks (currentData w))))))
    w.
Proof. reflexivity. Qed.



(** ** The completion rate *)

Lemma completionRate_no_tasks (done : nat) : completionRate 0 done = Int 0.
Proof. reflexivity. Qed.

Lemma completionRate_thirds :
  completionRate 3 1 = Int 33 /\ completionRate 3 2 = Int 67 /\
  roundHalfUp (100 * 1) 3 = 33 /\ roundHalfUp (100 * 2) 3 = 67.
Proof. repeat split; vm_compute; reflexivity. Qed.

(** The statistics count the tasks and the completed ones, and give
    rate 0 for a day without tasks. *)
Lemma getStats_counts (w : World) :
  exists st : Stats,
    TaskManager.getStats w = Normal st w /\
    total st = length (DayRecord.tasks (currentData w)) /\
    completed st =
      length (List.filter Task.completed (DayRecord.tasks (currentData w))) /\
    (total st = 0%nat -> rate st = Int 0).
Proof.
  eexists. split; [apply getStats_run|].
  cbn [total completed rate]. repeat split.
  now intros ->.
Qed.

(** On days with fewer than 40 tasks the rate is the exact percentage
    rounded to the nearest integer, a half going up. *)
Lemma completionRate_exact_below_40 (total done : nat) :
  (done <= total)%nat -> (0 < total < 40)%nat ->
  completionRate total done
  = Int (roundHalfUp (100 * Z.of_nat done) (Z.of_nat total)).
Proof.
  intros Hd Ht.
  assert (Hall : forallb (fun t : nat =>
            forallb (fun c : nat =>
              match completionRate (S t) c with
              | Int z => z =? roundHalfUp (100 * Z.of_nat c) (Z.of_nat (S t))
              | NaN => false
              end) (seq 0 (S (S t)))) (seq 0 39) = true)
    by (vm_compute; reflexivity).
  rewrite forallb_forall in Hall.
  destruct total as [|t]; [lia|].
  assert (Ht' : In t (seq 0 39)) by (apply in_seq; lia).
  specialize (Hall t Ht'). rewrite forallb_forall in Hall.
  assert (Hc : In done (seq 0 (S (S t)))) by (apply in_seq; lia).
  specialize (Hall done Hc).
  destruct (completionRate (S t) done) as [|z]; [discriminate|].
  apply Z.eqb_eq in Hall. now subst.
Qed.

(** C3. With 23 of 40 tasks completed the rate should be 58: 57.5
    rounded to the nearest integer, the half going up.  The quotient
    23/40 and its product with 100 are rounded to binary64 first, the
    product comes out just below 57.5, and [getStats] returns 57. *)
Theorem getStats_rate_23_of_40 :
  TaskManager.getStats fortyWorld = Normal (mkStats 40 23 (Int 57)) fortyWorld /\
  roundHalfUp (100 * 23) 40 = 58 /\
  Float.mul (Float.div (Float.ofZ 23) (Float.ofZ 40)) (Float.ofZ 100)
    = S754_finite false 8092405580431359 (-47) /\
  Float.div (Float.ofZ (100 * 23)) (Float.ofZ 40)
    = S754_finite false 8092405580431360 (-47).
Proof.
  split; [rewrite getStats_run; f_equal; vm_compute; reflexivity|].
  repeat split; vm_compute; reflexivity.
Qed.

(** ** The loop of the recurring add *)

Section Recurring.

Context `{C : Collator}.
Variables (td : TaskData.t) (start : Z).

Lemma forAcc_recurringTurns (body : Z -> unit -> Script unit) :
  (forall i w, body i tt w = Normal tt (recurringTurn td start i w)) ->
  forall (k : nat) (i : Z) (w : World),
    forAcc k i body tt w = Normal tt (recurringTurns td start k i w).
Proof.
  intros Hbody. induction k as [|k IH]; intros i w; [reflexivity|].
  cbn [forAcc recurringTurns]. cbv [mbind Script_bind].
  rewrite Hbody. apply IH.
Qed.

Lemma addRecurringTask_run (numDays : Z) (w : World) :
  start = currentDate w ->
  TaskManager.addRecurringTask td numDays w =
  let w' := recurringTurns td start (Z.to_nat numDays) 0 w in
  Normal tt (withData (storedRecord w' (currentDate w')) w').
Proof.
  intros Hstart. unfold TaskManager.addRecurringTask.
  cbv [mbind Script_bind get]. rewrite <- Hstart.
  rewrite forAcc_recurringTurns by (intros; reflexivity).
  reflexivity.
Qed.

Lemma recurringTurn_frame (i : Z) (w : World) :
  let w' := recurringTurn td start i w in
  currentDate w' = currentDate w /\ currentData w' = currentData w /\
  oracle w' = oracle w /\ drawn w' = S (drawn w).
Proof. now repeat split. Qed.

Lemma recurringTurns_frame (k : nat) (i : Z) (w : World) :
  let w' := recurringTurns td start k i w in
  currentDate w' = currentDate w /\ currentData w' = currentData w /\
  oracle w' = oracle w /\ drawn w' = (k + drawn w)%nat.
Proof.
  revert i w. induction k as [|k IH]; intros i w; [now repeat split|].
  cbn [recurringTurns]. cbv zeta.
  destruct (IH (i + 1) (recurringTurn td start i w)) as (Hd & Hc & Ho & Hn).
  rewrite Hd, Hc, Ho, Hn. cbn. repeat split. lia.
Qed.

Lemma tokenAt_after_turn (i : Z) (m : nat) (w : World) :
  tokenAt (recurringTurn td start i w) m = tokenAt w (S m).
Proof.
  unfold tokenAt. cbn [recurringTurn oracle drawn withStorage withDrawn].
  now rewrite Nat.add_succ_r.
Qed.

(** A turn writes the key of its own day only. *)
Lemma recurringTurn_lookup_other (i : Z) (w : World) (k : string) :
  k <> StorageManager.key (DateUtil.formatDate (start + i)) ->
  localStorage (recurringTurn td start i w) !! k = localStorage w !! k.
Proof.
  intros Hk. unfold recurringTurn. rewrite addDays_plus.
  cbn [localStorage withStorage]. now apply lookup_insert_ne.
Qed.

Lemma recurringTurn_stored_other (i j : Z) (w : World) :
  j <> i ->
  storedRecord (recurringTurn td start i w) (start + j)
  = storedRecord w (start + j).
Proof.
  intros Hj. unfold storedRecord. rewrite recurringTurn_lookup_other;
    [reflexivity|].
  intros E. apply key_inj in E. lia.
Qed.

Lemma recurringTurn_stored_own (i : Z) (w : World) :
  storedRecord (recurringTurn td start i w) (start + i) =
  DayRecord.setTasks
    (Js.sort TaskManager.byStartTime
       (DayRecord.tasks (storedRecord w (start + i))
        ++ [newTask (tokenAt w 0) td]))
    (storedRecord w (start + i)).
Proof.
  unfold storedRecord at 1. unfold recurringTurn. rewrite addDays_plus.
  cbn [localStorage withStorage]. now rewrite lookup_insert_eq.
Qed.

Lemma recurringTurns_lookup_other (k : nat) (i : Z) (w : World)
    (key : string) :
  (forall m : nat, (m < k)%nat ->
     key <> StorageManager.key
              (DateUtil.formatDate (start + (i + Z.of_nat m)))) ->
  localStorage (recurringTurns td start k i w) !! key
  = localStorage w !! key.
Proof.
  revert i w. induction k as [|k IH]; intros i w Hkey; [reflexivity|].
  cbn [recurringTurns]. rewrite IH.
  - apply recurringTurn_lookup_other.
    specialize (Hkey 0%nat ltac:(lia)).
    now replace (i + Z.of_nat 0) with i in Hkey by lia.
  - intros m Hm. specialize (Hkey (S m) ltac:(lia)).
    now replace (i + 1 + Z.of_nat m) with (i + Z.of_nat (S m)) by lia.
Qed.

Lemma recurringTurns_stored_outside (k : nat) (i j : Z) (w : World) :
  (j < i \/ i + Z.of_nat k <= j) ->
  storedRecord (recurringTurns td start k i w) (start + j)
  = storedRecord w (start + j).
Proof.
  intros Hj. unfold storedRecord. rewrite recurringTurns_lookup_other;
    [reflexivity|].
  intros m Hm E. apply key_inj in E. lia.
Qed.

(** After [k] turns, the day of turn [m] holds what it held before with
    the task of that turn pushed and the list sorted. *)
Lemma recurringTurns_stored (k : nat) (i : Z) (w : World) (m : nat) :
  (m < k)%nat ->
  storedRecord (recurringTurns td start k i w) (start + (i + Z.of_nat m)) =
  DayRecord.setTasks
    (Js.sort TaskManager.byStartTime
       (DayRecord.tasks (storedRecord w (start + (i + Z.of_nat m)))
        ++ [newTask (tokenAt w m) td]))
    (storedRecord w (start + (i + Z.of_nat m))).
Proof.
  revert i w m. induction k as [|k IH]; intros i w m Hm; [lia|].
  cbn [recurringTurns]. destruct m as [|m].
  - replace (i + Z.of_nat 0) with i by lia.
    rewrite recurringTurns_stored_outside by lia.
    apply recurringTurn_stored_own.
  - replace (i + Z.of_nat (S m)) with (i + 1 + Z.of_nat m) by lia.
    rewrite IH by lia.
    rewrite recurringTurn_stored_other by lia.
    now rewrite tokenAt_after_turn.
Qed.

End Recurring.

(** ** The ordering invariant *)

Lemma timesOK_app (l : list Task.t) (t : Task.t) :
  timesOK l -> isHHMM (Task.startTime t) = true -> timesOK (l ++ [t]).
Proof.
  unfold timesOK. intros Hl Ht. apply Forall_app. split; [exact Hl|].
  now repeat constructor.
Qed.

Lemma timesOK_insert (l : list Task.t) (k : nat) (t : Task.t) :
  timesOK l -> isHHMM (Task.startTime t) = true -> timesOK (<[k := t]> l).
Proof. unfold timesOK. intros Hl Ht. now apply Forall_insert. Qed.

Lemma storedRecord_timesOK (w : World) (d : Z) :
  worldTimesOK w -> timesOK (DayRecord.tasks (storedRecord w d)).
Proof.
  intros [_ Hst]. unfold storedRecord.
  destruct (localStorage w !! _) as [r|] eqn:E; cbn [default].
  - exact (Hst _ _ E).
  - constructor.
Qed.

Lemma storedRecord_sorted (w : World) (d : Z) :
  worldSorted w -> tasksSorted (DayRecord.tasks (storedRecord w d)).
Proof.
  intros [_ Hst]. unfold storedRecord.
  destruct (localStorage w !! _) as [r|] eqn:E; cbn [default].
  - exact (Hst _ _ E).
  - constructor.
Qed.

Lemma stored_insert (P : DayRecord.t -> Prop)
    (m : gmap string DayRecord.t) (k0 : string) (r0 : DayRecord.t) :
  (forall k r, m !! k = Some r -> P r) -> P r0 ->
  forall k r, <[k0 := r0]> m !! k = Some r -> P r.
Proof.
  intros Hm H0 k r. destruct (decide (k0 = k)) as [->|Hne].
  - rewrite lookup_insert_eq. now intros [= <-].
  - rewrite lookup_insert_ne by exact Hne. apply Hm.
Qed.

Section Invariant.

Context `{Laws : CollatorLaws}.

Lemma recurringTurn_invariant (td : TaskData.t) (start i : Z) (w : World) :
  isHHMM (TaskData.startTime td) = true ->
  worldTimesOK w ->
  worldTimesOK (recurringTurn td start i w) /\
  (worldSorted w -> worldSorted (recurringTurn td start i w)).
Proof.
  intros Htd Hok.
  assert (Hpushed : timesOK
            (DayRecord.tasks (storedRecord w (DateUtil.addDays start i))
             ++ [newTask (tokenAt w 0) td])).
  { apply timesOK_app; [now apply storedRecord_timesOK|exact Htd]. }
  unfold storedRecord in Hpushed.
  split.
  - split; [exact (proj1 Hok)|].
    unfold recurringTurn. cbn [localStorage withStorage].
    apply stored_insert; [exact (proj2 Hok)|].
    cbn [DayRecord.setTasks DayRecord.tasks]. now apply sort_timesOK.
  - intros Hs. split; [exact (proj1 Hs)|].
    unfold recurringTurn. cbn [localStorage withStorage].
    apply stored_insert; [exact (proj2 Hs)|].
    cbn [DayRecord.setTasks DayRecord.tasks].
    now apply sort_byStartTime_stable.
Qed.

Lemma recurringTurns_invariant (td : TaskData.t) (start : Z) (k : nat)
    (i : Z) (w : World) :
  isHHMM (TaskData.startTime td) = true ->
  worldTimesOK w ->
  worldTimesOK (recurringTurns td start k i w) /\
  (worldSorted w -> worldSorted (recurringTurns td start k i w)).
Proof.
  intros Htd. revert i w. induction k as [|k IH]; intros i w Hok.
  - now split.
  - cbn [recurringTurns].
    destruct (recurringTurn_invariant td start i w Htd Hok) as [Hok1 Hs1].
    destruct (IH (i + 1) _ Hok1) as [Hok2 Hs2].
    split; [exact Hok2|]. intros Hs. apply Hs2, Hs1, Hs.
Qed.

Lemma persisted_invariant (P : list Task.t -> Prop) (w : World) :
  P (DayRecord.tasks (currentData w)) ->
  (forall k r, localStorage w !! k = Some r -> P (DayRecord.tasks r)) ->
  forall k r, localStorage (persisted w) !! k = Some r ->
              P (DayRecord.tasks r).
Proof.
  intros Hcur Hst. unfold persisted. cbn [localStorage withStorage].
  now apply (stored_insert (fun r => P (DayRecord.tasks r))).
Qed.

(** One task mutation keeps the start times well formed and the
    invariant, and sorts the list it touches stably. *)
Lemma runOp_step (op : TaskOp) (w : World) :
  isHHMM (TaskData.startTime (opData op)) = true ->
  worldTimesOK w ->
  let w' := worldOf (runOp op w) in
  worldTimesOK w' /\ (worldSorted w -> worldSorted w') /\
  opSortsStably op w w'.
Proof.
  intros Hop Hok. destruct op as [td|td n|id td]; cbn [opData] in Hop.
  - (* add *)
    cbn [runOp]. cbv [mbind Script_bind]. rewrite addTask_run.
    cbv [mret Script_ret worldOf].
    assert (Hpushed : timesOK (DayRecord.tasks (currentData w)
                               ++ [newTask (tokenAt w 0) td]))
      by (apply timesOK_app; [exact (proj1 Hok)|exact Hop]).
    pose proof (sort_byStartTime_stable _ Hpushed) as Hstable.
    pose proof (sort_timesOK _ Hpushed) as Htimes.
    split; [|split].
    + split; [exact Htimes|].
      apply (persisted_invariant timesOK); [exact Htimes|exact (proj2 Hok)].
    + intros Hs. split; [exact (proj1 Hstable)|].
      apply (persisted_invariant tasksSorted);
        [exact (proj1 Hstable)|exact (proj2 Hs)].
    + exact Hstable.
  - (* recurring add *)
    cbn [runOp]. rewrite (addRecurringTask_run td (currentDate w)) by reflexivity.
    cbv zeta. cbn [worldOf].
    destruct (recurringTurns_invariant td (currentDate w) (Z.to_nat n) 0 w
                Hop Hok) as [Hok' Hs'].
    split; [|split].
    + split; [now apply storedRecord_timesOK|exact (proj2 Hok')].
    + intros Hs. specialize (Hs' Hs).
      split; [now apply storedRecord_sorted|exact (proj2 Hs')].
    + cbn [opSortsStably]. split.
      * intros i Hi.
        change (storedRecord (withData ?d ?v) ?x) with (storedRecord v x).
        pose proof (recurringTurns_stored td (currentDate w) (Z.to_nat n) 0
                      w i Hi) as Hst.
        replace (currentDate w + (0 + Z.of_nat i))
          with (currentDate w + Z.of_nat i) in Hst by lia.
        rewrite Hst. cbn [DayRecord.setTasks DayRecord.tasks].
        apply sort_byStartTime_stable.
        apply timesOK_app; [now apply storedRecord_timesOK|exact Hop].
      * cbn [currentData withData].
        change (storedRecord (withData ?d ?v) ?x) with (storedRecord v x).
        f_equal.
        apply (recurringTurns_frame td (currentDate w) (Z.to_nat n) 0 w).
  - (* update *)
    cbn [runOp opSortsStably].
    destruct (list_find (fun t => Task.id t = id)
                (DayRecord.tasks (currentData w))) as [[k task]|] eqn:Hfind.
    + rewrite (updateTask_found id td w k task Hfind). cbn [worldOf].
      assert (Hmut : timesOK (<[k := updatedTask task td]>
                                (DayRecord.tasks (currentData w))))
        by (apply timesOK_insert; [exact (proj1 Hok)|exact Hop]).
      pose proof (sort_byStartTime_stable _ Hmut) as Hstable.
      pose proof (sort_timesOK _ Hmut) as Htimes.
      split; [|split].
      * split; [exact Htimes|].
        apply (persisted_invariant timesOK); [exact Htimes|exact (proj2 Hok)].
      * intros Hs. split; [exact (proj1 Hstable)|].
        apply (persisted_invariant tasksSorted);
          [exact (proj1 Hstable)|exact (proj2 Hs)].
      * exact Hstable.
    + rewrite (updateTask_missing id td w Hfind). cbn [worldOf].
      split; [exact Hok|]. split; [tauto|reflexivity].
Qed.

End Invariant.

Lemma codeUnitCollator_laws : CollatorLaws codeUnitCollator.
Proof. intros a b _ _. reflexivity. Qed.

Lemma busyWorld_timesOK : worldTimesOK busyWorld.
Proof.
  assert (Hcur : timesOK sampleTasks) by (repeat constructor).
  split; [exact Hcur|].
  apply (persisted_invariant timesOK); [exact Hcur|].
  intros k r. cbn. now rewrite lookup_empty.
Qed.

Lemma busyWorld_sorted : worldSorted busyWorld.
Proof.
  assert (Hcur : tasksSorted sampleTasks) by (repeat constructor).
  split; [exact Hcur|].
  apply (persisted_invariant tasksSorted); [exact Hcur|].
  intros k r. cbn. now rewrite lookup_empty.
Qed.

(** C1. Take a world whose start times are all zero-padded "HH:MM" and
    any sequence of add, recurring add and update that bring such start
    times.  Each operation leaves the task list it touches sorted
    ascending by start time under lexicographic comparison, tasks of
    equal start time in the order they had in the list before the sort
    (the new task last among its equals); an update that finds no task
    leaves the world as it was.  So if the lists are sorted to begin
    with, as they are in an empty store, the record on screen and every
    stored record are sorted after each operation. *)
Theorem tasks_stay_sorted `{Laws : CollatorLaws} (ops : list TaskOp)
    (w : World) :
  worldTimesOK w -> Forall opTimeOK ops ->
  eachStep opSortsStably ops w /\
  (worldSorted w -> Forall worldSorted (worldsAfter ops w)).
Proof.
  intros Hok Hops. revert w Hok.
  induction Hops as [|op ops Hop Hops IH]; intros w Hok.
  - split; [exact I|]. intros _. constructor.
  - destruct (runOp_step op w Hop Hok) as (Hok' & Hs' & Hstable).
    destruct (IH _ Hok') as [Hsteps Hsorted].
    cbn [eachStep worldsAfter]. split.
    + split; [exact Hstable|exact Hsteps].
    + intros Hs. constructor; [now apply Hs'|]. apply Hsorted. now apply Hs'.
Qed.

Lemma tasks_stay_sorted_witness :
  worldTimesOK busyWorld /\ Forall opTimeOK sampleOps /\
  worldSorted busyWorld /\
  Forall worldSorted (@worldsAfter codeUnitCollator sampleOps busyWorld) /\
  map (fun w => map Task.startTime (DayRecord.tasks (currentData w)))
    (@worldsAfter codeUnitCollator sampleOps busyWorld) =
  [ ["08:00"; "09:15"; "10:30"; "14:00"];
    ["07:30"; "08:00"; "09:15"; "10:30"; "14:00"];
    ["07:30"; "07:30"; "08:00"; "09:15"; "14:00"];
    ["07:30"; "07:30"; "08:00"; "09:15"; "14:00"] ].
Proof.
  assert (Hops : Forall opTimeOK sampleOps) by (repeat constructor).
  split; [exact busyWorld_timesOK|]. split; [exact Hops|].
  split; [exact busyWorld_sorted|].
  split.
  - apply (@tasks_stay_sorted codeUnitCollator codeUnitCollator_laws
             sampleOps busyWorld busyWorld_timesOK Hops).
    exact busyWorld_sorted.
  - vm_compute. reflexivity.
Defined.

(** ** Creating tasks *)

(** C2, as amended. [addTask] returns the task it created: not
    completed, carrying the input's fields, with the id that
    [generateId] builds from the clock and the random source.  No check
    is made against the ids already in the record, so the id differs
    from them when that token is not among them.  The record on screen
    gains exactly this one task and is saved.  A recurring add over
    [numDays] days gives each of the days from the current date on
    exactly one new task, not completed, each with the id of its own
    call of [generateId]; it changes no other key of the storage and
    reloads the record on screen. *)
Theorem add_creates_one_open_task `{Collator} (td : TaskData.t) (w : World) :
  (exists w' : World,
     TaskManager.addTask td w = Normal (newTask (tokenAt w 0) td) w' /\
     Task.completed (newTask (tokenAt w 0) td) = false /\
     Task.id (newTask (tokenAt w 0) td) = tokenAt w 0 /\
     (~ In (tokenAt w 0) (map Task.id (DayRecord.tasks (currentData w))) ->
      forall t, In t (DayRecord.tasks (currentData w)) ->
                Task.id t <> Task.id (newTask (tokenAt w 0) td)) /\
     Permutation (DayRecord.tasks (currentData w'))
       (newTask (tokenAt w 0) td :: DayRecord.tasks (currentData w)) /\
     storedRecord w' (currentDate w) = currentData w' /\
     drawn w' = S (drawn w)) /\
  (forall numDays : Z,
   exists w' : World,
     TaskManager.addRecurringTask td numDays w = Normal tt w' /\
     (forall i : nat, (i < Z.to_nat numDays)%nat ->
        let day := currentDate w + Z.of_nat i in
        let task := newTask (tokenAt w i) td in
        Task.completed task = false /\
        Task.id task = tokenAt w i /\
        (~ In (tokenAt w i)
             (map Task.id (DayRecord.tasks (storedRecord w day))) ->
         forall t, In t (DayRecord.tasks (storedRecord w day)) ->
                   Task.id t <> Task.id task) /\
        Permutation (DayRecord.tasks (storedRecord w' day))
          (task :: DayRecord.tasks (storedRecord w day)) /\
        DayRecord.dsTopics (storedRecord w' day)
          = DayRecord.dsTopics (storedRecord w day) /\
        DayRecord.englishActivities (storedRecord w' day)
          = DayRecord.englishActivities (storedRecord w day)) /\
     (forall j : Z, j < 0 \/ Z.of_nat (Z.to_nat numDays) <= j ->
        storedRecord w' (currentDate w + j)
        = storedRecord w (currentDate w + j)) /\
     currentDate w' = currentDate w /\
     currentData w' = storedRecord w' (currentDate w) /\
     drawn w' = (Z.to_nat numDays + drawn w)%nat).
Proof.
  split.
  - eexists. split; [apply addTask_run|].
    split; [reflexivity|]. split; [reflexivity|].
    split.
    { intros Hfresh t Ht E. apply Hfresh. cbn [newTask Task.id] in E.
      rewrite <- E. now apply in_map. }
    cbn [persisted withData withStorage withDrawn currentData currentDate
           drawn DayRecord.setTasks DayRecord.tasks].
    split.
    { rewrite sort_perm. symmetry. apply Permutation_cons_append. }
    split; [|reflexivity].
    unfold storedRecord, persisted.
    cbn [localStorage withStorage withData withDrawn currentDate currentData].
    now rewrite lookup_insert_eq.
  - intros numDays. eexists.
    split; [apply (addRecurringTask_run td (currentDate w)); reflexivity|].
    cbv zeta.
    pose proof (recurringTurns_frame td (currentDate w) (Z.to_nat numDays) 0 w)
      as (Hdate & _ & _ & Hdrawn).
    split; [|split; [|split; [|split]]].
    + intros i Hi.
      change (storedRecord (withData ?d ?v) ?x) with (storedRecord v x).
      pose proof (recurringTurns_stored td (currentDate w)
                    (Z.to_nat numDays) 0 w i Hi) as Hst.
      replace (currentDate w + (0 + Z.of_nat i))
        with (currentDate w + Z.of_nat i) in Hst by lia.
      rewrite Hst. cbn [DayRecord.setTasks DayRecord.tasks DayRecord.dsTopics
                          DayRecord.englishActivities].
      split; [reflexivity|]. split; [reflexivity|].
      split.
      { intros Hfresh t Ht E. apply Hfresh. cbn [newTask Task.id] in E.
        rewrite <- E. now apply in_map. }
      split; [|now split].
      rewrite sort_perm. symmetry. apply Permutation_cons_append.
    + intros j Hj.
      change (storedRecord (withData ?d ?v) ?x) with (storedRecord v x).
      apply recurringTurns_stored_outside. lia.
    + exact Hdate.
    + cbn [currentData withData].
      change (storedRecord (withData ?d ?v) ?x) with (storedRecord v x).
      now rewrite Hdate.
    + exact Hdrawn.
Qed.

Lemma add_creates_one_open_task_witness :
  exists w' : World,
    @TaskManager.addRecurringTask codeUnitCollator sampleData 3 emptyWorld
      = Normal tt w' /\
    map (fun i => DayRecord.tasks (storedRecord w' (19723 + i)))
      [-1; 0; 1; 2; 3] =
    [ [];
      [Task.mk "loyw3v284fzyo82mvyr" "09:15" "09:45" "Revision" "Study" false];
      [Task.mk "loyw3v294fzyo82mvyr" "09:15" "09:45" "Revision" "Study" false];
      [Task.mk "loyw3v2a4fzyo82mvyr" "09:15" "09:45" "Revision" "Study" false];
      [] ].
Proof.
  destruct (proj2 (@add_creates_one_open_task codeUnitCollator sampleData
                     emptyWorld) 3) as (w' & Hrun & _).
  exists w'. split; [exact Hrun|].
  replace w' with
    (worldOf (@TaskManager.addRecurringTask codeUnitCollator sampleData 3
                emptyWorld)) by now rewrite Hrun.
  vm_compute. reflexivity.
Defined.

(** C2, as first stated, has every new id distinct from the ids already
    in the record.  Two adds that read the same millisecond and draw the
    same random number get the same id: the second task's id is already
    in the record. *)
Lemma addTask_id_can_repeat :
  exists (task : Task.t) (w2 : World),
    @TaskManager.addTask codeUnitCollator sampleData stuckWorldAfterAdd
      = Normal task w2 /\
    map Task.id (DayRecord.tasks (currentData stuckWorldAfterAdd))
      = ["loyw3v284fzyo82mvyr"] /\
    Task.id task = "loyw3v284fzyo82mvyr" /\
    In (Task.id task)
      (map Task.id (DayRecord.tasks (currentData stuckWorldAfterAdd))) /\
    map Task.id (DayRecord.tasks (currentData w2))
      = ["loyw3v284fzyo82mvyr"; "loyw3v284fzyo82mvyr"].
Proof.
  eexists _, _.
  split; [apply addTask_run|].
  split; [vm_compute; reflexivity|].
  split; [vm_compute; reflexivity|].
  split; [vm_compute; now left|].
  vm_compute. reflexivity.
Qed.

(** ** Further properties: what the remaining operations compute *)

Lemma toRadix36_nonempty (fuel : nat) (n : N) (acc : string) :
  acc <> "" -> Js.toRadix36 fuel n acc <> "".
Proof.
  revert n acc. induction fuel as [|f IH]; intros n acc Hacc; [exact Hacc|].
  cbn [Js.toRadix36]. destruct (n / 36 =? 0)%N; [discriminate|].
  apply IH. discriminate.
Qed.

Lemma toString36_nonempty (n : N) : Js.toString36 n <> "".
Proof.
  unfold Js.toString36. cbn [Js.toRadix36].
  destruct (n / 36 =? 0)%N; [discriminate|].
  apply toRadix36_nonempty. discriminate.
Qed.

Lemma tokenAt_nonempty (w : World) (k : nat) : tokenAt w k <> "".
Proof.
  unfold tokenAt. pose proof (toString36_nonempty (now (oracle w (k + drawn w)))).
  destruct (Js.toString36 _); [congruence|discriminate].
Qed.

Lemma toggleTask_found (id : string) (w : World) (k : nat) (task : Task.t) :
  list_find (fun t => Task.id t = id) (DayRecord.tasks (currentData w))
    = Some (k, task) ->
  TaskManager.toggleTask id w =
  Normal tt
    (persisted
       (withData
          (DayRecord.setTasks
             (<[k := toggledTask task]> (DayRecord.tasks (currentData w)))
             (currentData w))
          w)).
Proof.
  intros Hfind. unfold TaskManager.toggleTask.
  cbv [mbind Script_bind get]. rewrite Hfind. reflexivity.
Qed.

Lemma deleteTopic_run (id : string) (w : World) :
  DSTopicManager.deleteTopic id w =
  Normal tt
    (persisted
       (withData
          (DayRecord.setDsTopics
             (List.filter (fun t => negb (String.eqb (Topic.id t) id))
                (DayRecord.dsTopics (currentData w)))
             (currentData w))
          w)).
Proof. reflexivity. Qed.

Lemma deleteActivity_some (id : string) (w : World) (l : list Activity.t) :
  DayRecord.englishActivities (currentData w) = Some l ->
  EnglishManager.deleteActivity id w =
  Normal tt
    (persisted
       (withData
          (DayRecord.setEnglishActivities
             (List.filter (fun a => negb (String.eqb (Activity.id a) id)) l)
             (currentData w))
          w)).
Proof.
  intros Hl. unfold EnglishManager.deleteActivity.
  cbv [mbind Script_bind get]. rewrite Hl. reflexivity.
Qed.

Lemma deleteActivity_none (id : string) (w : World) :
  DayRecord.englishActivities (currentData w) = None ->
  EnglishManager.deleteActivity id w = Normal tt w.
Proof.
  intros Hl. unfold EnglishManager.deleteActivity.
  cbv [mbind Script_bind get]. now rewrite Hl.
Qed.

Lemma setDate_run (d : Z) (w : World) :
  AppState.setDate d w
  = Normal tt (withData (storedRecord w d) (withDate d w)).
Proof. reflexivity. Qed.

Lemma prevDay_run (w : World) :
  AppState.prevDay w =
  Normal tt (withData (storedRecord w (currentDate w - 1))
               (withDate (currentDate w - 1) w)).
Proof.
  unfold AppState.prevDay. cbv [mbind Script_bind get].
  rewrite addDays_plus, setDate_run.
  now replace (currentDate w + -1) with (currentDate w - 1) by lia.
Qed.

Lemma nextDay_run (w : World) :
  AppState.nextDay w =
  Normal tt (withData (storedRecord w (currentDate w + 1))
               (withDate (currentDate w + 1) w)).
Proof.
  unfold AppState.nextDay. cbv [mbind Script_bind get].
  now rewrite addDays_plus, setDate_run.
Qed.

Lemma init_run (w : World) :
  AppState.init w =
  Normal tt (withData (storedRecord w (currentDate w)) w).
Proof. reflexivity. Qed.

(** ** Further properties: trimming *)

Lemma trimStart_head (s : string) :
  match Js.trimStart s with
  | EmptyString => True
  | String c _ => Js.isWhite c = false
  end.
Proof.
  induction s as [|c s IH]; [exact I|]. cbn [Js.trimStart].
  destruct (Js.isWhite c) eqn:E; [exact IH|exact E].
Qed.

Lemma trimStart_fixed (s : string) :
  match s with
  | EmptyString => True
  | String c _ => Js.isWhite c = false
  end -> Js.trimStart s = s.
Proof. destruct s as [|c s]; [reflexivity|]. cbn. now intros ->. Qed.

Lemma trimEnd_idem (s : string) : Js.trimEnd (Js.trimEnd s) = Js.trimEnd s.
Proof.
  induction s as [|c s IH]; [reflexivity|]. cbn [Js.trimEnd].
  destruct (Js.isWhite c && Js.isEmpty (Js.trimEnd s)) eqn:E; [reflexivity|].
  cbn [Js.trimEnd]. rewrite IH, E. reflexivity.
Qed.

(** Trimming the end keeps a first character that is not a blank. *)
Lemma trimEnd_head (c : ascii) (s : string) :
  Js.isWhite c = false ->
  exists s', Js.trimEnd (String c s) = String c s'.
Proof. intros Hc. cbn [Js.trimEnd]. rewrite Hc. cbn. eauto. Qed.

Lemma trim_idem (s : string) : Js.trim (Js.trim s) = Js.trim s.
Proof.
  unfold Js.trim.
  assert (Hfix : Js.trimStart (Js.trimEnd (Js.trimStart s))
                 = Js.trimEnd (Js.trimStart s)).
  { pose proof (trimStart_head s) as Hh.
    destruct (Js.trimStart s) as [|c t]; [reflexivity|].
    destruct (trimEnd_head c t Hh) as [t' ->].
    apply trimStart_fixed. exact Hh. }
  rewrite Hfix. apply trimEnd_idem.
Qed.

(** ** Further properties: every listener is a run of record changes *)

Section Listeners.

Context `{C : Collator}.
Variable okTd : TaskData.t -> Prop.

Lemma Completes_bind {A B : Type} (m : Script A) (f : A -> Script B)
    (w : World) :
  Completes okTd m w ->
  (forall a w', m w = Normal a w' -> Completes okTd (f a) w') ->
  Completes okTd (m ≫= f) w.
Proof.
  intros (a & w1 & Hm & Hs1) Hf.
  destruct (Hf a w1 Hm) as (b & w2 & Hf2 & Hs2).
  exists b, w2. split.
  - cbv [mbind Script_bind]. now rewrite Hm.
  - now apply st_trans with w1.
Qed.

Lemma Completes_ret {A : Type} (a : A) (w : World) :
  Completes okTd (mret a) w.
Proof. exists a, w. split; [reflexivity|constructor]. Qed.

Lemma addTask_completes (td : TaskData.t) (w : World) :
  okTd td -> Completes okTd (TaskManager.addTask td) w.
Proof.
  intros Htd. eexists _, _. split; [apply addTask_run|].
  eapply st_trans; [apply (st_drawn okTd (S (drawn w)))|].
  apply (st_mutate okTd _ (withDrawn (S (drawn w)) w)).
  apply (ch_add okTd (currentData w)); [exact Htd|apply tokenAt_nonempty].
Qed.

Lemma updateTask_completes (id : string) (td : TaskData.t) (w : World) :
  okTd td -> Completes okTd (TaskManager.updateTask id td) w.
Proof.
  intros Htd.
  destruct (list_find (fun t => Task.id t = id)
              (DayRecord.tasks (currentData w))) as [[k task]|] eqn:Hfind.
  - eexists _, _. split; [apply (updateTask_found id td w k task Hfind)|].
    apply st_mutate. apply ch_update; [exact Htd|].
    now apply list_find_Some in Hfind as (Hk & _).
  - exists tt, w. split; [now apply updateTask_missing|constructor].
Qed.

Lemma addRecurringTask_completes (td : TaskData.t) (n : Z) (w : World) :
  okTd td -> Completes okTd (TaskManager.addRecurringTask td n) w.
Proof.
  intros Htd. eexists _, _.
  split; [apply (addRecurringTask_run td (currentDate w)); reflexivity|].
  cbv zeta.
  rewrite (proj1 (recurringTurns_frame td (currentDate w) (Z.to_nat n) 0 w)).
  now apply st_recurring.
Qed.

Lemma toggleTask_completes (id : string) (w : World) :
  Completes okTd (TaskManager.toggleTask id) w.
Proof.
  destruct (list_find (fun t => Task.id t = id)
              (DayRecord.tasks (currentData w))) as [[k task]|] eqn:Hfind.
  - eexists _, _. split; [apply (toggleTask_found id w k task Hfind)|].
    apply st_mutate. apply ch_toggle.
    now apply list_find_Some in Hfind as (Hk & _).
  - exists tt, w. split; [now apply toggleTask_missing|constructor].
Qed.

Lemma deleteTask_completes (id : string) (w : World) :
  Completes okTd (TaskManager.deleteTask id) w.
Proof.
  eexists _, _. split; [apply deleteTask_run|].
  apply st_mutate. apply ch_delete.
Qed.

Lemma deleteTopic_completes (id : string) (w : World) :
  Completes okTd (DSTopicManager.deleteTopic id) w.
Proof.
  eexists _, _. split; [apply deleteTopic_run|].
  apply st_mutate. apply ch_deleteTopic.
Qed.

Lemma deleteActivity_completes (id : string) (w : World) :
  Completes okTd (EnglishManager.deleteActivity id) w.
Proof.
  destruct (DayRecord.englishActivities (currentData w)) as [l|] eqn:Hl.
  - eexists _, _. split; [now apply (deleteActivity_some id w l)|].
    apply st_mutate. now apply ch_deleteActivity.
  - exists tt, w. split; [now apply deleteActivity_none|constructor].
Qed.

Lemma onSaveDSTopic_completes (topic duration difficulty resource notes : string)
    (w : World) :
  Completes okTd
    (EventHandlers.onSaveDSTopic topic duration difficulty resource notes) w.
Proof.
  unfold EventHandlers.onSaveDSTopic.
  destruct (Js.trim topic) as [|c t] eqn:Ht; cbn [Js.truthy Js.isEmpty negb].
  - apply Completes_ret.
  - eexists _, _.
    split; [apply (addTopic_run _ topic notes); [reflexivity| |reflexivity];
            rewrite Ht; discriminate|].
    eapply st_trans; [apply (st_drawn okTd (S (drawn w)))|].
    apply (st_mutate okTd _ (withDrawn (S (drawn w)) w)).
    apply (ch_topic okTd (currentData w)).
    split; cbn [Topic.topic]; [rewrite Ht; discriminate|apply trim_idem].
Qed.

Lemma onSaveEnglish_completes (type duration completed content notes : string)
    (w : World) :
  Completes okTd
    (EventHandlers.onSaveEnglish type duration completed content notes) w.
Proof.
  unfold EventHandlers.onSaveEnglish. eexists _, _.
  split; [apply (addActivity_run _ content notes); reflexivity|].
  eapply st_trans; [apply (st_drawn okTd (S (drawn w)))|].
  apply (st_mutate okTd _ (withDrawn (S (drawn w)) w)).
  apply (ch_activity okTd (currentData w)).
Qed.

Lemma onTaskFormSubmit_completes (td : TaskData.t) (r : bool) (v : string)
    (w : World) :
  okTd td -> Completes okTd (EventHandlers.onTaskFormSubmit td r v) w.
Proof.
  intros Htd. unfold EventHandlers.onTaskFormSubmit.
  apply Completes_bind.
  { destruct r.
    - now apply addRecurringTask_completes.
    - apply Completes_bind; [now apply addTask_completes|].
      intros; apply Completes_ret. }
  intros _ w1 _. apply Completes_bind.
  { exists w1, w1. split; [reflexivity|constructor]. }
  intros w2 w3 Hget. injection Hget as <- <-.
  apply Completes_bind.
  { destruct (EventHandlers.editing w1) as [id|].
    - now apply updateTask_completes.
    - apply Completes_bind; [now apply addTask_completes|].
      intros; apply Completes_ret. }
  intros _ w2 _. exists tt, (withEditing None w2).
  split; [reflexivity|constructor].
Qed.

(** Every listener returns normally and changes the world by the steps
    of [Steps] only. *)
Lemma dispatch_completes (e : Event) (w : World) :
  eventOK okTd e -> Completes okTd (dispatch e) w.
Proof.
  intros He. destruct e; cbn [dispatch eventOK] in *.
  - eexists _, _. split; [apply prevDay_run|constructor].
  - eexists _, _. split; [apply nextDay_run|constructor].
  - eexists _, _. split; [reflexivity|apply (st_editing okTd None)].
  - eexists _, _. split; [reflexivity|apply (st_editing okTd (Some taskId))].
  - eexists _, _. split; [reflexivity|apply (st_editing okTd None)].
  - now apply onTaskFormSubmit_completes.
  - apply toggleTask_completes.
  - destruct confirmed; [apply deleteTask_completes|apply Completes_ret].
  - apply onSaveDSTopic_completes.
  - destruct confirmed; [apply deleteTopic_completes|apply Completes_ret].
  - apply onSaveEnglish_completes.
  - destruct confirmed; [apply deleteActivity_completes|apply Completes_ret].
Qed.

End Listeners.

(** ** Further properties: invariants along the steps *)

Lemma sorted_filter (p : Task.t -> bool) (l : list Task.t) :
  tasksSorted l -> tasksSorted (List.filter p l).
Proof.
  unfold tasksSorted. induction 1 as [|x l Hs IH Hx]; cbn; [constructor|].
  destruct (p x); [|exact IH].
  constructor; [exact IH|].
  rewrite List.Forall_forall in *. intros y Hy.
  apply Hx. now apply List.filter_In in Hy as [Hy _].
Qed.

Lemma timesOK_filter (p : Task.t -> bool) (l : list Task.t) :
  timesOK l -> timesOK (List.filter p l).
Proof.
  unfold timesOK. rewrite !List.Forall_forall. intros Hl t Ht.
  apply Hl. now apply List.filter_In in Ht as [Ht _].
Qed.

(** Sortedness depends on the start times only. *)
Lemma sorted_same_times (l l' : list Task.t) :
  map Task.startTime l = map Task.startTime l' ->
  tasksSorted l -> tasksSorted l'.
Proof.
  unfold tasksSorted. intros Hmap Hs. revert l' Hmap.
  induction Hs as [|x l Hs IH Hx]; intros [|x' l'] Hmap;
    try discriminate; [constructor|].
  cbn in Hmap. injection Hmap as Hx' Hl'.
  constructor; [now apply IH|].
  rewrite List.Forall_forall in *. intros y' Hy'.
  assert (Hin : In (Task.startTime y') (map Task.startTime l))
    by (rewrite Hl'; now apply in_map).
  apply in_map_iff in Hin as (y & Hyt & Hy).
  specialize (Hx y Hy). unfold startsNoLater in *. now rewrite <- Hx', <- Hyt.
Qed.

Lemma toggle_same_times (l : list Task.t) (k : nat) (t : Task.t) :
  l !! k = Some t ->
  map Task.startTime (<[k := toggledTask t]> l) = map Task.startTime l.
Proof.
  intros Hk. change (map Task.startTime ?x) with (Task.startTime <$> x).
  rewrite list_fmap_insert. apply list_insert_id.
  now rewrite list_lookup_fmap, Hk.
Qed.

Lemma storedRecord_WorldInv (P : DayRecord.t -> Prop) (w : World) (d : Z) :
  P StorageManager.getDefaultDateData -> WorldInv P w ->
  P (storedRecord w d).
Proof.
  intros Hdef [_ Hst]. unfold storedRecord.
  destruct (localStorage w !! _) as [r|] eqn:E; cbn [default]; eauto.
Qed.

Section StepInvariants.

Context `{C : Collator}.
Variable okTd : TaskData.t -> Prop.

Lemma Steps_inSync (w w' : World) :
  Steps okTd w w' -> inSync w -> inSync w'.
Proof.
  induction 1 as [w|n w|e w|r' w Hch|d w|td k w Htd|w1 w2 w3 _ IH1 _ IH2];
    intros Hsync; try exact Hsync.
  - unfold inSync, storedRecord, persisted.
    cbn [localStorage withStorage withData currentDate currentData].
    now rewrite lookup_insert_eq.
  - reflexivity.
  - unfold inSync. cbn [currentDate currentData withData].
    now rewrite (proj1 (recurringTurns_frame td (currentDate w) k 0 w)).
  - auto.
Qed.

Variable P : DayRecord.t -> Prop.
Hypothesis P_default : P StorageManager.getDefaultDateData.
Hypothesis P_changed : forall r r', Changed okTd r r' -> P r -> P r'.

Lemma recurringTurn_WorldInv (td : TaskData.t) (start i : Z) (w : World) :
  okTd td -> WorldInv P w -> WorldInv P (recurringTurn td start i w).
Proof.
  intros Htd Hw. split; [exact (proj1 Hw)|].
  unfold recurringTurn. cbn [localStorage withStorage].
  apply stored_insert; [exact (proj2 Hw)|].
  apply (P_changed _ _ (ch_add okTd _ (tokenAt w 0) td Htd
                          (tokenAt_nonempty w 0))).
  exact (storedRecord_WorldInv P w (DateUtil.addDays start i) P_default Hw).
Qed.

Lemma recurringTurns_WorldInv (td : TaskData.t) (start : Z) (k : nat)
    (i : Z) (w : World) :
  okTd td -> WorldInv P w -> WorldInv P (recurringTurns td start k i w).
Proof.
  intros Htd. revert i w. induction k as [|k IH]; intros i w Hw; [exact Hw|].
  cbn [recurringTurns]. apply IH. now apply recurringTurn_WorldInv.
Qed.

Lemma Steps_WorldInv (w w' : World) :
  Steps okTd w w' -> WorldInv P w -> WorldInv P w'.
Proof.
  induction 1 as [w|n w|e w|r' w Hch|d w|td k w Htd|w1 w2 w3 _ IH1 _ IH2];
    intros Hw; try exact Hw.
  - assert (Hr : P r') by (apply (P_changed _ _ Hch), Hw).
    split; [exact Hr|].
    unfold persisted. cbn [localStorage withStorage withData].
    apply stored_insert; [exact (proj2 Hw)|exact Hr].
  - split; [|exact (proj2 Hw)].
    now apply storedRecord_WorldInv.
  - pose proof (recurringTurns_WorldInv td (currentDate w) k 0 w Htd Hw)
      as Hturns.
    split; [|exact (proj2 Hturns)].
    now apply storedRecord_WorldInv.
  - auto.
Qed.

End StepInvariants.

(** The worlds after a sequence of events, by the last event. *)
Lemma runEvents_snoc `{Collator} (es : list Event) (e : Event) (w : World) :
  runEvents (es ++ [e]) w = worldOf (dispatch e (runEvents es w)).
Proof. unfold runEvents. now rewrite foldl_snoc. Qed.

Lemma runEvents_Steps `{Collator} (okTd : TaskData.t -> Prop)
    (es : list Event) (w : World) :
  Forall (eventOK okTd) es -> Steps okTd w (runEvents es w).
Proof.
  intros Hes. revert w. induction Hes as [|e es He Hes IH]; intros w.
  - constructor.
  - destruct (dispatch_completes okTd e w He) as ([] & w1 & Hrun & Hs).
    unfold runEvents. cbn [foldl]. rewrite Hrun. cbn [worldOf].
    eapply st_trans; [exact Hs|apply IH].
Qed.

(** ** Further properties: what holds after any sequence of events *)

Lemma changed_sorted `{Laws : CollatorLaws} (r r' : DayRecord.t) :
  Changed timeOK r r' -> recordSorted r -> recordSorted r'.
Proof.
  unfold recordSorted.
  intros Hch [Hok Hs]; destruct Hch as
    [r id td Htd _|r k t td Htd Hk|r id|r k t Hk|r entry _|r id|r a|r id l _];
    cbn [DayRecord.setTasks DayRecord.setDsTopics
           DayRecord.setEnglishActivities DayRecord.tasks];
    try (split; assumption).
  - assert (Hp : timesOK (DayRecord.tasks r ++ [newTask id td]))
      by (apply timesOK_app; assumption).
    split; [now apply sort_timesOK|now apply sort_byStartTime_stable].
  - assert (Hp : timesOK (<[k := updatedTask t td]> (DayRecord.tasks r)))
      by (apply timesOK_insert; assumption).
    split; [now apply sort_timesOK|now apply sort_byStartTime_stable].
  - split; [now apply timesOK_filter|now apply sorted_filter].
  - split.
    + apply timesOK_insert; [exact Hok|].
      unfold timesOK in Hok. rewrite Forall_lookup in Hok.
      exact (Hok k t Hk).
    + apply (sorted_same_times (DayRecord.tasks r)); [|exact Hs].
      symmetry. now apply toggle_same_times.
Qed.

Lemma changed_topics_clean `{Collator} (r r' : DayRecord.t) :
  Changed anyTd r r' -> recordTopicsClean r -> recordTopicsClean r'.
Proof.
  unfold recordTopicsClean.
  intros Hch Hcl; destruct Hch as
    [r id td _ _|r k t td _ Hk|r id|r k t Hk|r entry He|r id|r a|r id l _];
    cbn [DayRecord.setTasks DayRecord.setDsTopics
           DayRecord.setEnglishActivities DayRecord.dsTopics];
    try assumption.
  - apply Forall_app. split; [exact Hcl|].
    constructor; [exact He|constructor].
  - rewrite List.Forall_forall in *. intros t Ht.
    apply Hcl. now apply List.filter_In in Ht as [Ht _].
Qed.

Lemma changed_ids_nonempty `{Collator} (r r' : DayRecord.t) :
  Changed anyTd r r' -> recordIdsNonEmpty r -> recordIdsNonEmpty r'.
Proof.
  unfold recordIdsNonEmpty.
  intros Hch Hids; destruct Hch as
    [r id td _ Hid|r k t td _ Hk|r id|r k t Hk|r entry He|r id|r a|r id l _];
    cbn [DayRecord.setTasks DayRecord.setDsTopics
           DayRecord.setEnglishActivities DayRecord.tasks];
    try assumption.
  - eapply Permutation_Forall; [symmetry; apply sort_perm|].
    apply Forall_app. split; [exact Hids|].
    constructor; [exact Hid|constructor].
  - eapply Permutation_Forall; [symmetry; apply sort_perm|].
    apply Forall_insert; [exact Hids|].
    rewrite Forall_lookup in Hids. exact (Hids k t Hk).
  - rewrite List.Forall_forall in *. intros t Ht.
    apply Hids. now apply List.filter_In in Ht as [Ht _].
  - apply Forall_insert; [exact Hids|].
    rewrite Forall_lookup in Hids. exact (Hids k t Hk).
Qed.


(** X2. After [init] and any sequence of events, the record on screen is
    the record that storage holds for the current date: nothing that is
    shown is unsaved, and nothing saved for the day is not shown. *)
Theorem events_keep_in_sync `{Collator} (es : list Event) (w : World) :
  inSync (runEvents es (worldOf (AppState.init w))).
Proof.
  apply (Steps_inSync anyTd (worldOf (AppState.init w))).
  - apply runEvents_Steps. apply List.Forall_forall. intros e _.
    destruct e; exact I.
  - rewrite init_run. reflexivity.
Qed.

(** X3. When all start times in memory and in storage are zero-padded
    times and all task lists are sorted, they stay so after any sequence
    of events whose task forms bring zero-padded start times: the
    ordering invariant holds for delete, toggle, navigation and the
    topic and activity listeners as well. *)
Theorem events_keep_sorted `{Laws : CollatorLaws} (es : list Event)
    (w : World) :
  worldTimesOK w -> worldSorted w -> Forall (eventOK timeOK) es ->
  worldTimesOK (runEvents es w) /\ worldSorted (runEvents es w).
Proof.
  intros Hok Hs Hes.
  assert (Hinv : WorldInv recordSorted (runEvents es w)).
  { apply (Steps_WorldInv timeOK recordSorted) with (w := w).
    - split; constructor.
    - intros r r'. apply changed_sorted.
    - now apply runEvents_Steps.
    - split; [split; [apply Hok|apply Hs]|].
      intros k r Hk. split; [exact (proj2 Hok k r Hk)|exact (proj2 Hs k r Hk)]. }
  destruct Hinv as [[Hc1 Hc2] Hst].
  split; (split; [assumption|]); intros k r Hk; now destruct (Hst k r Hk).
Qed.

Lemma events_keep_sorted_witness :
  worldTimesOK busyWorld /\ worldSorted busyWorld /\
  Forall (eventOK timeOK) sampleEvents /\
  worldSorted (@runEvents codeUnitCollator sampleEvents busyWorld) /\
  map Task.startTime
    (DayRecord.tasks
       (currentData (@runEvents codeUnitCollator sampleEvents busyWorld)))
  = ["06:00"; "06:00"; "08:00"; "09:15"; "10:30"; "14:00"].
Proof.
  assert (Hes : Forall (eventOK timeOK) sampleEvents)
    by (repeat constructor).
  split; [exact busyWorld_timesOK|]. split; [exact busyWorld_sorted|].
  split; [exact Hes|]. split.
  - exact (proj2 (@events_keep_sorted codeUnitCollator codeUnitCollator_laws
                    sampleEvents busyWorld busyWorld_timesOK
                    busyWorld_sorted Hes)).
  - vm_compute. reflexivity.
Defined.

(** X4. When every stored topic text is non-empty and has no blanks
    around it, that stays so after any sequence of events: the study
    form never stores an empty or unpadded topic. *)
Theorem events_keep_topics_clean `{Collator} (es : list Event) (w : World) :
  WorldInv recordTopicsClean w ->
  WorldInv recordTopicsClean (runEvents es w).
Proof.
  intros Hw.
  apply (Steps_WorldInv anyTd recordTopicsClean) with (w := w).
  - constructor.
  - intros r r'. apply changed_topics_clean.
  - apply runEvents_Steps. apply List.Forall_forall. intros e _.
    destruct e; exact I.
  - exact Hw.
Qed.

Lemma emptyWorld_inv (P : DayRecord.t -> Prop) :
  P StorageManager.getDefaultDateData -> WorldInv P emptyWorld.
Proof.
  intros Hdef. split; [exact Hdef|]. intros k r. cbn. now rewrite lookup_empty.
Qed.

Lemma events_keep_topics_clean_witness :
  WorldInv recordTopicsClean emptyWorld /\
  WorldInv recordTopicsClean
    (@runEvents codeUnitCollator sampleEvents emptyWorld) /\
  map Topic.topic
    (DayRecord.dsTopics
       (currentData (@runEvents codeUnitCollator sampleEvents emptyWorld)))
  = ["Linear Algebra"].
Proof.
  assert (Hw : WorldInv recordTopicsClean emptyWorld)
    by (apply emptyWorld_inv; constructor).
  split; [exact Hw|]. split.
  - exact (@events_keep_topics_clean codeUnitCollator sampleEvents
             emptyWorld Hw).
  - vm_compute. reflexivity.
Defined.

(** X5. When no task has the empty id, none has after any sequence of
    events: generated ids are never empty and no listener rewrites an
    id.  So the id that the edit button puts in [editingTaskId] always
    counts as set when the form is submitted. *)
Theorem events_keep_ids_nonempty `{Collator} (es : list Event) (w : World) :
  WorldInv recordIdsNonEmpty w ->
  WorldInv recordIdsNonEmpty (runEvents es w) /\
  forall id : string,
    In id (map Task.id (DayRecord.tasks (currentData (runEvents es w)))) ->
    EventHandlers.editing (withEditing (Some id) (runEvents es w)) = Some id.
Proof.
  intros Hw.
  assert (Hinv : WorldInv recordIdsNonEmpty (runEvents es w)).
  { apply (Steps_WorldInv anyTd recordIdsNonEmpty) with (w := w).
    - constructor.
    - intros r r'. apply changed_ids_nonempty.
    - apply runEvents_Steps. apply List.Forall_forall. intros e _.
      destruct e; exact I.
    - exact Hw. }
  split; [exact Hinv|].
  intros id Hid. apply in_map_iff in Hid as (t & <- & Ht).
  destruct Hinv as [Hcur _]. unfold recordIdsNonEmpty in Hcur.
  rewrite List.Forall_forall in Hcur. specialize (Hcur t Ht).
  unfold EventHandlers.editing. cbn [editingTaskId withEditing Js.truthy].
  destruct (Task.id t); [congruence|reflexivity].
Qed.

Lemma events_keep_ids_nonempty_witness :
  WorldInv recordIdsNonEmpty emptyWorld /\
  WorldInv recordIdsNonEmpty
    (@runEvents codeUnitCollator sampleEvents emptyWorld).
Proof.
  assert (Hw : WorldInv recordIdsNonEmpty emptyWorld)
    by (apply emptyWorld_inv; constructor).
  split; [exact Hw|].
  exact (proj1 (@events_keep_ids_nonempty codeUnitCollator sampleEvents
                  emptyWorld Hw)).
Defined.

(** ** Further properties: toggle, delete and lookup of tasks *)

Lemma list_find_insert_same {A : Type} (P : A -> Prop)
    `{!forall x, Decision (P x)} (l : list A) (k : nat) (x x' : A) :
  list_find P l = Some (k, x) -> P x' ->
  list_find P (<[k := x']> l) = Some (k, x').
Proof.
  intros Hfind Hx'. apply list_find_Some in Hfind as (Hk & _ & Hbefore).
  apply list_find_Some. split; [|split; [exact Hx'|]].
  - apply list_lookup_insert_eq. now apply lookup_lt_Some in Hk.
  - intros j y Hj Hjk. rewrite list_lookup_insert_ne in Hj by lia.
    now apply (Hbefore j y).
Qed.

Lemma toggledTask_twice (t : Task.t) : toggledTask (toggledTask t) = t.
Proof. destruct t as [i s e n c []]; reflexivity. Qed.

Lemma setTasks_setTasks (l l' : list Task.t) (r : DayRecord.t) :
  DayRecord.setTasks l (DayRecord.setTasks l' r) = DayRecord.setTasks l r.
Proof. reflexivity. Qed.

Lemma completedCount_app (l1 l2 : list Task.t) :
  completedCount (l1 ++ l2) = (completedCount l1 + completedCount l2)%nat.
Proof. unfold completedCount. now rewrite List.filter_app, length_app. Qed.

Lemma completedCount_single (t : Task.t) :
  completedCount [t] = if Task.completed t then 1%nat else 0%nat.
Proof. unfold completedCount. cbn. now destruct (Task.completed t). Qed.

(** X6. Ticking a task twice puts the record back: when a task carries
    the id, two toggles in a row leave the record on screen as it was,
    and it is the record in storage. *)
Theorem toggle_twice_restores (id : string) (w : World) (k : nat)
    (task : Task.t) :
  list_find (fun t => Task.id t = id) (DayRecord.tasks (currentData w))
    = Some (k, task) ->
  exists w1 w2 : World,
    TaskManager.toggleTask id w = Normal tt w1 /\
    TaskManager.toggleTask id w1 = Normal tt w2 /\
    DayRecord.tasks (currentData w1)
      = <[k := toggledTask task]> (DayRecord.tasks (currentData w)) /\
    currentData w2 = currentData w /\
    storedRecord w2 (currentDate w) = currentData w.
Proof.
  intros Hfind.
  pose proof (toggleTask_found id w k task Hfind) as Hrun1.
  set (w1 := persisted (withData (DayRecord.setTasks
         (<[k := toggledTask task]> (DayRecord.tasks (currentData w)))
         (currentData w)) w)) in *.
  assert (Hfind1 : list_find (fun t => Task.id t = id)
                     (DayRecord.tasks (currentData w1))
                   = Some (k, toggledTask task)).
  { apply (list_find_insert_same _ _ _ task); [exact Hfind|].
    now apply list_find_Some in Hfind as (_ & Hid & _). }
  pose proof (toggleTask_found id w1 k (toggledTask task) Hfind1) as Hrun2.
  eexists _, _. split; [exact Hrun1|]. split; [exact Hrun2|].
  split; [reflexivity|].
  assert (Hback : DayRecord.setTasks
            (<[k := toggledTask (toggledTask task)]>
               (DayRecord.tasks (currentData w1)))
            (currentData w1) = currentData w).
  { subst w1. cbn [persisted withData withStorage currentData
                     DayRecord.setTasks DayRecord.tasks].
    rewrite toggledTask_twice, list_insert_insert_eq.
    rewrite list_insert_id
      by (now apply list_find_Some in Hfind as (Hk & _)).
    now destruct (currentData w). }
  split.
  - cbn [persisted withData withStorage currentData]. exact Hback.
  - unfold storedRecord, persisted.
    cbn [localStorage withStorage withData currentDate currentData].
    rewrite lookup_insert_eq. exact Hback.
Qed.

Lemma toggle_twice_restores_witness :
  list_find (fun t => Task.id t = "b2") (DayRecord.tasks (currentData busyWorld))
    = Some (1%nat, Task.mk "b2" "10:30" "11:15" "Bus" "Travel" true) /\
  exists w1 w2 : World,
    TaskManager.toggleTask "b2" busyWorld = Normal tt w1 /\
    TaskManager.toggleTask "b2" w1 = Normal tt w2 /\
    currentData w2 = currentData busyWorld.
Proof.
  split; [reflexivity|].
  destruct (toggle_twice_restores "b2" busyWorld 1%nat
              (Task.mk "b2" "10:30" "11:15" "Bus" "Travel" true) eq_refl)
    as (w1 & w2 & H1 & H2 & _ & Hback & _).
  now exists w1, w2.
Defined.

(** X7. Ticking a task changes one flag only: the first task with the
    id gets its completed flag flipped and keeps its place and its other
    fields, every other task is untouched, so the list stays as sorted
    as it was, the total stays and the completed count moves by exactly
    one. *)
Theorem toggle_flips_one_task (id : string) (w : World) (k : nat)
    (task : Task.t) :
  list_find (fun t => Task.id t = id) (DayRecord.tasks (currentData w))
    = Some (k, task) ->
  exists (w' : World) (before after : list Task.t),
    TaskManager.toggleTask id w = Normal tt w' /\
    DayRecord.tasks (currentData w) = before ++ task :: after /\
    DayRecord.tasks (currentData w') = before ++ toggledTask task :: after /\
    idAbsent id before /\
    (tasksSorted (DayRecord.tasks (currentData w)) ->
     tasksSorted (DayRecord.tasks (currentData w'))) /\
    length (DayRecord.tasks (currentData w'))
      = length (DayRecord.tasks (currentData w)) /\
    (if Task.completed task
     then S (completedCount (DayRecord.tasks (currentData w')))
          = completedCount (DayRecord.tasks (currentData w))
     else completedCount (DayRecord.tasks (currentData w'))
          = S (completedCount (DayRecord.tasks (currentData w)))) /\
    DayRecord.dsTopics (currentData w') = DayRecord.dsTopics (currentData w) /\
    DayRecord.englishActivities (currentData w')
      = DayRecord.englishActivities (currentData w).
Proof.
  intros Hfind.
  destruct (list_find_split _ _ _ _ Hfind)
    as (before & after & Hl & Hlen & Hid & Hbefore & Hins).
  eexists _, before, after.
  split; [apply (toggleTask_found id w k task Hfind)|].
  split; [exact Hl|].
  cbn [persisted withData withStorage currentData DayRecord.setTasks
         DayRecord.tasks DayRecord.dsTopics DayRecord.englishActivities].
  rewrite Hins.
  split; [reflexivity|]. split; [exact Hbefore|].
  split.
  { apply sorted_same_times. rewrite Hl, !map_app. reflexivity. }
  split; [rewrite Hl, !length_app; reflexivity|].
  split; [|now split].
  rewrite Hl, !completedCount_app.
  change (?x :: after) with ([x] ++ after).
  rewrite !completedCount_app, !completedCount_single.
  cbn [toggledTask Task.completed].
  destruct (Task.completed task); cbn [negb]; lia.
Qed.

Lemma toggle_flips_one_task_witness :
  list_find (fun t => Task.id t = "a1") (DayRecord.tasks (currentData busyWorld))
    = Some (0%nat, Task.mk "a1" "08:00" "09:00" "Statistics" "Study" false) /\
  exists w' : World,
    TaskManager.toggleTask "a1" busyWorld = Normal tt w' /\
    map Task.completed (DayRecord.tasks (currentData w')) = [true; true; false].
Proof.
  split; [reflexivity|].
  destruct (toggle_flips_one_task "a1" busyWorld 0%nat
              (Task.mk "a1" "08:00" "09:00" "Statistics" "Study" false) eq_refl)
    as (w' & before & after & Hrun & _).
  exists w'. split; [exact Hrun|].
  replace w' with (worldOf (TaskManager.toggleTask "a1" busyWorld))
    by now rewrite Hrun.
  vm_compute. reflexivity.
Defined.


(** ** Further properties: add, look up, delete *)

Lemma startsNoLater_not_Gt (a b : Task.t) :
  startsNoLater a b -> byCodeUnits a b <> Gt.
Proof.
  unfold startsNoLater, byCodeUnits, String.leb.
  destruct (String.compare _ _); congruence.
Qed.

(** Inserting before a sorted list whose head is no earlier. *)
Lemma insertSorted_front (x : Task.t) (l : list Task.t) :
  Forall (startsNoLater x) l -> Js.insertSorted byCodeUnits x l = x :: l.
Proof.
  intros Hx. destruct l as [|y l]; [reflexivity|]. cbn [Js.insertSorted].
  inversion Hx as [|? ? Hxy _]; subst.
  apply startsNoLater_not_Gt in Hxy.
  destruct (byCodeUnits x y); congruence.
Qed.

(** Sorting a sorted list changes nothing. *)
Lemma sort_sorted (l : list Task.t) :
  tasksSorted l -> Js.sort byCodeUnits l = l.
Proof.
  induction 1 as [|x l Hs IH Hx]; [reflexivity|].
  cbn [Js.sort foldr]. fold (Js.sort byCodeUnits l). rewrite IH.
  now apply insertSorted_front.
Qed.

(** Sorting a sorted list with one task pushed puts that task somewhere
    in the list and moves nothing else. *)
Lemma sort_pushed (l : list Task.t) (t : Task.t) :
  tasksSorted l ->
  exists l1 l2 : list Task.t,
    l = l1 ++ l2 /\ Js.sort byCodeUnits (l ++ [t]) = l1 ++ t :: l2.
Proof.
  induction 1 as [|x l Hs IH Hx].
  - exists [], []. now split.
  - destruct IH as (l1 & l2 & Hl & Hsort).
    change ((x :: l) ++ [t]) with (x :: (l ++ [t])).
    cbn [Js.sort foldr]. fold (Js.sort byCodeUnits (l ++ [t])).
    rewrite Hsort. destruct l1 as [|y l1].
    + cbn [app] in *. subst l2. cbn [Js.insertSorted].
      destruct (byCodeUnits x t) eqn:E.
      * exists [x], l. now split.
      * exists [x], l. now split.
      * exists [], (x :: l). split; [reflexivity|].
        cbn [app]. f_equal. now apply insertSorted_front.
    + exists (x :: y :: l1), l2. split; [now rewrite Hl|].
      cbn [app Js.insertSorted].
      assert (Hxy : startsNoLater x y).
      { rewrite List.Forall_forall in Hx. apply Hx. rewrite Hl. now left. }
      apply startsNoLater_not_Gt in Hxy.
      destruct (byCodeUnits x y); congruence.
Qed.

Lemma filter_other_ids (id : string) (l : list Task.t) :
  idAbsent id l ->
  List.filter (fun t => negb (String.eqb (Task.id t) id)) l = l.
Proof.
  intros Habs. apply filter_all. intros t Ht.
  apply Bool.negb_true_iff, String.eqb_neq. now apply Habs.
Qed.

(** X9. A task that was just added is found under its id: when the id
    that [generateId] returns is not yet in the record, [getTask] on it
    returns exactly the created task. *)
Theorem getTask_after_addTask `{Collator} (td : TaskData.t) (w : World) :
  idAbsent (tokenAt w 0) (DayRecord.tasks (currentData w)) ->
  exists (w' : World),
    TaskManager.addTask td w = Normal (newTask (tokenAt w 0) td) w' /\
    TaskManager.getTask (tokenAt w 0) w'
    = Normal (Some (newTask (tokenAt w 0) td)) w'.
Proof.
  intros Habs. eexists. split; [apply addTask_run|].
  unfold TaskManager.getTask. cbv [mbind Script_bind get mret Script_ret].
  f_equal.
  cbn [persisted withData withStorage currentData DayRecord.setTasks
         DayRecord.tasks].
  set (l := Js.sort TaskManager.byStartTime
              (DayRecord.tasks (currentData w) ++ [newTask (tokenAt w 0) td])).
  assert (Hperm : Permutation l
            (DayRecord.tasks (currentData w) ++ [newTask (tokenAt w 0) td]))
    by apply sort_perm.
  destruct (list_find (fun t => Task.id t = tokenAt w 0) l)
    as [[k t]|] eqn:Hfind.
  - apply list_find_Some in Hfind as (Hk & Hid & _).
    assert (Hin : In t (DayRecord.tasks (currentData w)
                        ++ [newTask (tokenAt w 0) td])).
    { eapply Permutation_in; [exact Hperm|].
      apply list_elem_of_In. eapply list_elem_of_lookup_2. exact Hk. }
    apply in_app_or in Hin as [Hin|[<-|[]]].
    + now apply Habs in Hin.
    + reflexivity.
  - exfalso. apply list_find_None in Hfind.
    rewrite Forall_forall in Hfind.
    apply (Hfind (newTask (tokenAt w 0) td)); [|reflexivity].
    apply list_elem_of_In. eapply Permutation_in; [symmetry; exact Hperm|].
    apply in_or_app. right. now left.
Qed.

Lemma getTask_after_addTask_witness :
  idAbsent (tokenAt busyWorld 0) (DayRecord.tasks (currentData busyWorld)) /\
  exists w' : World,
    @TaskManager.addTask codeUnitCollator sampleData busyWorld
      = Normal (newTask "loyw3v284fzyo82mvyr" sampleData) w' /\
    TaskManager.getTask "loyw3v284fzyo82mvyr" w'
      = Normal (Some (newTask "loyw3v284fzyo82mvyr" sampleData)) w'.
Proof.
  assert (Habs : idAbsent (tokenAt busyWorld 0)
                   (DayRecord.tasks (currentData busyWorld))).
  { intros t Ht. change (In t sampleTasks) in Ht. unfold sampleTasks in Ht.
    simpl in Ht. destruct Ht as [<-|[<-|[<-|[]]]]; vm_compute; discriminate. }
  split; [exact Habs|].
  exact (@getTask_after_addTask codeUnitCollator sampleData busyWorld Habs).
Defined.

(** X10. Adding a task and deleting it again puts the record back: when
    the list on screen is sorted with zero-padded start times and the
    new id is not yet in it, add followed by delete of the created id
    leaves the record on screen as it was, saved under the current
    date. *)
Theorem add_then_delete_restores `{Laws : CollatorLaws} (td : TaskData.t)
    (w : World) :
  timesOK (DayRecord.tasks (currentData w)) ->
  tasksSorted (DayRecord.tasks (currentData w)) ->
  timeOK td ->
  idAbsent (tokenAt w 0) (DayRecord.tasks (currentData w)) ->
  exists (task : Task.t) (w1 w2 : World),
    TaskManager.addTask td w = Normal task w1 /\
    TaskManager.deleteTask (Task.id task) w1 = Normal tt w2 /\
    currentData w2 = currentData w /\
    storedRecord w2 (currentDate w) = currentData w.
Proof.
  intros Hok Hs Htd Habs. eexists _, _, _.
  split; [apply addTask_run|]. split; [apply deleteTask_run|].
  assert (Hback :
    DayRecord.setTasks
      (List.filter
         (fun t => negb (String.eqb (Task.id t)
                           (Task.id (newTask (tokenAt w 0) td))))
         (Js.sort TaskManager.byStartTime
            (DayRecord.tasks (currentData w) ++ [newTask (tokenAt w 0) td])))
      (currentData w) = currentData w).
  { rewrite sort_byStartTime_codeUnits
      by (apply timesOK_app; assumption).
    destruct (sort_pushed _ (newTask (tokenAt w 0) td) Hs)
      as (l1 & l2 & Hl & ->).
    rewrite List.filter_app. cbn [List.filter newTask Task.id].
    rewrite String.eqb_refl. cbn [negb].
    rewrite <- List.filter_app, <- Hl.
    rewrite filter_other_ids by exact Habs. apply setTasks_same. }
  split; [exact Hback|].
  unfold storedRecord, persisted.
  cbn [localStorage withStorage withData withDrawn currentDate currentData].
  rewrite lookup_insert_eq. exact Hback.
Qed.

Lemma add_then_delete_restores_witness :
  timesOK (DayRecord.tasks (currentData busyWorld)) /\
  tasksSorted (DayRecord.tasks (currentData busyWorld)) /\
  timeOK sampleData /\
  idAbsent (tokenAt busyWorld 0) (DayRecord.tasks (currentData busyWorld)) /\
  exists (task : Task.t) (w1 w2 : World),
    @TaskManager.addTask codeUnitCollator sampleData busyWorld
      = Normal task w1 /\
    TaskManager.deleteTask (Task.id task) w1 = Normal tt w2 /\
    currentData w2 = currentData busyWorld.
Proof.
  assert (Habs : idAbsent (tokenAt busyWorld 0)
                   (DayRecord.tasks (currentData busyWorld))).
  { intros t Ht. change (In t sampleTasks) in Ht. unfold sampleTasks in Ht.
    simpl in Ht. destruct Ht as [<-|[<-|[<-|[]]]]; vm_compute; discriminate. }
  split; [exact (proj1 busyWorld_timesOK)|].
  split; [exact (proj1 busyWorld_sorted)|].
  split; [reflexivity|]. split; [exact Habs|].
  destruct (@add_then_delete_restores codeUnitCollator codeUnitCollator_laws
              sampleData busyWorld (proj1 busyWorld_timesOK)
              (proj1 busyWorld_sorted) eq_refl Habs)
    as (task & w1 & w2 & H1 & H2 & H3 & _).
  now exists task, w1, w2.
Defined.

(** X11. Saving the edit form unchanged changes nothing: when the list
    on screen is sorted with zero-padded start times, an update of a
    task with the fields it already has (what the edit dialog fills in)
    leaves the record on screen as it was. *)
Theorem update_with_same_fields_is_noop `{Laws : CollatorLaws} (id : string)
    (w : World) (k : nat) (task : Task.t) :
  timesOK (DayRecord.tasks (currentData w)) ->
  tasksSorted (DayRecord.tasks (currentData w)) ->
  list_find (fun t => Task.id t = id) (DayRecord.tasks (currentData w))
    = Some (k, task) ->
  exists (td : TaskData.t) (w1 w2 : World),
    UI.openEditTaskModal id w = Normal (Some td) w1 /\
    editingTaskId w1 = Some id /\
    TaskManager.updateTask id td w1 = Normal tt w2 /\
    currentData w2 = currentData w.
Proof.
  intros Hok Hs Hfind.
  exists (TaskData.mk (Task.startTime task) (Task.endTime task)
            (Task.name task) (Task.category task)).
  eexists _, _. split.
  { unfold UI.openEditTaskModal, TaskManager.getTask.
    cbv [mbind Script_bind get modify mret Script_ret].
    cbn [withEditing currentData]. rewrite Hfind. reflexivity. }
  split; [reflexivity|].
  split.
  { apply (updateTask_found id _ (withEditing (Some id) w) k task).
    exact Hfind. }
  cbn [persisted withData withStorage withEditing currentData
         DayRecord.setTasks DayRecord.tasks].
  assert (Hsame : updatedTask task
            (TaskData.mk (Task.startTime task) (Task.endTime task)
               (Task.name task) (Task.category task)) = task)
    by now destruct task.
  rewrite Hsame.
  rewrite list_insert_id by (now apply list_find_Some in Hfind as (Hk & _)).
  rewrite sort_byStartTime_codeUnits by exact Hok.
  rewrite sort_sorted by exact Hs. apply setTasks_same.
Qed.

Lemma update_with_same_fields_is_noop_witness :
  timesOK (DayRecord.tasks (currentData busyWorld)) /\
  tasksSorted (DayRecord.tasks (currentData busyWorld)) /\
  exists (td : TaskData.t) (w1 w2 : World),
    UI.openEditTaskModal "b2" busyWorld = Normal (Some td) w1 /\
    td = TaskData.mk "10:30" "11:15" "Bus" "Travel" /\
    @TaskManager.updateTask codeUnitCollator "b2" td w1 = Normal tt w2 /\
    currentData w2 = currentData busyWorld.
Proof.
  split; [exact (proj1 busyWorld_timesOK)|].
  split; [exact (proj1 busyWorld_sorted)|].
  destruct (@update_with_same_fields_is_noop codeUnitCollator
              codeUnitCollator_laws "b2" busyWorld 1%nat
              (Task.mk "b2" "10:30" "11:15" "Bus" "Travel" true)
              (proj1 busyWorld_timesOK) (proj1 busyWorld_sorted) eq_refl)
    as (td & w1 & w2 & Hopen & _ & Hupd & Hback).
  exists td, w1, w2. split; [exact Hopen|].
  split; [|now split].
  assert (Htd : Some td = Some (TaskData.mk "10:30" "11:15" "Bus" "Travel")).
  { replace (Some td) with
      (match UI.openEditTaskModal "b2" busyWorld with
       | Normal a _ => a
       | Throw _ _ => None
       end) by now rewrite Hopen.
    reflexivity. }
  now injection Htd.
Defined.

(** ** Further properties: topics and activities *)

Lemma filter_snoc_fresh {A : Type} (key : A -> string) (id : string)
    (l : list A) (x : A) :
  (forall y, In y l -> key y <> id) -> key x = id ->
  List.filter (fun y => negb (String.eqb (key y) id)) (l ++ [x]) = l.
Proof.
  intros Habs Hx. rewrite List.filter_app. cbn [List.filter].
  rewrite Hx, String.eqb_refl. cbn [negb]. rewrite app_nil_r.
  apply filter_all. intros y Hy.
  apply Bool.negb_true_iff, String.eqb_neq. now apply Habs.
Qed.

(** X12. Saving a study session from the form and deleting it again puts
    the topics back: with a topic that is not blank and a generated id
    that no topic has yet, the save listener appends one topic, saved
    under the generated id, and a delete of that id leaves the record on
    screen as it was. *)
Theorem save_topic_then_delete_restores
    (topic duration difficulty resource notes : string) (w : World) :
  Js.trim topic <> "" ->
  (forall t, In t (DayRecord.dsTopics (currentData w)) ->
             Topic.id t <> tokenAt w 0) ->
  exists (entry : Topic.t) (w1 w2 : World),
    EventHandlers.onSaveDSTopic topic duration difficulty resource notes w
      = Normal tt w1 /\
    DayRecord.dsTopics (currentData w1)
      = DayRecord.dsTopics (currentData w) ++ [entry] /\
    Topic.id entry = tokenAt w 0 /\
    Topic.topic entry = Js.trim topic /\
    DSTopicManager.deleteTopic (Topic.id entry) w1 = Normal tt w2 /\
    currentData w2 = currentData w /\
    storedRecord w2 (currentDate w) = currentData w.
Proof.
  intros Ht Habs.
  set (entry := Topic.mk (tokenAt w 0) (Js.trim topic)
                  (Js.or (JStr duration) JNull)
                  (Js.or (JStr difficulty) (JStr "Intermediate"))
                  (Js.or (JStr resource) (JStr "Other"))
                  (Js.or (JStr (Js.trim notes)) JNull)
                  (DateUtil.formatDate (currentDate w))).
  exists entry. eexists _, _.
  split.
  { unfold EventHandlers.onSaveDSTopic.
    destruct (Js.trim topic) eqn:E; [congruence|].
    cbn [Js.truthy Js.isEmpty negb].
    apply (addTopic_run _ topic notes); [reflexivity| |reflexivity].
    rewrite E. discriminate. }
  cbn [persisted withData withStorage withDrawn currentData
         DayRecord.setDsTopics DayRecord.dsTopics].
  split; [reflexivity|]. cbn [Topic.id Topic.topic].
  split; [reflexivity|]. split; [reflexivity|].
  split; [apply deleteTopic_run|].
  assert (Hback : forall e : Topic.t, Topic.id e = tokenAt w 0 ->
    DayRecord.setDsTopics
      (List.filter (fun t => negb (String.eqb (Topic.id t) (tokenAt w 0)))
         (DayRecord.dsTopics (currentData w) ++ [e]))
      (currentData w) = currentData w).
  { intros e He. rewrite (filter_snoc_fresh Topic.id) by assumption.
    now destruct (currentData w). }
  split; [exact (Hback entry eq_refl)|].
  unfold storedRecord, persisted.
  cbn [localStorage withStorage withData withDrawn currentDate currentData].
  rewrite lookup_insert_eq. exact (Hback entry eq_refl).
Qed.

Lemma save_topic_then_delete_restores_witness :
  Js.trim "  Linear Algebra " <> "" /\
  (forall t, In t (DayRecord.dsTopics (currentData mixedWorld)) ->
             Topic.id t <> tokenAt mixedWorld 0) /\
  exists (entry : Topic.t) (w1 w2 : World),
    EventHandlers.onSaveDSTopic "  Linear Algebra " "45" "" "Video" ""
      mixedWorld = Normal tt w1 /\
    DSTopicManager.deleteTopic (Topic.id entry) w1 = Normal tt w2 /\
    currentData w2 = currentData mixedWorld.
Proof.
  assert (Ht : Js.trim "  Linear Algebra " <> "") by (vm_compute; discriminate).
  assert (Habs : forall t, In t (DayRecord.dsTopics (currentData mixedWorld)) ->
                           Topic.id t <> tokenAt mixedWorld 0).
  { intros t Hin. change (In t mixedTopics) in Hin. unfold mixedTopics in Hin.
    simpl in Hin. destruct Hin as [<-|[<-|[<-|[]]]]; vm_compute; discriminate. }
  split; [exact Ht|]. split; [exact Habs|].
  destruct (save_topic_then_delete_restores "  Linear Algebra " "45" ""
              "Video" "" mixedWorld Ht Habs)
    as (entry & w1 & w2 & H1 & _ & _ & _ & H2 & H3 & _).
  now exists entry, w1, w2.
Defined.

(** X13. The practice form always logs exactly one activity, whatever
    its fields hold; a record without an activity list gets one.  The
    flag is set exactly when the select holds "true", and a delete of
    the generated id, when no other activity has it, leaves the list as
    it was before (an empty list where there was none). *)
Theorem save_activity_appends_one
    (type duration completed content notes : string) (w : World) :
  exists (a : Activity.t) (w1 : World),
    EventHandlers.onSaveEnglish type duration completed content notes w
      = Normal tt w1 /\
    DayRecord.englishActivities (currentData w1)
      = Some (default [] (DayRecord.englishActivities (currentData w))
              ++ [a]) /\
    Activity.id a = tokenAt w 0 /\
    (Activity.completed a = true <-> completed = "true") /\
    ((forall b, In b (default [] (DayRecord.englishActivities (currentData w)))
                -> Activity.id b <> tokenAt w 0) ->
     exists w2 : World,
       EnglishManager.deleteActivity (Activity.id a) w1 = Normal tt w2 /\
       DayRecord.englishActivities (currentData w2)
       = Some (default [] (DayRecord.englishActivities (currentData w)))).
Proof.
  eexists _, _.
  split; [apply (addActivity_run _ content notes); reflexivity|].
  cbn [persisted withData withStorage withDrawn currentData
         DayRecord.setEnglishActivities DayRecord.englishActivities
         ActivityData.type ActivityData.duration ActivityData.completed].
  split; [reflexivity|]. cbn [Activity.id Activity.completed].
  split; [reflexivity|].
  split.
  { rewrite strictEq_true_literal. split; [now intros [= ->]|now intros ->]. }
  intros Habs. eexists.
  split; [apply deleteActivity_some; reflexivity|].
  cbn [persisted withData withStorage withDrawn currentData
         DayRecord.setEnglishActivities DayRecord.englishActivities].
  now rewrite (filter_snoc_fresh Activity.id).
Qed.

(** ** Further properties: storage and navigation *)

Lemma key_of_date_inj (date date' : string) :
  StorageManager.key date = StorageManager.key date' -> date = date'.
Proof. unfold StorageManager.key. apply (inj (String.app _)). Qed.

(** X14. What is saved for a date is what is read for it, and for no
    other: after [saveDateData], [getDateData] returns the saved record
    for the same date text and what it returned before for any other;
    two days never share a key, so saving one day leaves every other
    day's record as it was. *)
Theorem save_then_get (date : string) (data : DayRecord.t) (w : World) :
  exists w1 : World,
    StorageManager.saveDateData date data w = Normal tt w1 /\
    StorageManager.getDateData date w1 = Normal data w1 /\
    (forall date' : string, date' <> date ->
       exists r : DayRecord.t,
         StorageManager.getDateData date' w = Normal r w /\
         StorageManager.getDateData date' w1 = Normal r w1) /\
    (forall d d' : Z, date = DateUtil.formatDate d ->
       storedRecord w1 d' = if decide (d' = d) then data else storedRecord w d').
Proof.
  eexists. split; [reflexivity|].
  split.
  { unfold StorageManager.getDateData. cbv [mbind Script_bind get mret Script_ret].
    cbn [localStorage withStorage]. now rewrite lookup_insert_eq. }
  split.
  { intros date' Hne. eexists. split; [reflexivity|].
    unfold StorageManager.getDateData. cbv [mbind Script_bind get mret Script_ret].
    cbn [localStorage withStorage].
    rewrite lookup_insert_ne; [reflexivity|].
    intros E. apply key_of_date_inj in E. congruence. }
  intros d d' ->. unfold storedRecord. cbn [localStorage withStorage].
  destruct (decide (d' = d)) as [->|Hne].
  - now rewrite lookup_insert_eq.
  - rewrite lookup_insert_ne; [reflexivity|].
    intros E. apply key_inj in E. congruence.
Qed.

(** X15. [clearAll] wipes every day: afterwards every date reads as the
    empty record, [init] puts the empty record on screen with 0 tasks
    and rate 0, and the weekly overview shows 0 for all seven days. *)
Theorem clearAll_wipes_every_day (w : World) :
  exists w1 : World,
    StorageManager.clearAll w = Normal tt w1 /\
    (forall date : string,
       StorageManager.getDateData date w1
       = Normal StorageManager.getDefaultDateData w1) /\
    (exists w2 : World,
       AppState.init w1 = Normal tt w2 /\
       currentData w2 = StorageManager.getDefaultDateData /\
       TaskManager.getStats w2 = Normal (mkStats 0 0 (Int 0)) w2) /\
    (exists cards : list DayCard,
       UI.renderWeeklyOverview w1 = Normal cards w1 /\
       length cards = 7%nat /\
       Forall (fun card => dayCompletion card = Int 0) cards).
Proof.
  eexists. split; [reflexivity|].
  split.
  { intros date. unfold StorageManager.getDateData.
    cbv [mbind Script_bind get mret Script_ret].
    cbn [localStorage withStorage]. now rewrite lookup_empty. }
  split.
  { eexists. split; [apply init_run|].
    unfold storedRecord. cbn [localStorage withStorage withData currentData].
    rewrite lookup_empty. split; reflexivity. }
  eexists. split; [apply renderWeeklyOverview_run|].
  split; [reflexivity|].
  apply Forall_forall. intros card Hcard.
  apply list_elem_of_fmap in Hcard as (j & -> & _).
  unfold dayCardOf, storedRecord. cbn [localStorage withStorage].
  rewrite lookup_empty. reflexivity.
Qed.


(** ** Further properties: the task form *)

Lemma editing_frame (w w' : World) :
  editingTaskId w' = editingTaskId w ->
  EventHandlers.editing w' = EventHandlers.editing w.
Proof. unfold EventHandlers.editing. now intros ->. Qed.

Lemma recurringTurns_editing `{Collator} (td : TaskData.t) (start : Z)
    (k : nat) (i : Z) (w : World) :
  editingTaskId (recurringTurns td start k i w) = editingTaskId w.
Proof.
  revert i w. induction k as [|k IH]; intros i w; [reflexivity|].
  cbn [recurringTurns]. now rewrite IH.
Qed.

Lemma onTaskFormSubmit_plain `{Collator} (td : TaskData.t) (v : string)
    (w : World) :
  EventHandlers.onTaskFormSubmit td false v w =
  match TaskManager.addTask td w with
  | Normal _ w1 =>
      match
        match EventHandlers.editing w1 with
        | Some id => TaskManager.updateTask id td w1
        | None =>
            match TaskManager.addTask td w1 with
            | Normal _ w2 => Normal tt w2
            | Throw e w2 => Throw e w2
            end
        end
      with
      | Normal _ w2 => Normal tt (withEditing None w2)
      | Throw e w2 => Throw e w2
      end
  | Throw e w1 => Throw e w1
  end.
Proof.
  unfold EventHandlers.onTaskFormSubmit.
  cbv [mbind Script_bind get mret Script_ret].
  destruct (TaskManager.addTask td w) as [a w1|e w1]; [|reflexivity].
  destruct (EventHandlers.editing w1); [reflexivity|].
  now destruct (TaskManager.addTask td w1).
Qed.

(** X17. Submitting the task form for a new task adds it twice: with
    the recurring box unticked and no task being edited, the listener
    calls [addTask] in both of its branches, so the record on screen
    gains two tasks with the form's fields, each with the id of its own
    [generateId] call, and the form's state is reset. *)
Theorem submit_new_task_adds_it_twice `{Collator} (td : TaskData.t)
    (v : string) (w : World) :
  EventHandlers.editing w = None ->
  exists w' : World,
    EventHandlers.onTaskFormSubmit td false v w = Normal tt w' /\
    Permutation (DayRecord.tasks (currentData w'))
      (newTask (tokenAt w 0) td :: newTask (tokenAt w 1) td
       :: DayRecord.tasks (currentData w)) /\
    length (DayRecord.tasks (currentData w'))
      = S (S (length (DayRecord.tasks (currentData w)))) /\
    editingTaskId w' = None /\
    storedRecord w' (currentDate w) = currentData w'.
Proof.
  intros Hed. eexists. split.
  { rewrite onTaskFormSubmit_plain, addTask_run.
    rewrite (editing_frame w) by reflexivity. rewrite Hed.
    rewrite addTask_run. reflexivity. }
  cbn [persisted withData withStorage withDrawn withEditing currentData
         currentDate editingTaskId DayRecord.setTasks DayRecord.tasks].
  assert (Hperm : Permutation
    (Js.sort TaskManager.byStartTime
       (Js.sort TaskManager.byStartTime
          (DayRecord.tasks (currentData w) ++ [newTask (tokenAt w 0) td])
        ++ [newTask (tokenAt w 1) td]))
    (newTask (tokenAt w 0) td :: newTask (tokenAt w 1) td
       :: DayRecord.tasks (currentData w))).
  { rewrite sort_perm, sort_perm.
    rewrite <- !Permutation_cons_append. apply perm_swap. }
  split; [exact Hperm|].
  split; [exact (Permutation_length Hperm)|].
  split; [reflexivity|].
  unfold storedRecord, persisted.
  cbn [localStorage withStorage withData withDrawn withEditing currentDate
         currentData].
  now rewrite lookup_insert_eq.
Qed.

Lemma submit_new_task_adds_it_twice_witness :
  EventHandlers.editing emptyWorld = None /\
  exists w' : World,
    @EventHandlers.onTaskFormSubmit codeUnitCollator sampleData false ""
      emptyWorld = Normal tt w' /\
    DayRecord.tasks (currentData w') =
    [ Task.mk "loyw3v284fzyo82mvyr" "09:15" "09:45" "Revision" "Study" false;
      Task.mk "loyw3v294fzyo82mvyr" "09:15" "09:45" "Revision" "Study" false ].
Proof.
  split; [reflexivity|].
  destruct (@submit_new_task_adds_it_twice codeUnitCollator sampleData ""
              emptyWorld eq_refl) as (w' & Hrun & _).
  exists w'. split; [exact Hrun|].
  replace w' with
    (worldOf (@EventHandlers.onTaskFormSubmit codeUnitCollator sampleData
                false "" emptyWorld)) by now rewrite Hrun.
  vm_compute. reflexivity.
Defined.

(** X18. Submitting the task form while a task is being edited rewrites
    that task and adds a new one as well: with the recurring box
    unticked, [addTask] runs first and [updateTask] after it.  When the
    edited id belongs to one task only and the generated id is another,
    the list afterwards holds the rewritten task, a new task with the
    same fields, and the other tasks as they were. *)
Theorem submit_edit_updates_and_adds `{Collator} (td : TaskData.t)
    (v id : string) (w : World) (before after : list Task.t)
    (task : Task.t) :
  EventHandlers.editing w = Some id ->
  DayRecord.tasks (currentData w) = before ++ task :: after ->
  Task.id task = id -> idAbsent id (before ++ after) ->
  tokenAt w 0 <> id ->
  exists w' : World,
    EventHandlers.onTaskFormSubmit td false v w = Normal tt w' /\
    Permutation (DayRecord.tasks (currentData w'))
      (newTask (tokenAt w 0) td :: updatedTask task td :: before ++ after) /\
    length (DayRecord.tasks (currentData w'))
      = S (length (DayRecord.tasks (currentData w))) /\
    editingTaskId w' = None.
Proof.
  intros Hed Hl Hid Habs Htok.
  set (new := newTask (tokenAt w 0) td).
  set (l1 := Js.sort TaskManager.byStartTime
               (DayRecord.tasks (currentData w) ++ [new])).
  assert (Hperm1 : Permutation l1 (task :: new :: before ++ after)).
  { unfold l1. rewrite sort_perm, Hl.
    rewrite <- Permutation_cons_append, <- Permutation_middle.
    apply perm_swap. }
  assert (Hfind : exists k, list_find (fun t => Task.id t = id) l1
                            = Some (k, task)).
  { destruct (list_find (fun t => Task.id t = id) l1) as [[k t]|] eqn:Hf.
    - exists k. do 2 f_equal.
      apply list_find_Some in Hf as (Hk & Hidt & _).
      assert (Hin : In t (task :: new :: before ++ after)).
      { eapply Permutation_in; [exact Hperm1|].
        apply list_elem_of_In. eapply list_elem_of_lookup_2. exact Hk. }
      destruct Hin as [<-|[<-|Hin]]; [reflexivity| |].
      + cbn in Hidt. congruence.
      + now apply Habs in Hin.
    - exfalso. apply list_find_None in Hf. rewrite Forall_forall in Hf.
      apply (Hf task); [|exact Hid].
      apply list_elem_of_In. eapply Permutation_in; [symmetry; exact Hperm1|].
      now left. }
  destruct Hfind as [k Hfind].
  destruct (list_find_split _ _ _ _ Hfind)
    as (b' & a' & Hl1 & _ & _ & _ & Hins).
  assert (Hrest : Permutation (b' ++ a') (new :: before ++ after)).
  { apply (Permutation_cons_inv (a := task)).
    rewrite Permutation_middle, <- Hl1. exact Hperm1. }
  eexists. split.
  { rewrite onTaskFormSubmit_plain, addTask_run.
    rewrite (editing_frame w) by reflexivity. rewrite Hed.
    erewrite updateTask_found; [reflexivity|exact Hfind]. }
  cbn [persisted withData withStorage withDrawn withEditing currentData
         editingTaskId DayRecord.setTasks DayRecord.tasks].
  fold new. fold l1.
  assert (Hperm : Permutation
    (Js.sort TaskManager.byStartTime (<[k := updatedTask task td]> l1))
    (new :: updatedTask task td :: before ++ after)).
  { rewrite sort_perm, Hins, <- Permutation_middle, Hrest. apply perm_swap. }
  split; [exact Hperm|].
  split; [|reflexivity].
  rewrite (Permutation_length Hperm), Hl. cbn [length].
  rewrite !length_app. cbn [length]. lia.
Qed.

Lemma submit_edit_updates_and_adds_witness :
  EventHandlers.editing (withEditing (Some "b2") busyWorld) = Some "b2" /\
  exists w' : World,
    @EventHandlers.onTaskFormSubmit codeUnitCollator sampleData false ""
      (withEditing (Some "b2") busyWorld) = Normal tt w' /\
    map Task.id (DayRecord.tasks (currentData w'))
      = ["a1"; "loyw3v284fzyo82mvyr"; "b2"; "c3"] /\
    map Task.startTime (DayRecord.tasks (currentData w'))
      = ["08:00"; "09:15"; "09:15"; "14:00"].
Proof.
  split; [reflexivity|].
  destruct (@submit_edit_updates_and_adds codeUnitCollator sampleData "" "b2"
              (withEditing (Some "b2") busyWorld)
              [Task.mk "a1" "08:00" "09:00" "Statistics" "Study" false]
              [Task.mk "c3" "14:00" "15:00" "Podcast" "English" false]
              (Task.mk "b2" "10:30" "11:15" "Bus" "Travel" true)
              eq_refl eq_refl eq_refl)
    as (w' & Hrun & _).
  - intros t [<-|[<-|[]]]; discriminate.
  - vm_compute. discriminate.
  - exists w'. split; [exact Hrun|].
    replace w' with
      (worldOf (@EventHandlers.onTaskFormSubmit codeUnitCollator sampleData
                  false "" (withEditing (Some "b2") busyWorld)))
      by now rewrite Hrun.
    split; vm_compute; reflexivity.
Defined.

(** ** Further properties: recurring tasks from the form *)




(** X20. Submitting the task form with the recurring box ticked for
    [n >= 1] days, no task being edited, gives every later day of the
    run one new task and the current day two: [addRecurringTask] is
    followed by [addTask] on the reloaded record. *)
Theorem submit_recurring_adds_today_twice `{Collator} (td : TaskData.t)
    (v : string) (w : World) :
  EventHandlers.editing w = None ->
  0 < EventHandlers.recurringDays v ->
  let n := Z.to_nat (EventHandlers.recurringDays v) in
  exists w' : World,
    EventHandlers.onTaskFormSubmit td true v w = Normal tt w' /\
    Permutation (DayRecord.tasks (currentData w'))
      (newTask (tokenAt w n) td :: newTask (tokenAt w 0) td
       :: DayRecord.tasks (storedRecord w (currentDate w))) /\
    storedRecord w' (currentDate w) = currentData w' /\
    (forall i : nat, (0 < i < n)%nat ->
       Permutation
         (DayRecord.tasks (storedRecord w' (currentDate w + Z.of_nat i)))
         (newTask (tokenAt w i) td
          :: DayRecord.tasks (storedRecord w (currentDate w + Z.of_nat i)))) /\
    (forall j : Z, j < 0 \/ Z.of_nat n <= j ->
       storedRecord w' (currentDate w + j)
       = storedRecord w (currentDate w + j)).
Proof.
  intros Hed Hpos n.
  set (wl := recurringTurns td (currentDate w) n 0 w).
  destruct (recurringTurns_frame td (currentDate w) n 0 w)
    as (Hdate & _ & Horacle & Hdrawn). fold wl in Hdate, Horacle, Hdrawn.
  set (w1 := withData (storedRecord wl (currentDate wl)) wl).
  assert (Hrun1 : TaskManager.addRecurringTask td
                    (EventHandlers.recurringDays v) w = Normal tt w1)
    by (apply (addRecurringTask_run td (currentDate w)); reflexivity).
  assert (Hed1 : EventHandlers.editing w1 = None).
  { rewrite <- Hed. apply editing_frame.
    apply (recurringTurns_editing td (currentDate w) n 0 w). }
  assert (Htok : tokenAt w1 0 = tokenAt w n).
  { unfold tokenAt. cbn [oracle drawn withData w1]. rewrite Horacle, Hdrawn.
    reflexivity. }
  assert (Htoday : DayRecord.tasks (currentData w1) =
            Js.sort TaskManager.byStartTime
              (DayRecord.tasks (storedRecord w (currentDate w))
               ++ [newTask (tokenAt w 0) td])).
  { cbn [currentData withData w1]. rewrite Hdate.
    pose proof (recurringTurns_stored td (currentDate w) n 0 w 0%nat
                  ltac:(lia)) as Hst.
    replace (currentDate w + (0 + Z.of_nat 0)) with (currentDate w)
      in Hst by lia.
    fold wl in Hst. rewrite Hst. reflexivity. }
  eexists. split.
  { unfold EventHandlers.onTaskFormSubmit.
    cbv [mbind Script_bind get mret Script_ret].
    rewrite Hrun1, Hed1, addTask_run. reflexivity. }
  cbn [persisted withData withStorage withDrawn withEditing currentData
         DayRecord.setTasks DayRecord.tasks].
  split.
  { rewrite sort_perm, Htoday, Htok, sort_perm.
    rewrite <- !Permutation_cons_append. reflexivity. }
  assert (Hcur : currentDate w1 = currentDate w) by exact Hdate.
  split.
  { unfold storedRecord, persisted.
    cbn [localStorage withStorage withData withDrawn withEditing currentDate
           currentData].
    rewrite Hcur. now rewrite lookup_insert_eq. }
  assert (Hother : forall j : Z, j <> 0 ->
            storedRecord
              (withEditing None
                 (persisted
                    (withData
                       (DayRecord.setTasks
                          (Js.sort TaskManager.byStartTime
                             (DayRecord.tasks (currentData w1)
                              ++ [newTask (tokenAt w1 0) td]))
                          (currentData w1))
                       (withDrawn (S (drawn w1)) w1))))
              (currentDate w + j)
            = storedRecord wl (currentDate w + j)).
  { intros j Hj. unfold storedRecord, persisted.
    cbn [localStorage withStorage withData withDrawn withEditing currentDate
           currentData].
    rewrite Hcur. rewrite lookup_insert_ne; [reflexivity|].
    intros E. apply key_inj in E. lia. }
  split.
  - intros i Hi. rewrite Hother by lia.
    pose proof (recurringTurns_stored td (currentDate w) n 0 w i
                  ltac:(lia)) as Hst.
    replace (currentDate w + (0 + Z.of_nat i))
      with (currentDate w + Z.of_nat i) in Hst by lia.
    fold wl in Hst. rewrite Hst. cbn [DayRecord.setTasks DayRecord.tasks].
    rewrite sort_perm. symmetry. apply Permutation_cons_append.
  - intros j Hj. rewrite Hother by lia.
    apply recurringTurns_stored_outside. lia.
Qed.

Lemma submit_recurring_adds_today_twice_witness :
  EventHandlers.editing emptyWorld = None /\
  0 < EventHandlers.recurringDays "3" /\
  exists w' : World,
    @EventHandlers.onTaskFormSubmit codeUnitCollator sampleData true "3"
      emptyWorld = Normal tt w' /\
    map (fun i => map Task.id (DayRecord.tasks (storedRecord w' (19723 + i))))
      [0; 1; 2; 3]
    = [ ["loyw3v284fzyo82mvyr"; "loyw3v2b4fzyo82mvyr"];
        ["loyw3v294fzyo82mvyr"]; ["loyw3v2a4fzyo82mvyr"]; [] ].
Proof.
  split; [reflexivity|]. split; [reflexivity|].
  destruct (@submit_recurring_adds_today_twice codeUnitCollator sampleData "3"
              emptyWorld eq_refl eq_refl) as (w' & Hrun & _).
  exists w'. split; [exact Hrun|].
  replace w' with
    (worldOf (@EventHandlers.onTaskFormSubmit codeUnitCollator sampleData
                true "3" emptyWorld)) by now rewrite Hrun.
  vm_compute. reflexivity.
Defined.

(** ** Further properties: what the panels show *)








(** X23. On a day with fewer than 40 tasks the statistics are exact:
    [getStats] returns the number of tasks, the number of completed
    ones, and the exact percentage rounded to the nearest integer (a
    half going up), which lies between 0 and 100. *)
Theorem getStats_exact_on_short_days (w : World) :
  (0 < length (DayRecord.tasks (currentData w)) < 40)%nat ->
  exists st : Stats,
    TaskManager.getStats w = Normal st w /\
    total st = length (DayRecord.tasks (currentData w)) /\
    completed st = completedCount (DayRecord.tasks (currentData w)) /\
    (completed st <= total st)%nat /\
    rate st = Int (roundHalfUp (100 * Z.of_nat (completed st))
                     (Z.of_nat (total st))) /\
    0 <= roundHalfUp (100 * Z.of_nat (completed st)) (Z.of_nat (total st))
      <= 100.
Proof.
  intros Hlen. eexists. split; [apply getStats_run|].
  cbn [total completed rate].
  assert (Hle : (completedCount (DayRecord.tasks (currentData w))
                 <= length (DayRecord.tasks (currentData w)))%nat)
    by apply List.filter_length_le.
  split; [reflexivity|]. split; [reflexivity|]. split; [exact Hle|].
  split; [now apply completionRate_exact_below_40|].
  unfold roundHalfUp.
  fold (completedCount (DayRecord.tasks (currentData w))).
  assert (Hc : 0 <= Z.of_nat (completedCount (DayRecord.tasks (currentData w)))
               <= Z.of_nat (length (DayRecord.tasks (currentData w)))) by lia.
  assert (Ht : 0 < Z.of_nat (length (DayRecord.tasks (currentData w)))) by lia.
  revert Hc Ht.
  generalize (Z.of_nat (completedCount (DayRecord.tasks (currentData w)))).
  generalize (Z.of_nat (length (DayRecord.tasks (currentData w)))).
  intros t c Hc Ht.
  split.
  - apply Z.div_pos; lia.
  - assert (Hlt : (2 * (100 * c) + t) / (2 * t) < 101)
      by (apply Z.div_lt_upper_bound; lia).
    lia.
Qed.

Lemma getStats_exact_on_short_days_witness :
  (0 < length (DayRecord.tasks (currentData busyWorld)) < 40)%nat /\
  TaskManager.getStats busyWorld = Normal (mkStats 3 1 (Int 33)) busyWorld.
Proof.
  assert (Hlen : (0 < length (DayRecord.tasks (currentData busyWorld)) < 40)%nat)
    by (cbn; lia).
  split; [exact Hlen|].
  destruct (getStats_exact_on_short_days busyWorld Hlen)
    as (st & Hrun & Ht & Hc & _ & Hr & _).
  rewrite Hrun. f_equal. destruct st as [t c r].
  cbn [total completed rate] in *. subst. reflexivity.
Defined.

(** ** Further properties: weeks and keys *)

Lemma getStartOfWeek_within (d i : Z) :
  0 <= i < 7 ->
  DateUtil.getStartOfWeek (DateUtil.getStartOfWeek d + i)
  = DateUtil.getStartOfWeek d.
Proof.
  intros Hi. unfold DateUtil.getStartOfWeek.
  rewrite !setDate_getDate_plus. unfold JsDate.getDay.
  destruct (Z.eqb_spec ((d + 4) mod 7) 0) as [E|E].
  - destruct (Z.eqb_spec ((d + -6 + i + 4) mod 7) 0) as [E'|E'];
      Z.div_mod_to_equations; lia.
  - destruct (Z.eqb_spec ((d + (1 - (d + 4) mod 7) + i + 4) mod 7) 0)
      as [E'|E']; Z.div_mod_to_equations; lia.
Qed.

Lemma getDay_of_week (d i : Z) :
  0 <= i < 7 ->
  JsDate.getDay (DateUtil.getStartOfWeek d + i) = (1 + i) mod 7.
Proof.
  intros Hi. destruct (getStartOfWeek_spec d) as (_ & _ & Hmon & _).
  unfold JsDate.getDay in *. Z.div_mod_to_equations; lia.
Qed.

(** X24. The weekly overview is the same from every day of the week: it
    always lists Monday to Sunday in that order, and putting any of
    those seven days on screen gives the same week start and the same
    seven cards. *)
Theorem overview_same_all_week (w : World) (i : Z) :
  0 <= i < 7 ->
  exists cards : list DayCard,
    UI.renderWeeklyOverview w = Normal cards w /\
    map dayName cards = ["Mon"; "Tue"; "Wed"; "Thu"; "Fri"; "Sat"; "Sun"] /\
    weekStart (withDate (weekStart w + i) w) = weekStart w /\
    UI.renderWeeklyOverview (withDate (weekStart w + i) w)
    = Normal cards (withDate (weekStart w + i) w).
Proof.
  intros Hi. eexists. split; [apply renderWeeklyOverview_run|].
  split.
  { assert (Hname : forall j, 0 <= j < 7 ->
      DateUtil.getDayName (DateUtil.getStartOfWeek (currentDate w) + j) =
      match j with
      | 0 => "Mon" | 1 => "Tue" | 2 => "Wed" | 3 => "Thu"
      | 4 => "Fri" | 5 => "Sat" | _ => "Sun"
      end).
    { intros j Hj. unfold DateUtil.getDayName, JsDate.weekdayShort.
      rewrite getDay_of_week by exact Hj.
      assert (Hc : j = 0 \/ j = 1 \/ j = 2 \/ j = 3 \/ j = 4 \/ j = 5 \/ j = 6)
        by lia.
      destruct Hc as [->|[->|[->|[->|[->|[->| ->]]]]]]; reflexivity. }
    change (seqZ 0 7) with [0; 1; 2; 3; 4; 5; 6].
    cbn [map dayCardOf dayName].
    rewrite !Hname by lia. reflexivity. }
  assert (Hstart : weekStart (withDate (weekStart w + i) w) = weekStart w).
  { unfold weekStart. cbn [currentDate withDate].
    now apply getStartOfWeek_within. }
  split; [exact Hstart|].
  rewrite renderWeeklyOverview_run. f_equal.
  fold (weekStart (withDate (weekStart w + i) w)). rewrite Hstart.
  reflexivity.
Qed.

Lemma overview_same_all_week_witness :
  0 <= 5 < 7 /\
  weekStart emptyWorld = 19723 /\
  weekStart (withDate 19728 emptyWorld) = 19723 /\
  exists cards : list DayCard,
    UI.renderWeeklyOverview emptyWorld = Normal cards emptyWorld /\
    UI.renderWeeklyOverview (withDate 19728 emptyWorld)
    = Normal cards (withDate 19728 emptyWorld).
Proof.
  split; [lia|]. split; [reflexivity|]. split; [reflexivity|].
  destruct (overview_same_all_week emptyWorld 5 ltac:(lia))
    as (cards & H1 & _ & _ & H2).
  exists cards. split; [exact H1|exact H2].
Defined.

(** X25. In a world where screen and storage are in step, the card of
    the current day in the weekly overview carries the rate that the
    progress panel shows. *)
Theorem overview_shows_todays_rate (w : World) :
  inSync w ->
  exists (cards : list DayCard) (card : DayCard) (st : Stats),
    UI.renderWeeklyOverview w = Normal cards w /\
    TaskManager.getStats w = Normal st w /\
    cards !! Z.to_nat (isoWeekday (currentDate w) - 1) = Some card /\
    dayCompletion card = rate st /\
    dayDate card = DateUtil.getDateString (currentDate w).
Proof.
  intros Hsync.
  destruct (getStartOfWeek_spec (currentDate w)) as (Hiso & _ & _ & Hrange).
  set (i := isoWeekday (currentDate w) - 1) in *.
  assert (Hi : 0 <= i < 7) by lia.
  assert (Hday : DateUtil.getStartOfWeek (currentDate w) + i = currentDate w)
    by lia.
  eexists _, _, _. split; [apply renderWeeklyOverview_run|].
  split; [apply getStats_run|].
  split.
  { rewrite list_lookup_fmap.
    rewrite (proj2 (lookup_seqZ 0 7 (Z.to_nat i) i)) by lia. reflexivity. }
  replace (DateUtil.getStartOfWeek (currentDate w) + i)
    with (currentDate w) by lia.
  unfold dayCardOf. cbn [dayCompletion dayDate rate].
  rewrite Hsync. now split.
Qed.

Lemma overview_shows_todays_rate_witness :
  inSync busyWorld /\
  exists cards : list DayCard,
    UI.renderWeeklyOverview busyWorld = Normal cards busyWorld /\
    cards !! 0%nat = Some (mkDayCard "Mon" "1/1" (Int 33)).
Proof.
  assert (Hsync : inSync busyWorld).
  { unfold inSync, storedRecord, busyWorld, persisted.
    cbn [localStorage withStorage withData currentDate currentData].
    now rewrite lookup_insert_eq. }
  split; [exact Hsync|].
  destruct (overview_shows_todays_rate busyWorld Hsync)
    as (cards & card & st & Hrun & _).
  exists cards. split; [exact Hrun|].
  replace cards with
    (match UI.renderWeeklyOverview busyWorld with
     | Normal c _ => c
     | Throw _ _ => []
     end) by now rewrite Hrun.
  vm_compute. reflexivity.
Defined.

Lemma four_digit_year (y : Z) :
  1000 <= y <= 9999 ->
  String.length (Js.toString (JNum (Int y))) = 4%nat /\
  allDigits (Js.toString (JNum (Int y))) = true.
Proof.
  intros Hy.
  assert (Hall : forallb (fun k =>
            Nat.eqb (String.length (Js.toString (JNum (Int k)))) 4 &&
            allDigits (Js.toString (JNum (Int k)))) (seqZ 1000 9000) = true)
    by (vm_compute; reflexivity).
  rewrite forallb_forall in Hall.
  specialize (Hall y (proj1 (list_elem_of_In _ _)
    (proj2 (elem_of_seqZ 1000 9000 y) ltac:(lia)))).
  apply andb_prop in Hall as [Hlen Hdig].
  split; [now apply Nat.eqb_eq|exact Hdig].
Qed.

Lemma twoDigits_allDigits (n : Z) :
  1 <= n <= 31 -> allDigits (twoDigits n) = true.
Proof.
  intros Hn.
  assert (Hall : forallb (fun k => allDigits (twoDigits k)) (seqZ 1 31) = true)
    by (vm_compute; reflexivity).
  rewrite forallb_forall in Hall.
  exact (Hall n (proj1 (list_elem_of_In _ _)
    (proj2 (elem_of_seqZ 1 31 n) ltac:(lia)))).
Qed.

(** X26. For a date in the years 1000 to 9999 the key text is
    "YYYY-MM-DD": four digits, a dash, the two digits of the month (01
    to 12), a dash and the two digits of the day (01 to 31), ten
    characters in all; and different days have different texts. *)
Theorem formatDate_shape (d : Z) :
  1000 <= JsDate.getFullYear d <= 9999 ->
  exists y m dd : string,
    DateUtil.formatDate d = y +:+ "-" +:+ m +:+ "-" +:+ dd /\
    String.length y = 4%nat /\ String.length m = 2%nat /\
    String.length dd = 2%nat /\
    allDigits y = true /\ allDigits m = true /\ allDigits dd = true /\
    readTwoDigits m = JsDate.getMonth d + 1 /\
    1 <= JsDate.getMonth d + 1 <= 12 /\
    readTwoDigits dd = JsDate.getDate d /\
    1 <= JsDate.getDate d <= 31 /\
    String.length (DateUtil.formatDate d) = 10%nat /\
    forall d' : Z, d' <> d -> DateUtil.formatDate d' <> DateUtil.formatDate d.
Proof.
  intros Hy.
  destruct (civil_inverse d) as (_ & Hm & Hd).
  assert (Hm' : 1 <= JsDate.getMonth d + 1 <= 12)
    by (unfold JsDate.getMonth; lia).
  assert (Hd' : 1 <= JsDate.getDate d <= 31) by exact Hd.
  destruct (four_digit_year _ Hy) as [Ly Dy].
  destruct (twoDigits_spec (JsDate.getMonth d + 1) ltac:(lia)) as [Lm Rm].
  destruct (twoDigits_spec (JsDate.getDate d) ltac:(lia)) as [Ld Rd].
  exists (Js.toString (JNum (Int (JsDate.getFullYear d)))),
    (twoDigits (JsDate.getMonth d + 1)), (twoDigits (JsDate.getDate d)).
  split; [reflexivity|].
  split; [exact Ly|]. split; [exact Lm|]. split; [exact Ld|].
  split; [exact Dy|].
  split; [apply twoDigits_allDigits; lia|].
  split; [apply twoDigits_allDigits; lia|].
  split; [exact Rm|]. split; [exact Hm'|].
  split; [exact Rd|]. split; [exact Hd'|].
  split.
  - change (DateUtil.formatDate d) with
      (Js.toString (JNum (Int (JsDate.getFullYear d))) +:+ "-" +:+
       twoDigits (JsDate.getMonth d + 1) +:+ "-" +:+
       twoDigits (JsDate.getDate d)).
    rewrite !string_length_app, Ly, Lm, Ld. reflexivity.
  - intros d' Hne E. apply formatDate_inj in E. contradiction.
Qed.

Lemma formatDate_shape_witness :
  1000 <= JsDate.getFullYear 19782 <= 9999 /\
  DateUtil.formatDate 19782 = "2024-02-29" /\
  DateUtil.formatDate 19783 = "2024-03-01" /\
  String.length (DateUtil.formatDate 19782) = 10%nat.
Proof.
  assert (Hy : 1000 <= JsDate.getFullYear 19782 <= 9999)
    by (vm_compute; split; discriminate).
  split; [exact Hy|]. split; [reflexivity|]. split; [reflexivity|].
  destruct (formatDate_shape 19782 Hy)
    as (y & m & dd & _ & _ & _ & _ & _ & _ & _ & _ & _ & _ & _ & Hlen & _).
  exact Hlen.
Defined.
